(** * The gateway's reload coordinator, control-API wrappers, dashboard
      heartbeat and Go-plugin response slot

    Shallow embedding of [gateway/server.go], [gateway/dashboard_register.go],
    [gateway/res_handler_go_plugin.go] and the policy loaders, followed by the
    properties of the specification that concern them.

    Conventions.  Go [int] values are [Z]; Go strings are [string] (byte
    sequences); a Go [map[string]T] is a [gmap string T]; a Go [error] is an
    [option string] ([None] is [nil]).  Code that talks to the outside world
    (HTTP client, RPC store, file system, loaded plugin) reads its answers from
    an explicit environment and records what it does in an event trace. *)

From Stdlib Require Import ZArith String Ascii List Bool Lia.
From stdpp Require Import gmap strings list fin_maps pretty.

(* ===================================================================== *)
(** * Part I: definitions                                                  *)
(* ===================================================================== *)

(** ** Strings *)

(** Membership of a byte in a cutset, as [strings.TrimRight] tests it. *)
Fixpoint in_cutset (c : ascii) (cutset : string) : bool :=
  match cutset with
  | EmptyString => false
  | String d rest => Ascii.eqb c d || in_cutset c rest
  end.

(** [strings.TrimRight(s, cutset)]: [s] without its trailing bytes that
    belong to [cutset] (the cutsets used here are ASCII). *)
Fixpoint TrimRight (s cutset : string) : string :=
  match s with
  | EmptyString => EmptyString
  | String c rest =>
      match TrimRight rest cutset with
      | EmptyString =>
          if in_cutset c cutset then EmptyString else String c EmptyString
      | t => String c t
      end
  end.

(** [n] copies of the byte [c]. *)
Fixpoint repeat_char (c : ascii) (n : nat) : string :=
  match n with
  | O => EmptyString
  | S k => String c (repeat_char c k)
  end.

(** The last byte of a string, if any. *)
Fixpoint last_char (s : string) : option ascii :=
  match s with
  | EmptyString => None
  | String c EmptyString => Some c
  | String _ rest => last_char rest
  end.

(** ** Logging *)

Inductive Level := LvlDebug | LvlInfo | LvlWarning | LvlError | LvlFatal.

(** A log line: level, message and the fields attached to it. *)
Record LogEntry := mkLog {
  level : Level;
  message : string;
  fields : list (string * string)
}.

(** ** net/http: requests, headers and the response writer *)

(** Addresses of heap-allocated [url.URL] values. *)
Definition loc := nat.

Record url_URL := mkURL {
  Scheme : string;
  Host : string;
  Path : string;
  RawPath : string;
  RawQuery : string
}.

Definition set_Path (u : url_URL) (p : string) : url_URL :=
  {| Scheme := Scheme u; Host := Host u; Path := p;
     RawPath := RawPath u; RawQuery := RawQuery u |}.

(** [http.Header]: canonical key to its values. *)
Abbreviation http_Header := (gmap string (list string)).

(** [Header.Get]: the first value of the key, or the empty string.  The keys
    used below are constants that are already in canonical form. *)
Definition Header_Get (h : http_Header) (key : string) : string :=
  match h !! key with
  | Some (v :: _) => v
  | _ => EmptyString
  end.

Definition Header_Set (h : http_Header) (key value : string) : http_Header :=
  <[key := [value]]> h.

(** [http.Request]; [URL] is a pointer, so a copied request shares its URL
    with the original. *)
Record Request := mkRequest {
  Method : string;
  URL : loc;
  Header : http_Header;
  Body : string;
  RemoteAddr : string
}.

(** The status message the control API answers with (type [apiStatusMessage]). *)
Record apiStatusMessage := mkStatusMsg { Status : string; Message : string }.

(** What has been written to a response body. *)
Inductive payload :=
| Raw (data : string)
| JSON (v : apiStatusMessage).

(** The state of an [http.ResponseWriter]: the header map, and what has been
    sent to the client.  The first [WriteHeader] fixes the status line and the
    headers; later calls are superfluous and ignored by net/http. *)
Record ResponseWriter := mkRW {
  header : http_Header;
  wroteHeader : bool;
  statusCode : Z;
  sentHeader : http_Header;
  body : list payload
}.

Definition newResponseWriter : ResponseWriter :=
  {| header := ∅; wroteHeader := false; statusCode := 0;
     sentHeader := ∅; body := [] |}.

Definition StatusOK : Z := 200.
Definition StatusBadRequest : Z := 400.
Definition StatusForbidden : Z := 403.
Definition StatusInternalServerError : Z := 500.

Definition rw_Header_Set (k v : string) (w : ResponseWriter) : ResponseWriter :=
  {| header := Header_Set (header w) k v; wroteHeader := wroteHeader w;
     statusCode := statusCode w; sentHeader := sentHeader w; body := body w |}.

Definition WriteHeader (code : Z) (w : ResponseWriter) : ResponseWriter :=
  if wroteHeader w then w
  else {| header := header w; wroteHeader := true; statusCode := code;
          sentHeader := header w; body := body w |}.

Definition Write (p : payload) (w : ResponseWriter) : ResponseWriter :=
  let w' := WriteHeader StatusOK w in
  {| header := header w'; wroteHeader := wroteHeader w';
     statusCode := statusCode w'; sentHeader := sentHeader w';
     body := body w' ++ [p] |}.

(** The part of the process a handler works on: the URL heap, the client's
    response writer and the log. *)
Record World := mkWorld {
  urls : gmap loc url_URL;
  writer : ResponseWriter;
  logs : list LogEntry
}.

Definition set_urls (m : gmap loc url_URL) (σ : World) : World :=
  {| urls := m; writer := writer σ; logs := logs σ |}.

Definition set_writer (w : ResponseWriter) (σ : World) : World :=
  {| urls := urls σ; writer := w; logs := logs σ |}.

Definition log_append (lv : Level) (msg : string)
  (flds : list (string * string)) (σ : World) : World :=
  {| urls := urls σ; writer := writer σ;
     logs := logs σ ++ [mkLog lv msg flds] |}.

(** A call either returns or panics. *)
Inductive Result :=
| Returned (σ : World)
| Panicked (v : string) (σ : World).

(** [http.Handler]: [ServeHTTP(w, r)] acting on the world. *)
Definition Handler := Request -> World -> Result.

(** ** The control API wrappers ([gateway/server.go]) *)

Definition XTykAuthorization : string := "X-Tyk-Authorization".
Definition ContentType : string := "Content-Type".
Definition ApplicationJSON : string := "application/json".

(** Modelled from the spec: [apiError], which this development does not
    embed, builds the error object of a user-visible failure (section 7:
    failures are JSON, with an error body). *)
Definition apiError (msg : string) : apiStatusMessage :=
  {| Status := "error"; Message := msg |}.

(** Modelled from the spec: [doJSONWrite(w, code, obj)], which this
    development does not embed, answers with the status [code] and [obj]
    encoded as JSON (section 7: user-visible failures are JSON). *)
Definition doJSONWrite (code : Z) (obj : apiStatusMessage) (σ : World) : World :=
  set_writer
    (Write (JSON obj)
       (WriteHeader code
          (rw_Header_Set ContentType ApplicationJSON (writer σ)))) σ.

(** [stripSlashes]: removes any trailing slashes from the request's URL path.
    [r2 := *r] copies the request struct, not the URL it points to, so the
    assignment [r2.URL.Path = trim] is a store into the shared URL. *)
Definition stripSlashes (next : Handler) : Handler :=
  fun r σ =>
    match urls σ !! URL r with
    | None => Panicked "nil pointer dereference" σ
    | Some u =>
        let path := Path u in
        let trim := TrimRight path "/" in
        if negb (String.eqb trim path) then
          let r2 := r in
          next r2 (set_urls (<[URL r2 := set_Path u trim]> (urls σ)) σ)
        else next r σ
    end.

Definition invalidKeyMessage : string :=
  "Attempted administrative access with invalid or missing key!".

(** [checkIsAPIOwner]: the accessor of the control API must present the
    shared secret of the configuration. *)
Definition checkIsAPIOwner (secret : string) (next : Handler) : Handler :=
  fun r σ =>
    let tykAuthKey := Header_Get (Header r) XTykAuthorization in
    if negb (String.eqb tykAuthKey secret) then
      Returned
        (doJSONWrite StatusForbidden (apiError invalidKeyMessage)
           (log_append LvlWarning invalidKeyMessage [] σ))
    else next r σ.

(** The handler installed under [/tyk/] by [loadControlAPIEndpoints], inside
    [http.StripPrefix]: [stripSlashes(gw.checkIsAPIOwner(inner))]. *)
Definition controlAPIHandler (secret : string) (inner : Handler) : Handler :=
  stripSlashes (checkIsAPIOwner secret inner).

(** ** The Go-plugin response slot ([gateway/res_handler_go_plugin.go]) *)

(** [http.Response], as handed to a response middleware. *)
Record Response := mkResponse {
  res_StatusCode : Z;
  res_Header : http_Header;
  res_Body : string
}.

(** A call a plugin makes on the writer it is given. *)
Inductive WriterCall :=
| CallHeaderSet (k v : string)
| CallWriteHeader (code : Z)
| CallWrite (data : string).

(** One run of a plugin function: the calls it makes on its writer, in order,
    and whether it then returns ([None]) or panics with a value. *)
Record PluginRun := mkRun {
  calls : list WriterCall;
  panics : option string
}.

(** The symbol loaded from the plugin file: opaque code, determined by what
    it is given. *)
Definition ResHandlerFunc := Response -> Request -> PluginRun.

(** The bookkeeping fields of [customResponseWriter]; the [ResponseWriter] it
    embeds is the client's writer of the world. *)
Record customResponseWriter := mkCRW {
  responseSent : bool;
  statusCodeSent : Z;
  copyData : bool;
  data : string
}.

(** Modelled from the spec: the methods of [customResponseWriter], which this
    development does not embed.  The struct literal [ResponseWriter: w] embeds
    the client's writer, so a call on the wrapper reaches [w]; the wrapper
    records that a response was sent and with which status, the two fields
    [HandleGoPluginResponse] reads (section 4.8: a handler that writes a
    response terminates the pipeline with that response). *)
Definition crw_call (c : WriterCall) (st : customResponseWriter * World)
  : customResponseWriter * World :=
  let '(rw, σ) := st in
  match c with
  | CallHeaderSet k v => (rw, set_writer (rw_Header_Set k v (writer σ)) σ)
  | CallWriteHeader code =>
      ({| responseSent := true; statusCodeSent := code;
          copyData := copyData rw; data := data rw |},
       set_writer (WriteHeader code (writer σ)) σ)
  | CallWrite b =>
      ({| responseSent := true;
          statusCodeSent :=
            if (statusCodeSent rw =? 0)%Z then StatusOK else statusCodeSent rw;
          copyData := copyData rw;
          data := if copyData rw then data rw +:+ b else data rw |},
       set_writer (Write (Raw b) (writer σ)) σ)
  end.

Definition crw_run (cs : list WriterCall) (st : customResponseWriter * World)
  : customResponseWriter * World :=
  fold_left (fun acc c => crw_call c acc) cs st.

Record ResponseGoPluginMiddleware := mkGoPluginMW {
  mw_Path : string;
  SymbolName : string;
  ResHandler : option ResHandlerFunc
}.

Definition recoveredMessage : string :=
  "Recovered from panic while running Go-plugin middleware func".
Definition errorCodeMessage : string :=
  "Returned error code while processing response with Go-plugin middleware func".
Definition tookMessage : string := "Go-plugin response processing took".

(** [fmt.Errorf("plugin function sent error response code: %d", code)]. *)
Definition pluginErrorResponse (code : Z) : string :=
  "plugin function sent error response code: " +:+ pretty code.

Section GoPlugin.

(** [APISpec.injectIntoReqContext] and [recordDetail] are not embedded; both
    are given the request only, never the writer. *)
Variable injectIntoReqContext : Request -> Request.
Variable recordDetail : Request -> bool.

(** The body of [HandleGoPluginResponse] up to the end of the plugin call:
    the state reached and whether a panic is unwinding. *)
Definition runGoPlugin (h : ResponseGoPluginMiddleware) (res : Response)
  (req : Request) (σ : World) : customResponseWriter * World * option string :=
  let req := injectIntoReqContext req in
  let rw := {| responseSent := false; statusCodeSent := 0;
               copyData := recordDetail req; data := EmptyString |} in
  match ResHandler h with
  | None =>
      (rw, σ,
       Some "runtime error: invalid memory address or nil pointer dereference")
  | Some f =>
      let run := f res req in
      (crw_run (calls run) (rw, σ), panics run)
  end.

(** [HandleGoPluginResponse]: the returned error and the world it leaves.  The
    deferred function recovers a panic of the plugin, so the call always
    returns; after a recovered panic the result is the zero value [nil].  The
    latency attached to the debug line is not modelled. *)
Definition HandleGoPluginResponse (h : ResponseGoPluginMiddleware)
  (res : Response) (req : Request) (σ : World) : option string * World :=
  let '(rw, σ1, unwinding) := runGoPlugin h res req σ in
  match unwinding with
  | Some e =>
      (None,
       log_append LvlError recoveredMessage [("error", e)]
         (set_writer (WriteHeader StatusInternalServerError (writer σ1)) σ1))
  | None =>
      let σ2 := log_append LvlDebug tookMessage [] σ1 in
      if responseSent rw && (StatusBadRequest <=? statusCodeSent rw)%Z then
        let err := pluginErrorResponse (statusCodeSent rw) in
        (Some err,
         log_append LvlError errorCodeMessage [("error", err)]
           (set_writer (WriteHeader (statusCodeSent rw) (writer σ2)) σ2))
      else (None, σ2)
  end.

End GoPlugin.

(** ** Machine integers and durations *)

(** Go's [int] and [int64] are 64-bit two's complement. *)
Definition wrap64 (z : Z) : Z :=
  ((z + 2 ^ 63) mod 2 ^ 64 - 2 ^ 63)%Z.

Definition int_add (a b : Z) : Z := wrap64 (a + b).
Definition int_mul (a b : Z) : Z := wrap64 (a * b).

Definition maxInt : Z := (2 ^ 63 - 1)%Z.

(** [time.Second], in nanoseconds, the unit of [time.Duration]. *)
Definition Second : Z := 1000000000.

(** ** Policies ([user.Policy] and the dashboard's [DBPolicy]) *)

Record APILimit := mkAPILimit {
  limit_Rate : Z;
  limit_Per : Z;
  limit_QuotaMax : Z
}.

Definition zeroAPILimit : APILimit :=
  {| limit_Rate := 0; limit_Per := 0; limit_QuotaMax := 0 |}.

Record AccessDefinition := mkAD {
  ad_APIName : string;
  ad_APIID : string;
  ad_Versions : list string;
  ad_AllowedURLs : list string;
  ad_DisableIntrospection : bool;
  ad_Limit : APILimit
}.

(** [DBAccessDefinition]: [Limit] is a pointer, [None] when nil. *)
Record DBAccessDefinition := mkDBAD {
  db_APIName : string;
  db_APIID : string;
  db_Versions : list string;
  db_AllowedURLs : list string;
  db_DisableIntrospection : bool;
  db_Limit : option APILimit
}.

Definition ToRegularAD (d : DBAccessDefinition) : AccessDefinition :=
  {| ad_APIName := db_APIName d;
     ad_APIID := db_APIID d;
     ad_Versions := db_Versions d;
     ad_AllowedURLs := db_AllowedURLs d;
     ad_DisableIntrospection := db_DisableIntrospection d;
     ad_Limit := match db_Limit d with
                 | Some l => l
                 | None => zeroAPILimit
                 end |}.

(** [user.Policy]; [MID] holds the hexadecimal form [MID.Hex()] of the
    object id. *)
Record Policy := mkPolicy {
  MID : string;
  ID : string;
  pol_Name : string;
  OrgID : string;
  Rate : Z;
  Per : Z;
  QuotaMax : Z;
  AccessRights : gmap string AccessDefinition
}.

Definition set_ID (p : Policy) (id : string) : Policy :=
  {| MID := MID p; ID := id; pol_Name := pol_Name p; OrgID := OrgID p;
     Rate := Rate p; Per := Per p; QuotaMax := QuotaMax p;
     AccessRights := AccessRights p |}.

Definition set_AccessRights (p : Policy) (ar : gmap string AccessDefinition)
  : Policy :=
  {| MID := MID p; ID := ID p; pol_Name := pol_Name p; OrgID := OrgID p;
     Rate := Rate p; Per := Per p; QuotaMax := QuotaMax p;
     AccessRights := ar |}.

(** The zero value [user.Policy{}]. *)
Definition zeroPolicy : Policy :=
  {| MID := EmptyString; ID := EmptyString; pol_Name := EmptyString;
     OrgID := EmptyString; Rate := 0; Per := 0; QuotaMax := 0;
     AccessRights := ∅ |}.

(** [DBPolicy]: an embedded [user.Policy] and the access rights as the
    dashboard stores them. *)
Record DBPolicy := mkDBPolicy {
  db_Policy : Policy;
  db_AccessRights : gmap string DBAccessDefinition
}.

Definition ToRegularPolicy (d : DBPolicy) : Policy :=
  set_AccessRights (db_Policy d) (ToRegularAD <$> db_AccessRights d).

(** ** API definitions and the configuration *)

Record APISpec := mkAPISpec {
  APIID : string;
  Name : string;
  spec_OrgID : string;
  ListenPath : string;
  AuthProvider : string;
  SessionProvider : string
}.

Definition set_AuthProvider (v : APISpec) (a : string) : APISpec :=
  {| APIID := APIID v; Name := Name v; spec_OrgID := spec_OrgID v;
     ListenPath := ListenPath v; AuthProvider := a;
     SessionProvider := SessionProvider v |}.

Definition set_SessionProvider (v : APISpec) (a : string) : APISpec :=
  {| APIID := APIID v; Name := Name v; spec_OrgID := spec_OrgID v;
     ListenPath := ListenPath v; AuthProvider := AuthProvider v;
     SessionProvider := a |}.

(** The fields of [config.Config] read by the code below. *)
Record Config := mkConfig {
  Secret : string;
  NodeSecret : string;
  EnableJSVM : bool;
  UseDBAppConfigs : bool;
  DisableDashboardZeroConf : bool;
  DBAppConfOptions_ConnectionString : string;
  AppPath : string;
  OAS : string;
  SlaveOptions_UseRPC : bool;
  SlaveOptions_RPCKey : string;
  AuthOverride_ForceAuthProvider : bool;
  AuthOverride_AuthProvider : string;
  AuthOverride_ForceSessionProvider : bool;
  AuthOverride_SessionProvider : string;
  Policies_PolicySource : string;
  Policies_PolicyConnectionString : string;
  Policies_PolicyPath : string;
  Policies_PolicyRecordName : string;
  Policies_AllowExplicitPolicyID : bool;
  ResourceSync_RetryAttempts : Z;
  ResourceSync_Interval : Z
}.

(** ** The outside world *)

(** A request the gateway sends with its HTTP client. *)
Record OutRequest := mkOutRequest {
  out_Method : string;
  out_URL : string;
  out_Header : http_Header
}.

(** The dashboard's [NodeResponseOK]. *)
Record NodeResponseOK := mkNodeResponse {
  node_Status : string;
  node_Message : gmap string string;
  node_Nonce : string
}.

(** A response body, with what the JSON decoder makes of it for each of the
    two shapes the gateway asks for ([None]: the decoder fails). *)
Record RespBody := mkRespBody {
  rawBody : string;
  asPolicyList : option (list DBPolicy * string);
  asNodeResponse : option NodeResponseOK
}.

(** The result of [client.Do]. *)
Inductive DoResult :=
| DoErr (e : string)
| DoResp (status : Z) (b : RespBody).

(** Arguments of a formatted log line. *)
Inductive LogArg := ArgStr (s : string) | ArgInt (z : Z).

(** What the gateway does that can be observed from outside. *)
Inductive Event :=
| EvLog (lv : Level) (msg : string) (args : list LogArg)
| EvSleep (nanoseconds : Z)
| EvEmergencyMode (on : bool)
| EvSend (req : OutRequest)
| EvJSVMReinit
| EvTLSCacheFlush
| EvLoadGlobalApps (specs : list APISpec).

(** The fields of the [Gateway] struct that the code below reads or writes. *)
Record Gateway := mkGateway {
  config : Config;
  nodeID : string;
  SessionID : string;
  hostDetails_Hostname : string;
  ServiceNonce : string;
  apiSpecs : list APISpec;
  apisByID : gmap string APISpec;
  policiesByID : gmap string Policy;
  performedSuccessfulReload : bool
}.

(** The collaborators of the gateway: code that is not embedded here (the
    API loaders, [APISpec.Validate], the RPC store, the JSON decoder),
    the operating system, and what other goroutines have done by a given
    moment (cancelling the context, calling [StopBeating]).  An answer that
    can change from one call to the next is indexed by the number of external
    calls made so far.  [jsonError] is the error [Decode] returns for a
    response body it rejects; a body is a stream and is decoded once. *)
Record Outside := mkOutside {
  urlParses : string -> bool;
  clientDo : nat -> OutRequest -> DoResult;
  rpcConnect : nat -> bool;
  rpcGetPolicies : nat -> string -> string;
  backupWritable : nat -> bool;
  openFile : nat -> string -> string + string;
  globJSON : nat -> string -> list string + string;
  decodePolicyList : string -> list Policy + string;
  decodePolicyMap : string -> gmap string Policy + string;
  decodePolicy : string -> Policy * option string;
  FromDashboardService : nat -> string -> list APISpec * option string;
  FromRPC : nat -> bool -> string -> list APISpec * option string;
  FromDir : nat -> string -> list APISpec;
  Validate : string -> APISpec -> option string;
  ctxDone : nat -> bool;
  stopRequested : nat -> bool;
  jsonError : RespBody -> string
}.

(** ** The gateway's state *)

(** Process-wide state outside the [Gateway] struct: the emergency-mode flag
    of package [rpc], the stored policy backup, the count of external calls
    and the trace of events. *)
Record Env := mkEnv {
  emergencyMode : bool;
  policiesBackup : option string;
  ncalls : nat;
  trace : list Event
}.

Record State := mkState { gw : Gateway; env : Env }.

Definition set_ServiceNonce (n : string) (s : State) : State :=
  {| gw := {| config := config (gw s); nodeID := nodeID (gw s);
              SessionID := SessionID (gw s);
              hostDetails_Hostname := hostDetails_Hostname (gw s);
              ServiceNonce := n;
              apiSpecs := apiSpecs (gw s); apisByID := apisByID (gw s);
              policiesByID := policiesByID (gw s);
              performedSuccessfulReload := performedSuccessfulReload (gw s) |};
     env := env s |}.

Definition set_apiSpecs (l : list APISpec) (s : State) : State :=
  {| gw := {| config := config (gw s); nodeID := nodeID (gw s);
              SessionID := SessionID (gw s);
              hostDetails_Hostname := hostDetails_Hostname (gw s);
              ServiceNonce := ServiceNonce (gw s);
              apiSpecs := l; apisByID := apisByID (gw s);
              policiesByID := policiesByID (gw s);
              performedSuccessfulReload := performedSuccessfulReload (gw s) |};
     env := env s |}.

Definition set_apisByID (m : gmap string APISpec) (s : State) : State :=
  {| gw := {| config := config (gw s); nodeID := nodeID (gw s);
              SessionID := SessionID (gw s);
              hostDetails_Hostname := hostDetails_Hostname (gw s);
              ServiceNonce := ServiceNonce (gw s);
              apiSpecs := apiSpecs (gw s); apisByID := m;
              policiesByID := policiesByID (gw s);
              performedSuccessfulReload := performedSuccessfulReload (gw s) |};
     env := env s |}.

Definition set_policiesByID (m : gmap string Policy) (s : State) : State :=
  {| gw := {| config := config (gw s); nodeID := nodeID (gw s);
              SessionID := SessionID (gw s);
              hostDetails_Hostname := hostDetails_Hostname (gw s);
              ServiceNonce := ServiceNonce (gw s);
              apiSpecs := apiSpecs (gw s); apisByID := apisByID (gw s);
              policiesByID := m;
              performedSuccessfulReload := performedSuccessfulReload (gw s) |};
     env := env s |}.

Definition set_performedSuccessfulReload (b : bool) (s : State) : State :=
  {| gw := {| config := config (gw s); nodeID := nodeID (gw s);
              SessionID := SessionID (gw s);
              hostDetails_Hostname := hostDetails_Hostname (gw s);
              ServiceNonce := ServiceNonce (gw s);
              apiSpecs := apiSpecs (gw s); apisByID := apisByID (gw s);
              policiesByID := policiesByID (gw s);
              performedSuccessfulReload := b |};
     env := env s |}.

Definition set_emergencyMode (b : bool) (s : State) : State :=
  {| gw := gw s;
     env := {| emergencyMode := b; policiesBackup := policiesBackup (env s);
               ncalls := ncalls (env s); trace := trace (env s) |} |}.

Definition set_policiesBackup (b : option string) (s : State) : State :=
  {| gw := gw s;
     env := {| emergencyMode := emergencyMode (env s); policiesBackup := b;
               ncalls := ncalls (env s); trace := trace (env s) |} |}.

(** One more external call has been made. *)
Definition tick (s : State) : State :=
  {| gw := gw s;
     env := {| emergencyMode := emergencyMode (env s);
               policiesBackup := policiesBackup (env s);
               ncalls := S (ncalls (env s)); trace := trace (env s) |} |}.

Definition emit (e : Event) (s : State) : State :=
  {| gw := gw s;
     env := {| emergencyMode := emergencyMode (env s);
               policiesBackup := policiesBackup (env s);
               ncalls := ncalls (env s); trace := trace (env s) ++ [e] |} |}.

Definition logf (lv : Level) (msg : string) (args : list LogArg) (s : State)
  : State := emit (EvLog lv msg args) s.

(** A call returns a value, ends the process ([mainLog.Fatal]) or is still
    waiting when the observation ends. *)
Inductive Outcome (A : Type) :=
| Done (a : A) (s : State)
| Exited (s : State)
| Pending (s : State).
Arguments Done {A} a s.
Arguments Exited {A} s.
Arguments Pending {A} s.

(** The state an outcome leaves. *)
Definition stateOf {A} (o : Outcome A) : State :=
  match o with
  | Done _ s | Exited s | Pending s => s
  end.

Definition M (A : Type) := State -> Outcome A.

Definition ret {A} (a : A) : M A := fun s => Done a s.

Definition bind {A B} (m : M A) (k : A -> M B) : M B :=
  fun s =>
    match m s with
    | Done a s' => k a s'
    | Exited s' => Exited s'
    | Pending s' => Pending s'
    end.

(** Run a state change for its effect. *)
Definition act (f : State -> State) : M unit := fun s => Done tt (f s).

Notation "x <- m ;; k" := (bind m (fun x => k))
  (at level 100, m at next level, right associativity).
Notation "m ;;; k" := (bind m (fun _ => k))
  (at level 100, right associativity).

(** ** The policy loaders *)

(** Header names of package [header]; each is used in one spelling
    throughout. *)
Definition XTykNodeID : string := "x-tyk-nodeid".
Definition XTykSessionID : string := "x-tyk-session-id".
Definition XTykNonce : string := "x-tyk-nonce".
Definition XTykHostname : string := "x-tyk-hostname".

Definition ErrPoliciesFetchFailed : string :=
  "fetch policies request login failure".

(** The id a fetched policy is filed under: its object id, or its explicit id
    when explicit ids are allowed and it has one. *)
Definition policyID (allowExplicit : bool) (p : Policy) : string :=
  if allowExplicit && negb (String.eqb (ID p) EmptyString) then ID p
  else MID p.

Definition duplicateMessage : string :=
  "--> Skipping policy, new item has a duplicate ID!".

(** The body of the loop over [list.Message] in [LoadPoliciesFromDashboard]. *)
Definition mergeDashboardPolicy (allowExplicit : bool)
  (acc : gmap string Policy * State) (p : DBPolicy)
  : gmap string Policy * State :=
  let '(policies, s) := acc in
  let id := policyID allowExplicit (db_Policy p) in
  let p := {| db_Policy := set_ID (db_Policy p) id;
              db_AccessRights := db_AccessRights p |} in
  match policies !! id with
  | Some _ =>
      (policies,
       logf LvlWarning duplicateMessage
         [ArgStr (ID (db_Policy p)); ArgStr (OrgID (db_Policy p))] s)
  | None => (<[id := ToRegularPolicy p]> policies, s)
  end.

(** The body of the loop in [parsePoliciesFromRPC]. *)
Definition mergeRPCPolicy (allowExplicit : bool)
  (policies : gmap string Policy) (p : Policy) : gmap string Policy :=
  let id := policyID allowExplicit p in
  <[id := set_ID p id]> policies.

Section Reload.

Variable out : Outside.

(** The request [LoadPoliciesFromDashboard] builds. *)
Definition policyRequest (endpoint secret : string) (s : State) : OutRequest :=
  {| out_Method := "GET"; out_URL := endpoint;
     out_Header :=
       Header_Set
         (Header_Set
            (Header_Set (Header_Set ∅ "authorization" secret)
               XTykNodeID (nodeID (gw s)))
            XTykSessionID (SessionID (gw s)))
         XTykNonce (ServiceNonce (gw s)) |}.

(** [LoadPoliciesFromDashboard]: download the policies from the dashboard. *)
Definition LoadPoliciesFromDashboard (endpoint secret : string)
  (allowExplicit : bool) : M (gmap string Policy * option string) :=
  fun s =>
    if negb (urlParses out endpoint) then
      Done (∅, Some "invalid URL")
        (logf LvlError "Failed to create request: " [] s)
    else
      let newRequest := policyRequest endpoint secret s in
      let s := logf LvlInfo "Mutex lock acquired... calling" [] s in
      let s := logf LvlInfo "Calling dashboard service for policy list" [] s in
      let resp := clientDo out (ncalls (env s)) newRequest in
      let s := tick (emit (EvSend newRequest) s) in
      match resp with
      | DoErr e =>
          Done (∅, Some e) (logf LvlError "Policy request failed: " [ArgStr e] s)
      | DoResp status b =>
          if negb (status =? StatusOK)%Z then
            Done (∅, Some ErrPoliciesFetchFailed)
              (logf LvlError "Policy request login failure, Response was: "
                 [ArgStr (rawBody b)] s)
          else
            match asPolicyList b with
            | None =>
                Done (∅, Some (jsonError out b))
                  (logf LvlError "Failed to decode policy body: "
                     [ArgStr (jsonError out b)] s)
            | Some (Message, Nonce) =>
                let s := set_ServiceNonce Nonce s in
                let s := logf LvlDebug "Loading Policies Finished: Nonce Set: "
                           [ArgStr Nonce] s in
                let s := logf LvlInfo "Processing policy list" [] s in
                let '(policies, s) :=
                  fold_left (mergeDashboardPolicy allowExplicit) Message (∅, s)
                in Done (policies, None) s
            end
      end.

Definition parsePoliciesFromRPC (list : string) (allowExplicit : bool)
  : gmap string Policy * option string :=
  match decodePolicyList out list with
  | inr err => (∅, Some err)
  | inl dbPolicyList =>
      (fold_left (mergeRPCPolicy allowExplicit) dbPolicyList ∅, None)
  end.

(** Modelled from the spec: [LoadPoliciesFromRPCBackup], which this
    development does not embed, is the second read path of emergency mode
    (section 9: a local backup, used when the remote source is unavailable);
    it parses the list last saved, if any. *)
Definition LoadPoliciesFromRPCBackup : M (gmap string Policy * option string) :=
  fun s =>
    match policiesBackup (env s) with
    | None => Done (∅, Some "no policies backup found") s
    | Some list =>
        Done (parsePoliciesFromRPC list
                (Policies_AllowExplicitPolicyID (config (gw s)))) s
    end.

(** Modelled from the spec: [saveRPCPoliciesBackup], which this development
    does not embed, stores the fetched list as the backup that emergency
    mode reads (section 9); it fails when the backup store cannot be
    written. *)
Definition saveRPCPoliciesBackup (list : string) : M (option string) :=
  fun s =>
    let ok := backupWritable out (ncalls (env s)) in
    let s := tick s in
    if ok then Done None (set_policiesBackup (Some list) s)
    else Done (Some "failed to store policies backup") s.

Definition LoadPoliciesFromRPC (orgId : string) (allowExplicit : bool)
  : M (gmap string Policy * option string) :=
  fun s =>
    if emergencyMode (env s) then LoadPoliciesFromRPCBackup s
    else
      let connected := rpcConnect out (ncalls (env s)) in
      let s := tick s in
      if negb connected then
        Done (∅, Some "Policies backup: Failed connecting to database") s
      else
        let rpcPolicies := rpcGetPolicies out (ncalls (env s)) orgId in
        let s := tick s in
        if String.eqb rpcPolicies EmptyString then
          Done (∅, Some "failed to fetch policies from RPC store; connection may be down") s
        else
          match parsePoliciesFromRPC rpcPolicies allowExplicit with
          | (_, Some err) =>
              Done (∅, Some err)
                (logf LvlError "Failed decode: " [ArgStr err; ArgStr rpcPolicies] s)
          | (policies, None) =>
              match saveRPCPoliciesBackup rpcPolicies s with
              | Done (Some err) s' =>
                  Done (policies, None) (logf LvlError err [] s')
              | Done None s' => Done (policies, None) s'
              | Exited s' => Exited s'
              | Pending s' => Pending s'
              end
          end.

Definition LoadPoliciesFromFile (filePath : string)
  : M (gmap string Policy * option string) :=
  fun s =>
    let f := openFile out (ncalls (env s)) filePath in
    let s := tick s in
    match f with
    | inr err =>
        Done (∅, Some err)
          (logf LvlError "Couldn't open policy file: " [ArgStr err] s)
    | inl content =>
        match decodePolicyMap out content with
        | inr err =>
            Done (∅, Some err)
              (logf LvlError "Couldn't unmarshal policies: " [ArgStr err] s)
        | inl policies => Done (policies, None) s
        end
    end.

(** The body of the loop over the paths in [LoadPoliciesFromDir]; a policy
    that fails to decode is logged and filed all the same, as far as it was
    decoded. *)
Definition loadPolicyFile (acc : gmap string Policy * State) (path : string)
  : gmap string Policy * State :=
  let '(policies, s) := acc in
  let s := logf LvlInfo "Loading policy from dir " [ArgStr path] s in
  let f := openFile out (ncalls (env s)) path in
  let s := tick s in
  match f with
  | inr err =>
      (policies,
       logf LvlError "Couldn't open policy file from dir: " [ArgStr err] s)
  | inl content =>
      let '(pol, derr) := decodePolicy out content in
      let s := match derr with
               | Some err =>
                   logf LvlError
                     "Couldn't unmarshal policy configuration from dir: %v : %v"
                     [ArgStr path; ArgStr err] s
               | None => s
               end in
      (<[ID pol := pol]> policies, s)
  end.

Definition LoadPoliciesFromDir (dir : string)
  : M (gmap string Policy * option string) :=
  fun s =>
    let paths := globJSON out (ncalls (env s)) dir in
    let s := tick s in
    match paths with
    | inr err =>
        Done (∅, Some err)
          (logf LvlError "error fetch policies path from policies path: "
             [ArgStr err] s)
    | inl paths =>
        let '(policies, s) := fold_left loadPolicyFile paths (∅, s) in
        Done (policies, None) s
    end.

(** ** Syncing policies and API definitions ([gateway/server.go]) *)

(** [buildDashboardConnStr].  With an empty connection string and zeroconf
    enabled the code logs and waits until another goroutine has put a
    connection string into the configuration; [Pending] is this wait, for as
    long as the string stays empty.  The delivery of the string is not
    modelled, so what is stated of a return of this function is stated for a
    configured connection string. *)
Definition buildDashboardConnStr (resource : string) : M string :=
  fun s =>
    let cs := DBAppConfOptions_ConnectionString (config (gw s)) in
    let noZeroConf := DisableDashboardZeroConf (config (gw s)) in
    if String.eqb cs EmptyString && noZeroConf then
      Exited (logf LvlFatal "Connection string is empty, failing." [] s)
    else if negb noZeroConf && String.eqb cs EmptyString then
      Pending (logf LvlInfo "Waiting for zeroconf signal..." [] s)
    else Done (cs +:+ resource) s.

(** The override loops of [syncAPISpecs]. *)
Definition applyAuthOverride (cfg : Config) (l : list APISpec) : list APISpec :=
  let l := if AuthOverride_ForceAuthProvider cfg
           then map (fun v => set_AuthProvider v (AuthOverride_AuthProvider cfg)) l
           else l in
  if AuthOverride_ForceSessionProvider cfg
  then map (fun v => set_SessionProvider v (AuthOverride_SessionProvider cfg)) l
  else l.

Definition skippingMessage : string :=
  "Skipping loading spec because it failed validation".

(** The body of the validation loop of [syncAPISpecs]. *)
Definition validateSpec (oas : string) (acc : list APISpec * State)
  (v : APISpec) : list APISpec * State :=
  let '(filter, s) := acc in
  match Validate out oas v with
  | Some err =>
      (filter, logf LvlError skippingMessage [ArgStr err; ArgStr (Name v)] s)
  | None => (filter ++ [v], s)
  end.

(** The second part of [syncAPISpecs], from the point where the specs have
    been loaded. *)
Definition installAPISpecs (l : list APISpec) : M (Z * option string) :=
  fun s =>
    let s := logf LvlInfo "Detected %v APIs" [ArgInt (Z.of_nat (length l))] s in
    let l := applyAuthOverride (config (gw s)) l in
    let '(filter, s) := fold_left (validateSpec (OAS (config (gw s)))) l ([], s) in
    let s := set_apiSpecs filter s in
    let apiLen := Z.of_nat (length (apiSpecs (gw s))) in
    let s := emit EvTLSCacheFlush s in
    Done (apiLen, None) s.

(** The first part of [syncAPISpecs]: the specs of the configured source, or
    the error that makes [syncAPISpecs] return at once. *)
Definition fetchAPISpecs : M (list APISpec * option string) :=
  fun s =>
    if UseDBAppConfigs (config (gw s)) then
      (connStr <- buildDashboardConnStr "/system/apis" ;;
       fun s =>
         let '(tmpSpecs, err) :=
           FromDashboardService out (ncalls (env s)) connStr in
         let s := tick s in
         match err with
         | Some e =>
             Done ([], Some e)
               (logf LvlError "failed to load API specs: " [ArgStr e] s)
         | None =>
             Done (tmpSpecs, None)
               (logf LvlDebug
                  "Downloading API Configurations from Dashboard Service" [] s)
         end) s
    else if SlaveOptions_UseRPC (config (gw s)) then
      let s := logf LvlDebug "Using RPC Configuration" [] s in
      let '(l, err) :=
        FromRPC out (ncalls (env s)) (emergencyMode (env s))
          (SlaveOptions_RPCKey (config (gw s))) in
      let s := tick s in
      match err with
      | Some e => Done ([], Some e) s
      | None => Done (l, None) s
      end
    else
      let l := FromDir out (ncalls (env s)) (AppPath (config (gw s))) in
      Done (l, None) (tick s).

Definition syncAPISpecs : M (Z * option string) :=
  r <- fetchAPISpecs ;;
  match r with
  | (_, Some e) => ret (0%Z, Some e)
  | (l, None) => installAPISpecs l
  end.

(** [syncPolicies] from the point where the loader has answered. *)
Definition installPolicies (r : gmap string Policy * option string)
  : M (Z * option string) :=
  fun s =>
    let '(pols, err) := r in
    let count := Z.of_nat (size pols) in
    let s := logf LvlInfo "Policies found (%d total):" [ArgInt count] s in
    let s := fold_left (fun s id => logf LvlDebug " - %s" [ArgStr id] s)
               (map fst (map_to_list pols)) s in
    match err with
    | Some e => Done (count, Some e) s
    | None => Done (count, None) (set_policiesByID pols s)
    end.

Definition syncPolicies : M (Z * option string) :=
  fun s =>
    let s := logf LvlInfo "Loading policies" [] s in
    let cfg := config (gw s) in
    if String.eqb (Policies_PolicySource cfg) "service" then
      if String.eqb (Policies_PolicyConnectionString cfg) EmptyString then
        Exited (logf LvlFatal "No connection string or node ID present. Failing." [] s)
      else
        let connStr := Policies_PolicyConnectionString cfg +:+ "/system/policies" in
        (r <- LoadPoliciesFromDashboard connStr (NodeSecret cfg)
                (Policies_AllowExplicitPolicyID cfg) ;;
         installPolicies r)
          (logf LvlInfo "Using Policies from Dashboard Service" [] s)
    else if String.eqb (Policies_PolicySource cfg) "rpc" then
      (r <- LoadPoliciesFromRPC (SlaveOptions_RPCKey cfg)
              (Policies_AllowExplicitPolicyID cfg) ;;
       installPolicies r)
        (logf LvlDebug "Using Policies from RPC" [] s)
    else if negb (String.eqb (Policies_PolicyPath cfg) EmptyString) then
      (r <- LoadPoliciesFromDir (Policies_PolicyPath cfg) ;; installPolicies r) s
    else if String.eqb (Policies_PolicyRecordName cfg) EmptyString then
      Done (0%Z, None)
        (logf LvlDebug "No policy record name defined, skipping..." [] s)
    else
      (r <- LoadPoliciesFromFile (Policies_PolicyRecordName cfg) ;;
       installPolicies r) s.

(** ** The reload ([gateway/server.go]) *)

Definition ErrSyncResourceNotKnown : string := "unknown resource to sync".

(** [fmt.Errorf("syncing %s failed %w", resource, err)]. *)
Definition syncFailed (resource : string) (err : option string) : string :=
  "syncing " +:+ resource +:+ " failed " +:+
  match err with
  | Some e => e
  | None => "%!w(<nil>)"
  end.

(** [rpc.EnableEmergencyMode], of package [rpc]: sets the flag that
    [rpc.IsEmergencyMode] reads. *)
Definition EnableEmergencyMode (b : bool) (s : State) : State :=
  emit (EvEmergencyMode b) (set_emergencyMode b s).

(** [time.Sleep(d)]. *)
Definition Sleep (d : Z) (s : State) : State := emit (EvSleep d) s.

(** What [syncResourcesWithReload] does after a failed attempt that is not
    the last: it has logged the error and sleeps for the configured interval. *)
Definition logAttempt (resource : string) (e : string) (i : Z) (s : State)
  : State :=
  logf LvlError "Error during syncing %s: %s, attempt count %d"
    [ArgStr resource; ArgStr e; ArgInt i] s.

Definition backoff (conf : Config) (s : State) : State :=
  Sleep (int_mul (ResourceSync_Interval conf) Second) s.

Definition emergencyWarning : string :=
  "All %s sync attempts failed, triggering emergency mode".
Definition emergencySuccess : string :=
  "Successfully loaded %s from backup after enabling emergency mode".

(** The branch of [syncResourcesWithReload] taken when the last attempt has
    failed with error [e]: a slave of a remote RPC source enables emergency
    mode and tries once more; then the loop is left. *)
Definition afterLastAttempt (resource : string) (conf : Config)
  (syncFunc : M (Z * option string)) (e : string) : M (Z * option string) :=
  if SlaveOptions_UseRPC conf then
    act (logf LvlWarning emergencyWarning [ArgStr resource]) ;;;
    act (EnableEmergencyMode true) ;;;
    r2 <- syncFunc ;;
    match r2 with
    | (count, None) =>
        act (logf LvlInfo emergencySuccess [ArgStr resource]) ;;;
        ret (count, None)
    | (_, Some e2) => ret (0%Z, Some (syncFailed resource (Some e2)))
    end
  else ret (0%Z, Some (syncFailed resource (Some e))).

(** The loop of [syncResourcesWithReload], entered with counter [i] and the
    last error [err]; [fuel] bounds the iterations left. *)
Fixpoint syncLoop (resource : string) (conf : Config)
  (syncFunc : M (Z * option string)) (fuel : nat) (i : Z) (err : option string)
  : M (Z * option string) :=
  let last := int_add (ResourceSync_RetryAttempts conf) 1 in
  if (i <=? last)%Z then
    match fuel with
    | O => fun s => Pending s
    | S fuel' =>
        r <- syncFunc ;;
        match r with
        | (count, None) => ret (count, None)
        | (_, Some e) =>
            act (logAttempt resource e i) ;;;
            if (i =? last)%Z then afterLastAttempt resource conf syncFunc e
            else
              act (backoff conf) ;;;
              syncLoop resource conf syncFunc fuel' (int_add i 1) (Some e)
        end
    end
  else ret (0%Z, Some (syncFailed resource err)).

Definition syncResourcesWithReload (resource : string) (conf : Config)
  (syncFunc : M (Z * option string)) : M (Z * option string) :=
  if negb (String.eqb resource "apis") && negb (String.eqb resource "policies")
  then ret (0%Z, Some ErrSyncResourceNotKnown)
  else
    syncLoop resource conf syncFunc
      (Z.to_nat (int_add (ResourceSync_RetryAttempts conf) 1)) 1 None.

Definition apisByIDLen (s : State) : Z := Z.of_nat (size (apisByID (gw s))).

(** Modelled from the spec: [loadGlobalApps], which this development does not
    embed, is the full rebuild of the API snapshot and router from the synced
    definitions, followed by the mux install (section 4.9); the snapshot
    indexes the definitions by id. *)
Definition loadGlobalApps (s : State) : State :=
  let specs := apiSpecs (gw s) in
  emit (EvLoadGlobalApps specs)
    (set_apisByID
       (fold_left (fun m v => <[APIID v := v]> m) specs ∅) s).

Definition policySyncErrorMessage : string := "Error during syncing policies".
Definition notReloadingMessage : string :=
  "No API Definitions found, not reloading".
Definition reloadCompleteMessage : string := "API reload complete".

(** The head of [DoReload]: the JSVM is reset when it is enabled. *)
Definition resetJSVM (s : State) : State :=
  if EnableJSVM (config (gw s)) then emit EvJSVMReinit s else s.

Definition DoReload : M unit :=
  fun s =>
    let s := resetJSVM s in
    (p <- syncResourcesWithReload "policies" (config (gw s)) syncPolicies ;;
     match p with
     | (_, Some _) => act (logf LvlError policySyncErrorMessage [])
     | (_, None) =>
         fun s =>
           (a <- syncResourcesWithReload "apis" (config (gw s)) syncAPISpecs ;;
            match a with
            | (_, Some _) => act (logf LvlError "Error during syncing apis" [])
            | (count, None) =>
                fun s =>
                  if (count =? 0)%Z && (apisByIDLen s =? 0)%Z then
                    Done tt
                      (set_performedSuccessfulReload true
                         (logf LvlWarning notReloadingMessage [] s))
                  else
                    Done tt
                      (logf LvlInfo reloadCompleteMessage []
                         (set_performedSuccessfulReload true (loadGlobalApps s)))
            end) s
     end) s.

End Reload.

(** ** Registration and heartbeat ([gateway/dashboard_register.go]) *)

Record HTTPDashboardHandler := mkDashHandler {
  RegistrationEndpoint : string;
  DeRegistrationEndpoint : string;
  HeartBeatEndpoint : string;
  KeyQuotaTriggerEndpoint : string;
  dash_Secret : string
}.

Definition Init : M HTTPDashboardHandler :=
  reg <- buildDashboardConnStr "/register/node" ;;
  dereg <- buildDashboardConnStr "/system/node" ;;
  hb <- buildDashboardConnStr "/register/ping" ;;
  kq <- buildDashboardConnStr "/system/key/quota_trigger" ;;
  fun s =>
    let secret := NodeSecret (config (gw s)) in
    if String.eqb secret EmptyString then
      Exited (logf LvlFatal
                "Node secret is not set, required for dashboard connection" [] s)
    else
      Done {| RegistrationEndpoint := reg; DeRegistrationEndpoint := dereg;
              HeartBeatEndpoint := hb; KeyQuotaTriggerEndpoint := kq;
              dash_Secret := secret |} s.

(** [Gateway.SetNodeID]. *)
Definition set_nodeID (id : string) (s : State) : State :=
  {| gw := {| config := config (gw s); nodeID := id;
              SessionID := SessionID (gw s);
              hostDetails_Hostname := hostDetails_Hostname (gw s);
              ServiceNonce := ServiceNonce (gw s);
              apiSpecs := apiSpecs (gw s); apisByID := apisByID (gw s);
              policiesByID := policiesByID (gw s);
              performedSuccessfulReload := performedSuccessfulReload (gw s) |};
     env := env s |}.

Definition StatusConflict : Z := 409.

(** [ctx.Err()] of the gateway's context, which is made by
    [context.WithCancel]. *)
Definition ctxCanceled : string := "context canceled".

Section Dashboard.

Variable out : Outside.

(** [newRequest]: a request with the node's credentials; the panic on a
    malformed endpoint is not recovered and ends the process. *)
Definition newRequest (h : HTTPDashboardHandler) (method endpoint : string)
  : M OutRequest :=
  fun s =>
    if negb (urlParses out endpoint) then Exited s
    else
      Done {| out_Method := method; out_URL := endpoint;
              out_Header :=
                Header_Set
                  (Header_Set (Header_Set ∅ "authorization" (dash_Secret h))
                     XTykHostname (hostDetails_Hostname (gw s)))
                  XTykSessionID (SessionID (gw s)) |} s.

(** The two [Header.Set] calls at the head of [sendHeartBeat]; they change the
    request the loop keeps using. *)
Definition stampRequest (req : OutRequest) (s : State) : OutRequest :=
  {| out_Method := out_Method req; out_URL := out_URL req;
     out_Header :=
       Header_Set (Header_Set (out_Header req) XTykNodeID (nodeID (gw s)))
         XTykNonce (ServiceNonce (gw s)) |}.

(** The [select] of [Register] between the cancellation of the context and
    five seconds of waiting: whether the context was cancelled, [ctxDone]
    telling whether it is before the five seconds are over. *)
Definition waitRetry : M bool :=
  fun s =>
    if ctxDone out (ncalls (env s)) then Done true s
    else Done false (Sleep (5 * Second) s).

(** The request [Register] sends: [newRequest] and one more [Header.Set]. *)
Definition registrationRequest (req : OutRequest) (s : State) : OutRequest :=
  {| out_Method := out_Method req; out_URL := out_URL req;
     out_Header := Header_Set (out_Header req) XTykSessionID (SessionID (gw s)) |}.

(** [Register], called with the context whose cancellation [ctxDone] tells;
    [fuel] bounds the number of attempts observed, each retry being a
    recursive call. *)
Fixpoint Register (fuel : nat) (h : HTTPDashboardHandler) : M (option string) :=
  match fuel with
  | O => fun s => Pending s
  | S fuel' =>
      let retry : M (option string) :=
        cancelled <- waitRetry ;;
        if cancelled : bool then ret (Some ctxCanceled) else Register fuel' h in
      act (logf LvlInfo "Registering gateway node with Dashboard" []) ;;;
      req <- newRequest h "GET" (RegistrationEndpoint h) ;;
      fun s =>
        let req := registrationRequest req s in
        let resp := clientDo out (ncalls (env s)) req in
        let s := tick (emit (EvSend req) s) in
        match resp with
        | DoErr e =>
            (act (logf LvlError "Request failed with error %v; retrying in 5s"
                    [ArgStr e]) ;;;
             retry) s
        | DoResp status b =>
            if (status =? StatusConflict)%Z then
              Done None (logf LvlDebug "Node is already registered" [] s)
            else if negb (status =? 200)%Z then
              (act (logf LvlError "Response failed with code %d; retrying in 5s"
                      [ArgInt status]) ;;;
               retry) s
            else
              match asNodeResponse b with
              | None => Done (Some (jsonError out b)) s
              | Some val =>
                  let found := node_Message val !! "NodeID" in
                  let s := set_nodeID (default EmptyString found) s in
                  match found with
                  | None =>
                      (act (logf LvlError
                              "Failed to register node, retrying in 5s" []) ;;;
                       retry) s
                  | Some _ =>
                      (act (logf LvlInfo "Node Registered"
                              [ArgStr (nodeID (gw s))]) ;;;
                       act (set_ServiceNonce (node_Nonce val)) ;;;
                       act (logf LvlDebug "Registration Finished: Nonce Set: "
                              [ArgStr (node_Nonce val)]) ;;;
                       DoReload out ;;;
                       ret None) s
                  end
              end
        end
  end.

(** [sendHeartBeat].  [h.Gw.DashService.Register(ctx)] is a call through the
    interface [DashboardServiceSender]; the value behind it is the handler
    [dashboardServiceInit] stores in [DashService], the one that beats, so
    the call is [Register] on [h] with the context of the heartbeat.  [rfuel]
    bounds the attempts observed of this registration. *)
Definition sendHeartBeat (h : HTTPDashboardHandler) (rfuel : nat)
  (req : OutRequest) : M (option string) :=
  fun s =>
    let req := stampRequest req s in
    let resp := clientDo out (ncalls (env s)) req in
    let s := tick (emit (EvSend req) s) in
    match resp with
    | DoErr _ => Done (Some "dashboard is down? Heartbeat is failing") s
    | DoResp status b =>
        if (status =? StatusForbidden)%Z then Register rfuel h s
        else if negb (status =? StatusOK)%Z then
          Done (Some "dashboard is down? Heartbeat non-200 response") s
        else
          match asNodeResponse b with
          | None => Done (Some (jsonError out b)) s
          | Some val => Done None (set_ServiceNonce (node_Nonce val) s)
          end
    end.

(** [dashLog.Warning(err)] of the loop, for the error of a heartbeat. *)
Definition warnHeartBeat (err : option string) (s : State) : State :=
  match err with
  | Some e => logf LvlWarning e [] s
  | None => s
  end.

(** The default branch of the loop of [StartBeating], while the heartbeat is
    not stopped: one heartbeat, a warning when it failed, two seconds of
    sleep. *)
Definition beatOnce (h : HTTPDashboardHandler) (rfuel : nat)
  (req : OutRequest) : M unit :=
  err <- sendHeartBeat h rfuel req ;;
  act (warnHeartBeat err) ;;;
  act (Sleep (Second * 2)).

(** The loop of [StartBeating]; [fuel] is the number of iterations observed,
    and [stopRequested] tells whether [StopBeating] has been called since
    [StartBeating] reset the sentinel. *)
Fixpoint beatLoop (h : HTTPDashboardHandler) (fuel rfuel : nat)
  (req : OutRequest) : M (option string) :=
  fun s =>
    match fuel with
    | O => Pending s
    | S fuel' =>
        if ctxDone out (ncalls (env s)) then
          Done None
            (logf LvlInfo "Heartbeat stopped due to context cancellation" [] s)
        else if stopRequested out (ncalls (env s)) then
          Done None (logf LvlInfo "Stopped Heartbeat" [] s)
        else (beatOnce h rfuel req ;;;
              beatLoop h fuel' rfuel (stampRequest req s)) s
    end.

Definition StartBeating (h : HTTPDashboardHandler) (fuel rfuel : nat)
  : M (option string) :=
  req <- newRequest h "GET" (HeartBeatEndpoint h) ;;
  beatLoop h fuel rfuel req.

End Dashboard.

(** The events of a trace that are not log lines. *)
Definition isLog (e : Event) : bool :=
  match e with
  | EvLog _ _ _ => true
  | _ => false
  end.

Definition actions (t : list Event) : list Event :=
  List.filter (fun e => negb (isLog e)) t.

(** An event as the dashboard sees it: a request by method and URL. *)
Inductive Shape :=
| ShSend (method url : string)
| ShSleep (nanoseconds : Z)
| ShOther.

Definition shape (e : Event) : Shape :=
  match e with
  | EvSend req => ShSend (out_Method req) (out_URL req)
  | EvSleep d => ShSleep d
  | _ => ShOther
  end.

(** The time a sequence of events sleeps, in nanoseconds, and the number of
    requests to [url] in it. *)
Fixpoint slept (l : list Shape) : Z :=
  match l with
  | [] => 0
  | ShSleep d :: rest => d + slept rest
  | _ :: rest => slept rest
  end.

Fixpoint requestsTo (url : string) (l : list Shape) : nat :=
  match l with
  | [] => 0
  | ShSend _ u :: rest =>
      if String.eqb u url then S (requestsTo url rest) else requestsTo url rest
  | _ :: rest => requestsTo url rest
  end.

(** What the dashboard sees of one beat whose ping is not answered 403: the
    ping, then two seconds without traffic; and of [n] such beats in a row. *)
Definition beat (endpoint : string) : list Shape :=
  [ShSend "GET" endpoint; ShSleep (2 * Second)].

Fixpoint beats (endpoint : string) (n : nat) : list Shape :=
  match n with
  | O => []
  | S k => beat endpoint ++ beats endpoint k
  end.

(** ** Vocabulary of the properties *)

(** A fetched policy as [LoadPoliciesFromDashboard] files it: under the id it
    is given, with its access rights converted. *)
Definition filedPolicy (allowExplicit : bool) (p : DBPolicy) : Policy :=
  ToRegularPolicy
    {| db_Policy := set_ID (db_Policy p) (policyID allowExplicit (db_Policy p));
       db_AccessRights := db_AccessRights p |}.

(** The first, and the last, entry of a fetched list that gets the id [id]. *)
Fixpoint firstWithID (allowExplicit : bool) (id : string) (l : list DBPolicy)
  : option Policy :=
  match l with
  | [] => None
  | p :: rest =>
      if String.eqb (policyID allowExplicit (db_Policy p)) id
      then Some (filedPolicy allowExplicit p)
      else firstWithID allowExplicit id rest
  end.

Definition lastWithID (allowExplicit : bool) (id : string) (l : list DBPolicy)
  : option Policy :=
  firstWithID allowExplicit id (rev l).

(** The warnings due for a fetched list: one for each entry whose id has been
    seen before it, in order. *)
Fixpoint duplicateWarnings (allowExplicit : bool) (seen : gset string)
  (l : list DBPolicy) : list Event :=
  match l with
  | [] => []
  | p :: rest =>
      let id := policyID allowExplicit (db_Policy p) in
      if decide (id ∈ seen) then
        EvLog LvlWarning duplicateMessage
          [ArgStr id; ArgStr (OrgID (db_Policy p))]
        :: duplicateWarnings allowExplicit seen rest
      else duplicateWarnings allowExplicit ({[id]} ∪ seen) rest
  end.

(** Whether a definition passes [Validate], and the log lines due for the
    definitions of a list that do not. *)
Definition isValid (out : Outside) (oas : string) (v : APISpec) : bool :=
  match Validate out oas v with
  | None => true
  | Some _ => false
  end.

Definition skipWarnings (out : Outside) (oas : string) (l : list APISpec)
  : list Event :=
  flat_map
    (fun v =>
       match Validate out oas v with
       | Some err => [EvLog LvlError skippingMessage [ArgStr err; ArgStr (Name v)]]
       | None => []
       end) l.

(** [FailedAttempts resource conf syncFunc i k s s' e]: starting in [s], [k]
    attempts in a row fail, the first being attempt number [i]; after each
    but the last the error is logged and the loop sleeps for the configured
    interval; the last leaves the state [s'] and the error [e]. *)
Inductive FailedAttempts (resource : string) (conf : Config)
  (syncFunc : M (Z * option string)) : Z -> nat -> State -> State -> string -> Prop :=
| failed_one (i : Z) (s : State) (c : Z) (e : string) (s' : State) :
    syncFunc s = Done (c, Some e) s' ->
    FailedAttempts resource conf syncFunc i 1 s s' e
| failed_more (i : Z) (k : nat) (s : State) (c : Z) (e1 : string)
    (s1 s' : State) (e : string) :
    syncFunc s = Done (c, Some e1) s1 ->
    FailedAttempts resource conf syncFunc (i + 1) k
      (backoff conf (logAttempt resource e1 i s1)) s' e ->
    FailedAttempts resource conf syncFunc i (S k) s s' e.

(** The registries of the gateway, with the configuration and the reload
    flag: what a reload may replace. *)
Definition registries (g : Gateway)
  : Config * list APISpec * gmap string APISpec * gmap string Policy * bool :=
  (config g, apiSpecs g, apisByID g, policiesByID g,
   performedSuccessfulReload g).

(** ** Sample inputs *)

Definition sampleURL : url_URL :=
  {| Scheme := "http"; Host := "gateway"; Path := "/keys//";
     RawPath := EmptyString; RawQuery := EmptyString |}.

Definition sampleRequest : Request :=
  {| Method := "GET"; URL := 0; Header := {[XTykAuthorization := ["guess"]]};
     Body := EmptyString; RemoteAddr := "10.0.0.1" |}.

Definition sampleWorld : World :=
  {| urls := {[0 := sampleURL]}; writer := newResponseWriter; logs := [] |}.

(** An endpoint that answers 200 with a body. *)
Definition sampleEndpoint : Handler :=
  fun _ σ => Returned (set_writer (Write (Raw "ok") (writer σ)) σ).

(** An endpoint that answers with the path of the URL it is asked for. *)
Definition pathEcho : Handler :=
  fun r σ =>
    match urls σ !! URL r with
    | None => Panicked "nil pointer dereference" σ
    | Some u => Returned (set_writer (Write (Raw (Path u)) (writer σ)) σ)
    end.

(** Whether a call on the writer sends something to the client. *)
Definition sends (c : WriterCall) : bool :=
  match c with
  | CallHeaderSet _ _ => false
  | CallWriteHeader _ | CallWrite _ => true
  end.

(** The status the wrapper of the plugin's writer has on record after the
    calls [cs], starting from the record [st]: the argument of the last
    [WriteHeader], or 200 for a body written while nothing was on record. *)
Fixpoint recordedStatus (cs : list WriterCall) (st : Z) : Z :=
  match cs with
  | [] => st
  | CallHeaderSet _ _ :: rest => recordedStatus rest st
  | CallWriteHeader code :: rest => recordedStatus rest code
  | CallWrite _ :: rest =>
      recordedStatus rest (if (st =? 0)%Z then StatusOK else st)
  end.

(** The status line the calls [cs] send on a writer that has sent nothing
    yet: that of the first call that sends. *)
Fixpoint firstStatus (cs : list WriterCall) : option Z :=
  match cs with
  | [] => None
  | CallHeaderSet _ _ :: rest => firstStatus rest
  | CallWriteHeader code :: _ => Some code
  | CallWrite _ :: _ => Some StatusOK
  end.

Definition sampleResponse : Response :=
  {| res_StatusCode := 200; res_Header := ∅; res_Body := "upstream" |}.

(** A plugin that panics at once. *)
Definition panickingPlugin : ResponseGoPluginMiddleware :=
  {| mw_Path := "/opt/plugin.so"; SymbolName := "Boom";
     ResHandler := Some (fun _ _ => {| calls := []; panics := Some "boom" |}) |}.

(** A plugin that sends a status line and then panics. *)
Definition latePanickingPlugin : ResponseGoPluginMiddleware :=
  {| mw_Path := "/opt/plugin.so"; SymbolName := "LateBoom";
     ResHandler :=
       Some (fun _ _ => {| calls := [CallWriteHeader 200]; panics := Some "boom" |}) |}.

Definition samplePolicy (mid org : string) : DBPolicy :=
  {| db_Policy :=
       {| MID := mid; ID := EmptyString; pol_Name := "gold"; OrgID := org;
          Rate := 100; Per := 60; QuotaMax := 1000; AccessRights := ∅ |};
     db_AccessRights := ∅ |}.

Definition sampleConfig : Config :=
  {| Secret := "s3cret"; NodeSecret := "node-secret"; EnableJSVM := false;
     UseDBAppConfigs := false; DisableDashboardZeroConf := true;
     DBAppConfOptions_ConnectionString := "http://dashboard:3000";
     AppPath := "/opt/tyk-gateway/apps"; OAS := EmptyString;
     SlaveOptions_UseRPC := false; SlaveOptions_RPCKey := "org";
     AuthOverride_ForceAuthProvider := false;
     AuthOverride_AuthProvider := EmptyString;
     AuthOverride_ForceSessionProvider := false;
     AuthOverride_SessionProvider := EmptyString;
     Policies_PolicySource := "service";
     Policies_PolicyConnectionString := "http://dashboard:3000";
     Policies_PolicyPath := EmptyString;
     Policies_PolicyRecordName := EmptyString;
     Policies_AllowExplicitPolicyID := false;
     ResourceSync_RetryAttempts := 1; ResourceSync_Interval := 3 |}.

(** The sample configuration for a slave of a remote RPC source. *)
Definition sampleRPCConfig : Config :=
  {| Secret := Secret sampleConfig; NodeSecret := NodeSecret sampleConfig;
     EnableJSVM := false; UseDBAppConfigs := false;
     DisableDashboardZeroConf := true;
     DBAppConfOptions_ConnectionString := EmptyString;
     AppPath := AppPath sampleConfig; OAS := EmptyString;
     SlaveOptions_UseRPC := true; SlaveOptions_RPCKey := "org";
     AuthOverride_ForceAuthProvider := false;
     AuthOverride_AuthProvider := EmptyString;
     AuthOverride_ForceSessionProvider := false;
     AuthOverride_SessionProvider := EmptyString;
     Policies_PolicySource := "rpc";
     Policies_PolicyConnectionString := EmptyString;
     Policies_PolicyPath := EmptyString;
     Policies_PolicyRecordName := EmptyString;
     Policies_AllowExplicitPolicyID := false;
     ResourceSync_RetryAttempts := 1; ResourceSync_Interval := 3 |}.

Definition sampleAPI (id : string) : APISpec :=
  {| APIID := id; Name := id; spec_OrgID := "org"; ListenPath := "/" +:+ id;
     AuthProvider := EmptyString; SessionProvider := EmptyString |}.

Definition sampleState (cfg : Config) (specs : list APISpec) : State :=
  {| gw := {| config := cfg; nodeID := "solo-1"; SessionID := "session";
              hostDetails_Hostname := "gw-host"; ServiceNonce := "nonce-0";
              apiSpecs := specs;
              apisByID := fold_left (fun m v => <[APIID v := v]> m) specs ∅;
              policiesByID := ∅; performedSuccessfulReload := false |};
     env := {| emergencyMode := false; policiesBackup := None; ncalls := 0;
               trace := [] |} |}.

(** A dashboard that answers every request with [resp], a source directory
    that holds [specs], a validator that rejects the API named [bad], and an
    RPC store that is down. *)
Definition sampleOutside (resp : DoResult) (specs : list APISpec) : Outside :=
  {| urlParses := fun _ => true;
     clientDo := fun _ _ => resp;
     rpcConnect := fun _ => false;
     rpcGetPolicies := fun _ _ => EmptyString;
     backupWritable := fun _ => true;
     openFile := fun _ _ => inr "no such file";
     globJSON := fun _ _ => inl [];
     decodePolicyList := fun _ => inr "invalid character";
     decodePolicyMap := fun _ => inr "invalid character";
     decodePolicy := fun _ => (zeroPolicy, Some "invalid character");
     FromDashboardService := fun _ _ => (specs, None);
     FromRPC := fun _ _ _ => ([], Some "rpc is down");
     FromDir := fun _ _ => specs;
     Validate := fun _ v =>
       if String.eqb (Name v) "bad" then Some "listen path is empty" else None;
     ctxDone := fun _ => false;
     stopRequested := fun _ => false;
     jsonError := fun _ => "unexpected end of JSON input" |}.

Definition policiesBody (l : list DBPolicy) : RespBody :=
  {| rawBody := "{...}"; asPolicyList := Some (l, "nonce-1");
     asNodeResponse := None |}.

(** A sync function that fails [n] times, then succeeds with count 7; it
    keeps its count of calls in the state. *)
Definition flakySync (n : nat) : M (Z * option string) :=
  fun s =>
    if (ncalls (env s) <? n)%nat then Done (0%Z, Some "source is down") (tick s)
    else Done (7%Z, None) (tick s).

Definition sampleHandler : HTTPDashboardHandler :=
  {| RegistrationEndpoint := "http://dashboard:3000/register/node";
     DeRegistrationEndpoint := "http://dashboard:3000/system/node";
     HeartBeatEndpoint := "http://dashboard:3000/register/ping";
     KeyQuotaTriggerEndpoint := "http://dashboard:3000/system/key/quota_trigger";
     dash_Secret := "node-secret" |}.

(** A dashboard that answers every request with 403. *)
Definition forbiddingDashboard : Outside :=
  sampleOutside
    (DoResp StatusForbidden
       {| rawBody := "forbidden"; asPolicyList := None; asNodeResponse := None |})
    [].

(** ** Further vocabulary: the RPC policy list and the policy files *)

(** The last entry of an RPC policy list that gets the id [id], as
    [parsePoliciesFromRPC] files it. *)
Fixpoint lastRPCWithID (allowExplicit : bool) (id : string) (l : list Policy)
  : option Policy :=
  match l with
  | [] => None
  | p :: rest =>
      match lastRPCWithID allowExplicit id rest with
      | Some q => Some q
      | None =>
          if String.eqb (policyID allowExplicit p) id
          then Some (set_ID p id) else None
      end
  end.

(** The stored backup, if any, is a list the decoder accepts. *)
Definition backupParses (out : Outside) (s : State) : Prop :=
  forall raw, policiesBackup (env s) = Some raw ->
              exists l, decodePolicyList out raw = inl l.

(** An RPC store that answers with the list [raw], decoded as [l]. *)
Definition rpcOutside (raw : string) (l : list Policy) (writable : bool)
  : Outside :=
  {| urlParses := fun _ => true;
     clientDo := fun _ _ => DoErr "no dashboard";
     rpcConnect := fun _ => true;
     rpcGetPolicies := fun _ _ => raw;
     backupWritable := fun _ => writable;
     openFile := fun _ _ => inr "no such file";
     globJSON := fun _ _ => inl [];
     decodePolicyList := fun r => if String.eqb r raw then inl l
                                  else inr "invalid character";
     decodePolicyMap := fun _ => inr "invalid character";
     decodePolicy := fun _ => (zeroPolicy, Some "invalid character");
     FromDashboardService := fun _ _ => ([], None);
     FromRPC := fun _ _ _ => ([], None);
     FromDir := fun _ _ => [];
     Validate := fun _ _ => None;
     ctxDone := fun _ => false;
     stopRequested := fun _ => false;
     jsonError := fun _ => "unexpected end of JSON input" |}.

Definition rpcPolicy (mid org : string) : Policy :=
  {| MID := mid; ID := EmptyString; pol_Name := "silver"; OrgID := org;
     Rate := 10; Per := 1; QuotaMax := 100; AccessRights := ∅ |}.

(** The sample configuration of a slave of a remote RPC source that takes
    its policies from the dashboard. *)
Definition sampleSlaveServiceConfig : Config :=
  {| Secret := Secret sampleConfig; NodeSecret := NodeSecret sampleConfig;
     EnableJSVM := false; UseDBAppConfigs := false;
     DisableDashboardZeroConf := true;
     DBAppConfOptions_ConnectionString := EmptyString;
     AppPath := AppPath sampleConfig; OAS := EmptyString;
     SlaveOptions_UseRPC := true; SlaveOptions_RPCKey := "org";
     AuthOverride_ForceAuthProvider := false;
     AuthOverride_AuthProvider := EmptyString;
     AuthOverride_ForceSessionProvider := false;
     AuthOverride_SessionProvider := EmptyString;
     Policies_PolicySource := "service";
     Policies_PolicyConnectionString := "http://dashboard:3000";
     Policies_PolicyPath := EmptyString;
     Policies_PolicyRecordName := EmptyString;
     Policies_AllowExplicitPolicyID := false;
     ResourceSync_RetryAttempts := 1; ResourceSync_Interval := 3 |}.

(** A policy directory: [glob] lists [paths]; [files] gives the content of
    the files that can be opened, and a content decodes to the policy with
    this content as id. *)
Definition dirOutside (paths : list string) (files : gmap string string)
  : Outside :=
  {| urlParses := fun _ => true;
     clientDo := fun _ _ => DoErr "no dashboard";
     rpcConnect := fun _ => false;
     rpcGetPolicies := fun _ _ => EmptyString;
     backupWritable := fun _ => false;
     openFile := fun _ path => match files !! path with
                               | Some c => inl c
                               | None => inr "permission denied"
                               end;
     globJSON := fun _ _ => inl paths;
     decodePolicyList := fun _ => inr "invalid character";
     decodePolicyMap := fun _ => inr "invalid character";
     decodePolicy := fun c => (set_ID zeroPolicy c, None);
     FromDashboardService := fun _ _ => ([], None);
     FromRPC := fun _ _ _ => ([], None);
     FromDir := fun _ _ => [];
     Validate := fun _ _ => None;
     ctxDone := fun _ => false;
     stopRequested := fun _ => false;
     jsonError := fun _ => "unexpected end of JSON input" |}.

(** The configuration names no source of policies: [syncPolicies] skips. *)
Definition noPolicySource (cfg : Config) : bool :=
  negb (String.eqb (Policies_PolicySource cfg) "service")
  && negb (String.eqb (Policies_PolicySource cfg) "rpc")
  && String.eqb (Policies_PolicyPath cfg) EmptyString
  && String.eqb (Policies_PolicyRecordName cfg) EmptyString.

(** The sample configuration with policies read from a directory. *)
Definition sampleDirConfig : Config :=
  {| Secret := Secret sampleConfig; NodeSecret := NodeSecret sampleConfig;
     EnableJSVM := false; UseDBAppConfigs := false;
     DisableDashboardZeroConf := true;
     DBAppConfOptions_ConnectionString := EmptyString;
     AppPath := AppPath sampleConfig; OAS := EmptyString;
     SlaveOptions_UseRPC := false; SlaveOptions_RPCKey := EmptyString;
     AuthOverride_ForceAuthProvider := true;
     AuthOverride_AuthProvider := "ldap";
     AuthOverride_ForceSessionProvider := false;
     AuthOverride_SessionProvider := EmptyString;
     Policies_PolicySource := "file";
     Policies_PolicyConnectionString := EmptyString;
     Policies_PolicyPath := "/opt/tyk-gateway/policies";
     Policies_PolicyRecordName := EmptyString;
     Policies_AllowExplicitPolicyID := false;
     ResourceSync_RetryAttempts := (-1); ResourceSync_Interval := 3 |}.

(** ** The control API behind mutual TLS ([gateway/server.go]) *)

(** [controlAPICheckClientCertificate]: with mutual TLS on the control API,
    a request whose client certificate is not accepted is answered with 403.
    [validateRequestCerts] is [crypto.ValidateRequestCerts] over the
    certificates [CertificateManager.List] yields for the control API; the
    parameter [certLevel] is not used by the code. *)
Definition controlAPICheckClientCertificate (useMutualTLS : bool)
  (validateRequestCerts : Request -> option string) (certLevel : string)
  (next : Handler) : Handler :=
  fun r σ =>
    if useMutualTLS then
      match validateRequestCerts r with
      | Some err => Returned (doJSONWrite StatusForbidden (apiError err) σ)
      | None => next r σ
      end
    else next r σ.

(** The whole chain [loadControlAPIEndpoints] installs under [/tyk/] (inside
    [http.StripPrefix]); [instrumented] is [InstrumentationMW(r)], the
    router of the control API in its instrumentation wrapper. *)
Definition controlAPIChain (secret : string) (useMutualTLS : bool)
  (validateRequestCerts : Request -> option string) (instrumented : Handler)
  : Handler :=
  stripSlashes
    (checkIsAPIOwner secret
       (controlAPICheckClientCertificate useMutualTLS validateRequestCerts
          "/gateway/client" instrumented)).

(** ** Loading a response plugin ([gateway/res_handler_go_plugin.go]) *)

(** The two entries of package [goplugin] that [Init] calls: the file to load
    for a configured path, and the symbol of a file. *)
Record PluginLoader := mkPluginLoader {
  GetPluginFileNameToLoad : string -> string + string;
  GetResponseHandler : string -> string -> ResHandlerFunc + string
}.

(** The fields of [apidef.MiddlewareDefinition]. *)
Record MiddlewareDefinition := mkMWDef {
  mwd_Disabled : bool;
  mwd_Name : string;
  mwd_Path : string;
  mwd_RequireSession : bool;
  mwd_RawBodyOnly : bool
}.

(** The logger of the middleware after [setLogger]: its lines carry the path
    and the symbol of the definition. *)
Definition pluginLog (c : MiddlewareDefinition) (lv : Level) (msg : string)
  (extra : list (string * string)) : LogEntry :=
  mkLog lv msg
    ([("mwPath", mwd_Path c); ("mwSymbolName", mwd_Name c)] ++ extra).

(** [ResponseGoPluginMiddleware.Init], called with a middleware definition
    as [c]: the error, the middleware and the [Spec] of its base handler as
    the call leaves them, and the lines it logs.  A handler that is set is
    kept as it is; a loader that fails returns no handler. *)
Definition ResponseGoPluginMiddleware_Init (ld : PluginLoader)
  (c : MiddlewareDefinition) (spec : APISpec) (h : ResponseGoPluginMiddleware)
  : option string * ResponseGoPluginMiddleware * APISpec * list LogEntry :=
  let h := {| mw_Path := mwd_Path c; SymbolName := mwd_Name c;
              ResHandler := ResHandler h |} in
  match ResHandler h with
  | Some _ =>
      (None, h, spec,
       [pluginLog c LvlInfo "Go-plugin middleware is already initialized" []])
  | None =>
      match GetPluginFileNameToLoad ld (mw_Path h) with
      | inr err =>
          (Some err, h, spec,
           [pluginLog c LvlError "Could not load Go-plugin. File was not found"
              [("error", err)]])
      | inl newPath =>
          let h := {| mw_Path := newPath; SymbolName := SymbolName h;
                      ResHandler := ResHandler h |} in
          match GetResponseHandler ld (mw_Path h) (SymbolName h) with
          | inr err =>
              (Some err, h, spec,
               [pluginLog c LvlError "Could not load Go-plugin"
                  [("error", err)]])
          | inl f =>
              (None,
               {| mw_Path := mw_Path h; SymbolName := SymbolName h;
                  ResHandler := Some f |}, spec,
               [pluginLog c LvlInfo
                  ("Loaded Go response plugin: " +:+ SymbolName h) []])
          end
      end
  end.

(** ** The dashboard client and deregistration ([gateway/dashboard_register.go]) *)

(** The configuration [initialiseClient] reads. *)
Record ClientOptions := mkClientOptions {
  ConnectionTimeout : Z;
  UseSSL : bool;
  SSLInsecureSkipVerify : bool;
  MinVersion : Z;
  MaxVersion : Z
}.

Record tls_Config := mkTLSConfig {
  InsecureSkipVerify : bool;
  tls_MinVersion : Z;
  tls_MaxVersion : Z
}.

(** [http.Client], by the two fields [initialiseClient] sets; the timeout is
    a [time.Duration]. *)
Record http_Client := mkClient {
  client_Timeout : Z;
  client_Transport : option tls_Config
}.

(** [initialiseClient]: the client returned and the package variable
    [dashClient] as the call leaves it. *)
Definition initialiseClient (conf : ClientOptions)
  (dashClient : option http_Client) : http_Client * option http_Client :=
  match dashClient with
  | Some c => (c, Some c)
  | None =>
      let timeout := ConnectionTimeout conf in
      let timeout := if (timeout <? 1)%Z then 30%Z else timeout in
      let c :=
        {| client_Timeout := int_mul timeout Second;
           client_Transport :=
             if UseSSL conf then
               Some {| InsecureSkipVerify := SSLInsecureSkipVerify conf;
                       tls_MinVersion := MinVersion conf;
                       tls_MaxVersion := MaxVersion conf |}
             else None |} in
      (c, Some c)
  end.

Section Registration.

Variable out : Outside.

(** [DeRegister]. *)
Definition DeRegister (h : HTTPDashboardHandler) : M (option string) :=
  req <- newRequest out h "DELETE" (DeRegistrationEndpoint h) ;;
  fun s =>
    let req := stampRequest req s in
    let resp := clientDo out (ncalls (env s)) req in
    let s := tick (emit (EvSend req) s) in
    match resp with
    | DoErr e => Done (Some ("deregister request failed with error " +:+ e)) s
    | DoResp status b =>
        if negb (status =? StatusOK)%Z then
          Done (Some ("deregister request failed with status " +:+ pretty status))
            s
        else
          match asNodeResponse b with
          | None => Done (Some (jsonError out b)) s
          | Some val =>
              Done None
                (logf LvlInfo "De-registered." []
                   (set_ServiceNonce (node_Nonce val) s))
          end
    end.

End Registration.

(** ** More of package strings and path/filepath *)

(** [strings.HasPrefix(s, p)] and [strings.TrimPrefix(s, p)]. *)
Fixpoint HasPrefix (s p : string) {struct p} : bool :=
  match p, s with
  | EmptyString, _ => true
  | String c p', String d s' => Ascii.eqb c d && HasPrefix s' p'
  | String _ _, EmptyString => false
  end.

Fixpoint drop_bytes (n : nat) (s : string) : string :=
  match n, s with
  | O, _ => s
  | S k, String _ s' => drop_bytes k s'
  | S _, EmptyString => EmptyString
  end.

Definition TrimPrefix (s p : string) : string :=
  if HasPrefix s p then drop_bytes (String.length p) s else s.

(** [strings.HasSuffix(s, suffix)]. *)
Definition HasSuffix (s suffix : string) : bool :=
  (String.length suffix <=? String.length s)%nat
  && String.eqb (drop_bytes (String.length s - String.length suffix) s) suffix.

(** [strings.Split(s, ".")[0]]: [s] up to its first dot. *)
Fixpoint beforeDot (s : string) : string :=
  match s with
  | EmptyString => EmptyString
  | String c rest =>
      if Ascii.eqb c "." then EmptyString else String c (beforeDot rest)
  end.

Fixpoint hasSlash (s : string) : bool :=
  match s with
  | EmptyString => false
  | String c rest => Ascii.eqb c "/" || hasSlash rest
  end.

(** The part of a path after its last separator. *)
Fixpoint lastElement (s : string) : string :=
  match s with
  | EmptyString => EmptyString
  | String c rest =>
      if hasSlash rest then lastElement rest
      else if Ascii.eqb c "/" then rest else String c rest
  end.

(** [filepath.Base(path)] on Unix: the last element of the path, trailing
    separators removed; ["."] for the empty path and ["/"] for a path of
    separators only. *)
Definition Base (path : string) : string :=
  if String.eqb path EmptyString then "."
  else
    let p := lastElement (TrimRight path "/") in
    if String.eqb p EmptyString then "/" else p.

(** ** OAuth key prefixes ([gateway/server.go]) *)

Definition generateOAuthPrefix (apiID : string) : string :=
  "oauth-data." +:+ apiID +:+ ".".

(** ** Custom middleware of an API ([gateway/server.go]) *)

(** The zero value [apidef.MiddlewareDefinition{}]. *)
Definition zeroMiddlewareDefinition : MiddlewareDefinition :=
  {| mwd_Disabled := false; mwd_Name := EmptyString; mwd_Path := EmptyString;
     mwd_RequireSession := false; mwd_RawBodyOnly := false |}.

(** [spec.CustomMiddleware], of type [apidef.MiddlewareSection]. *)
Record MiddlewareSection := mkMWSection {
  cm_AuthCheck : MiddlewareDefinition;
  cm_Pre : list MiddlewareDefinition;
  cm_Post : list MiddlewareDefinition;
  cm_PostKeyAuth : list MiddlewareDefinition;
  cm_Response : list MiddlewareDefinition;
  cm_Driver : string
}.

(** The local variables of [loadCustomMiddleware], which are its results,
    and the lines it logs. *)
Record LoadedMiddleware := mkLoadedMW {
  mwPaths : list string;
  mwAuthCheckFunc : MiddlewareDefinition;
  mwPreFuncs : list MiddlewareDefinition;
  mwPostFuncs : list MiddlewareDefinition;
  mwPostKeyAuthFuncs : list MiddlewareDefinition;
  mwResponseFuncs : list MiddlewareDefinition;
  mwDriver : string;
  mwLog : list Event
}.

(** Where the files of a middleware folder go: into a slice, or into the
    single auth hook. *)
Inductive FolderTarget := IntoPre | IntoAuth | IntoPostAuth | IntoPost.

Definition middlewareFolders : list (string * FolderTarget) :=
  [("pre", IntoPre); ("auth", IntoAuth);
   ("post_auth", IntoPostAuth); ("post", IntoPost)].

(** The definition made for a middleware file. *)
Definition fileMiddleware (path : string) : MiddlewareDefinition :=
  let name := beforeDot (Base path) in
  {| mwd_Disabled := false; mwd_Name := name; mwd_Path := path;
     mwd_RequireSession := HasSuffix name "_with_session";
     mwd_RawBodyOnly := false |}.

Definition mw_log (lv : Level) (msg : string) (args : list LogArg)
  (st : LoadedMiddleware) : LoadedMiddleware :=
  {| mwPaths := mwPaths st; mwAuthCheckFunc := mwAuthCheckFunc st;
     mwPreFuncs := mwPreFuncs st; mwPostFuncs := mwPostFuncs st;
     mwPostKeyAuthFuncs := mwPostKeyAuthFuncs st;
     mwResponseFuncs := mwResponseFuncs st; mwDriver := mwDriver st;
     mwLog := mwLog st ++ [EvLog lv msg args] |}.

Definition mw_addPath (path : string) (st : LoadedMiddleware)
  : LoadedMiddleware :=
  {| mwPaths := mwPaths st ++ [path]; mwAuthCheckFunc := mwAuthCheckFunc st;
     mwPreFuncs := mwPreFuncs st; mwPostFuncs := mwPostFuncs st;
     mwPostKeyAuthFuncs := mwPostKeyAuthFuncs st;
     mwResponseFuncs := mwResponseFuncs st; mwDriver := mwDriver st;
     mwLog := mwLog st |}.

(** The assignment through [folder.single] or [folder.slice]. *)
Definition mw_store (target : FolderTarget) (d : MiddlewareDefinition)
  (st : LoadedMiddleware) : LoadedMiddleware :=
  {| mwPaths := mwPaths st;
     mwAuthCheckFunc := match target with
                        | IntoAuth => d
                        | _ => mwAuthCheckFunc st
                        end;
     mwPreFuncs := match target with
                   | IntoPre => mwPreFuncs st ++ [d]
                   | _ => mwPreFuncs st
                   end;
     mwPostFuncs := match target with
                    | IntoPost => mwPostFuncs st ++ [d]
                    | _ => mwPostFuncs st
                    end;
     mwPostKeyAuthFuncs := match target with
                           | IntoPostAuth => mwPostKeyAuthFuncs st ++ [d]
                           | _ => mwPostKeyAuthFuncs st
                           end;
     mwResponseFuncs := mwResponseFuncs st; mwDriver := mwDriver st;
     mwLog := mwLog st |}.

(** The bodies of the loops over the configured middleware. *)
Definition loadPre (st : LoadedMiddleware) (mwObj : MiddlewareDefinition)
  : LoadedMiddleware :=
  if mwd_Disabled mwObj then st
  else
    mw_log LvlDebug "Loading custom PRE-PROCESSOR middleware: "
      [ArgStr (mwd_Name mwObj)]
      (mw_store IntoPre mwObj (mw_addPath (mwd_Path mwObj) st)).

Definition loadPost (st : LoadedMiddleware) (mwObj : MiddlewareDefinition)
  : LoadedMiddleware :=
  if mwd_Disabled mwObj then st
  else
    mw_log LvlDebug "Loading custom POST-PROCESSOR middleware: "
      [ArgStr (mwd_Name mwObj)]
      (mw_store IntoPost mwObj (mw_addPath (mwd_Path mwObj) st)).

Definition loadPostKeyAuth (st : LoadedMiddleware)
  (mwObj : MiddlewareDefinition) : LoadedMiddleware :=
  if mwd_Disabled mwObj then st
  else
    mw_store IntoPostAuth mwObj
      (if String.eqb (mwd_Path mwObj) EmptyString then st
       else mw_addPath (mwd_Path mwObj) st).

Definition loadResponse (st : LoadedMiddleware) (mw : MiddlewareDefinition)
  : LoadedMiddleware :=
  if mwd_Disabled mw then st
  else
    {| mwPaths := mwPaths st; mwAuthCheckFunc := mwAuthCheckFunc st;
       mwPreFuncs := mwPreFuncs st; mwPostFuncs := mwPostFuncs st;
       mwPostKeyAuthFuncs := mwPostKeyAuthFuncs st;
       mwResponseFuncs := mwResponseFuncs st ++ [mw]; mwDriver := mwDriver st;
       mwLog := mwLog st |}.

(** The body of the loop over the files of one folder. *)
Definition loadFile (folder : string * FolderTarget) (st : LoadedMiddleware)
  (path : string) : LoadedMiddleware :=
  let st := mw_log LvlDebug "Loading file middleware from " [ArgStr path] st in
  let mwDef := fileMiddleware path in
  let st := mw_log LvlDebug "-- Middleware name " [ArgStr (mwd_Name mwDef)] st in
  let st :=
    if mwd_RequireSession mwDef then
      if String.eqb (fst folder) "post_auth" || String.eqb (fst folder) "post"
      then mw_log LvlDebug "-- Middleware requires session" [] st
      else mw_log LvlWarning "Middleware requires session, but isn't post-auth: "
             [ArgStr (mwd_Name mwDef)] st
    else st in
  mw_store (snd folder) mwDef (mw_addPath path st).

(** [loadCustomMiddleware]; [glob name] is what [filepath.Glob] finds for
    the pattern [*.js] in the folder [name] of the API under the configured
    middleware path (its error is dropped by the code). *)
Definition loadCustomMiddleware (glob : string -> list string)
  (cm : MiddlewareSection) : LoadedMiddleware :=
  let st := {| mwPaths := []; mwAuthCheckFunc := zeroMiddlewareDefinition;
               mwPreFuncs := []; mwPostFuncs := []; mwPostKeyAuthFuncs := [];
               mwResponseFuncs := []; mwDriver := EmptyString; mwLog := [] |} in
  let st :=
    if negb (mwd_Disabled (cm_AuthCheck cm))
       && negb (String.eqb (mwd_Name (cm_AuthCheck cm)) EmptyString)
    then
      let st := mw_store IntoAuth (cm_AuthCheck cm) st in
      if negb (String.eqb (mwd_Path (cm_AuthCheck cm)) EmptyString)
      then mw_addPath (mwd_Path (cm_AuthCheck cm)) st else st
    else st in
  let st := fold_left loadPre (cm_Pre cm) st in
  let st := fold_left loadPost (cm_Post cm) st in
  let st :=
    fold_left (fun st folder => fold_left (loadFile folder) (glob (fst folder)) st)
      middlewareFolders st in
  let st :=
    if negb (String.eqb (cm_Driver cm) EmptyString) then
      {| mwPaths := mwPaths st; mwAuthCheckFunc := mwAuthCheckFunc st;
         mwPreFuncs := mwPreFuncs st; mwPostFuncs := mwPostFuncs st;
         mwPostKeyAuthFuncs := mwPostKeyAuthFuncs st;
         mwResponseFuncs := mwResponseFuncs st; mwDriver := cm_Driver cm;
         mwLog := mwLog st |}
    else st in
  let st := fold_left loadPostKeyAuth (cm_PostKeyAuth cm) st in
  fold_left loadResponse (cm_Response cm) st.

(** The results of [loadCustomMiddleware], without the log. *)
Definition mwView (st : LoadedMiddleware)
  : list string * MiddlewareDefinition * list MiddlewareDefinition
    * list MiddlewareDefinition * list MiddlewareDefinition
    * list MiddlewareDefinition * string :=
  (mwPaths st, mwAuthCheckFunc st, mwPreFuncs st, mwPostFuncs st,
   mwPostKeyAuthFuncs st, mwResponseFuncs st, mwDriver st).

(** The auth hook of the configuration, when it is enabled and named. *)
Definition configuredAuthCheck (cm : MiddlewareSection) : option MiddlewareDefinition :=
  if negb (mwd_Disabled (cm_AuthCheck cm))
     && negb (String.eqb (mwd_Name (cm_AuthCheck cm)) EmptyString)
  then Some (cm_AuthCheck cm) else None.

(** The paths of a list of definitions that are not empty. *)
Definition nonEmptyPaths (l : list MiddlewareDefinition) : list string :=
  List.filter (fun p => negb (String.eqb p EmptyString)) (map mwd_Path l).

(** The enabled definitions of a configured list, in order. *)
Definition enabled (l : list MiddlewareDefinition) : list MiddlewareDefinition :=
  List.filter (fun d => negb (mwd_Disabled d)) l.

(** ** Whitelisted ports ([gateway/server.go]) *)

(** [config.PortWhiteList]. *)
Record PortWhiteList := mkPortWhiteList {
  Ranges : list (Z * Z);
  Ports : list Z
}.

(** The configuration [setupPortsWhitelist] reads and writes; a nil map is
    [None]. *)
Record PortsConf := mkPortsConf {
  conf_PortWhiteList : option (gmap string PortWhiteList);
  conf_UseSSL : bool;
  ListenPort : Z;
  ControlAPIPort : Z
}.

Definition setupPortsWhitelist (gwConf : PortsConf) : PortsConf :=
  let w := default ∅ (conf_PortWhiteList gwConf) in
  let protocol := if conf_UseSSL gwConf then "https" else "http" in
  let ls := default {| Ranges := []; Ports := [] |} (w !! protocol) in
  let ls := {| Ranges := Ranges ls; Ports := Ports ls ++ [ListenPort gwConf] |} in
  let ls := if negb (ControlAPIPort gwConf =? 0)%Z
            then {| Ranges := Ranges ls;
                    Ports := Ports ls ++ [ControlAPIPort gwConf] |}
            else ls in
  {| conf_PortWhiteList := Some (<[protocol := ls]> w);
     conf_UseSSL := conf_UseSSL gwConf;
     ListenPort := ListenPort gwConf;
     ControlAPIPort := ControlAPIPort gwConf |}.

(** ** Secrets of the configuration ([gateway/server.go]) *)

(** [kv.Store]: [Get(key)]. *)
Definition kv_Store := string -> string * option string.

(** The fields of the gateway that [kvStore] reads and writes, and the lines
    it logs. *)
Record KVState := mkKVState {
  consulKVStore : option kv_Store;
  vaultKVStore : option kv_Store;
  kvLog : list Event
}.

Definition kv_log (lv : Level) (msg : string) (args : list LogArg)
  (st : KVState) : KVState :=
  {| consulKVStore := consulKVStore st; vaultKVStore := vaultKVStore st;
     kvLog := kvLog st ++ [EvLog lv msg args] |}.

Section KV.

(** The [Secrets] map of the configuration, the environment, and the
    constructors of package [kv] applied to the configuration: the store
    they return, nil or not, and their error. *)
Variable Secrets : gmap string string.
Variable Getenv : string -> string.
Variable ToUpper : string -> string.
Variable NewConsul : option kv_Store * option string.
Variable NewVault : option kv_Store * option string.

Definition setUpConsul (st : KVState) : option string * KVState :=
  match consulKVStore st with
  | Some _ => (None, st)
  | None =>
      let '(store, err) := NewConsul in
      let st := {| consulKVStore := store; vaultKVStore := vaultKVStore st;
                   kvLog := kvLog st |} in
      match err with
      | Some e =>
          (Some e, kv_log LvlDebug
                     "an error occurred while setting up consul.. %v" [ArgStr e] st)
      | None => (None, st)
      end
  end.

Definition setUpVault (st : KVState) : option string * KVState :=
  match vaultKVStore st with
  | Some _ => (None, st)
  | None =>
      let '(store, err) := NewVault in
      let st := {| consulKVStore := consulKVStore st; vaultKVStore := store;
                   kvLog := kvLog st |} in
      match err with
      | Some e =>
          (Some e, kv_log LvlDebug
                     "an error occurred while setting up vault... %v" [ArgStr e] st)
      | None => (None, st)
      end
  end.

(** [kvStore]: the value, the error, and the state the call leaves; [None]
    stands for the panic of a [Get] on a store that is nil. *)
Definition kvStore (value : string) (st : KVState)
  : option (string * option string) * KVState :=
  if HasPrefix value "secrets://" then
    let key := TrimPrefix value "secrets://" in
    let st := kv_log LvlDebug "Retrieving %s from secret store in config"
                [ArgStr key] st in
    match Secrets !! key with
    | None =>
        (Some (EmptyString,
               Some ("secrets does not exist in config.. " +:+ key +:+ " not found")),
         st)
    | Some val => (Some (val, None), st)
    end
  else if HasPrefix value "env://" then
    let key := TrimPrefix value "env://" in
    let st := kv_log LvlDebug "Retrieving %s from environment" [ArgStr key] st in
    (Some (Getenv ("TYK_SECRET_" +:+ ToUpper key), None), st)
  else if HasPrefix value "consul://" then
    let key := TrimPrefix value "consul://" in
    let st := kv_log LvlDebug "Retrieving %s from consul" [ArgStr key] st in
    match setUpConsul st with
    | (Some err, st) =>
        (Some (value, None),
         kv_log LvlError "Failed to setup consul: " [ArgStr err] st)
    | (None, st) =>
        match consulKVStore st with
        | Some store => (Some (store key), st)
        | None => (None, st)
        end
    end
  else if HasPrefix value "vault://" then
    let key := TrimPrefix value "vault://" in
    let st := kv_log LvlDebug "Retrieving %s from vault" [ArgStr key] st in
    match setUpVault st with
    | (Some err, st) =>
        (Some (value, None),
         kv_log LvlError "Failed to setup vault: " [ArgStr err] st)
    | (None, st) =>
        match vaultKVStore st with
        | Some store => (Some (store key), st)
        | None => (None, st)
        end
    end
  else (Some (value, None), st).

End KV.

(** ** Defaults and secrets after the configuration is read
       ([gateway/server.go]) *)

Section AfterConfSetup.

(** The environment, and the constructors of the remote stores. *)
Variable Getenv : string -> string.
Variable ToUpper : string -> string.
Variable NewConsul : option kv_Store * option string.
Variable NewVault : option kv_Store * option string.

(** [config.OpenTelemetry], which is not embedded: the two fields the code
    touches, its method [SetDefaults] and the constant
    [config.DefaultOTelResourceName]. *)
Context {OpenTelemetry : Type}.
Variable otel_Enabled : OpenTelemetry -> bool.
Variable otel_ResourceName : OpenTelemetry -> string.
Variable otel_setResourceName : OpenTelemetry -> string -> OpenTelemetry.
Variable otel_SetDefaults : OpenTelemetry -> OpenTelemetry.
Variable DefaultOTelResourceName : string.

(** The fields of the configuration that [afterConfSetup] reads or writes;
    the numeric ones are only compared with zero and multiplied. *)
Record SetupConfig := mkSetupConfig {
  sc_UseRPC : bool;
  sc_GroupID : string;
  sc_CallTimeout : Z;
  sc_PingTimeout : Z;
  sc_KeySpaceSyncInterval : Z;
  sc_RPCCertCacheExpiration : Z;
  sc_RPCGlobalCacheExpiration : Z;
  sc_APIKey : string;
  sc_PurgeInterval : Z;
  sc_RegexpCacheExpire : Z;
  sc_DisableRegexpCache : bool;
  sc_HealthCheckEndpointName : string;
  sc_ReadinessCheckEndpointName : string;
  sc_Secret : string;
  sc_NodeSecret : string;
  sc_StoragePassword : string;
  sc_CacheStoragePassword : string;
  sc_PrivateCertificateEncodingSecret : string;
  sc_UseDBAppConfigs : bool;
  sc_ConnectionString : string;
  sc_PolicySource : string;
  sc_PolicyConnectionString : string;
  sc_EdgeOriginalAPIKeyPath : string;
  sc_OpenTelemetry : OpenTelemetry;
  sc_Secrets : gmap string string
}.

(** What [afterConfSetup] sets outside the configuration: the two timeouts
    of package [rpc], and the arguments of [regexp.ResetCache]. *)
Record SetupGlobals := mkSetupGlobals {
  GlobalRPCPingTimeout : Z;
  GlobalRPCCallTimeout : Z;
  regexpCacheTTL : Z;
  regexpCacheEnabled : bool
}.

(** [afterConfSetup] stores the configuration, ends the process with a
    fatal log line, or panics on a remote store that is nil.  The call of
    [initGenericEventHandlers], which reads the stored configuration and
    does not write it, is left out. *)
Inductive SetupResult :=
| SetupDone (conf : SetupConfig) (globals : SetupGlobals) (st : KVState)
| SetupFatal (msg err : string) (st : KVState)
| SetupPanic (st : KVState).

(** One [conf.F, err = gw.kvStore(conf.F)] with its fatal check. *)
Definition resolveField (secrets : gmap string string) (msg value : string)
  (k : string -> KVState -> SetupResult) (st : KVState) : SetupResult :=
  match kvStore secrets Getenv ToUpper NewConsul NewVault value st with
  | (Some (v, None), st) => k v st
  | (Some (_, Some e), st) => SetupFatal msg e st
  | (None, st) => SetupPanic st
  end.

Definition orDefaultZ (v d : Z) : Z := if (v =? 0)%Z then d else v.
Definition orDefaultString (v d : string) : string :=
  if String.eqb v EmptyString then d else v.

Definition afterConfSetup (conf : SetupConfig) (st : KVState) : SetupResult :=
  let rpc := sc_UseRPC conf in
  let groupID := if rpc then orDefaultString (sc_GroupID conf) "ungrouped"
                 else sc_GroupID conf in
  let callTimeout := if rpc then orDefaultZ (sc_CallTimeout conf) 30
                     else sc_CallTimeout conf in
  let pingTimeout := if rpc then orDefaultZ (sc_PingTimeout conf) 60
                     else sc_PingTimeout conf in
  let keySpace := if rpc then orDefaultZ (sc_KeySpaceSyncInterval conf) 10
                  else sc_KeySpaceSyncInterval conf in
  let certCache := if rpc then orDefaultZ (sc_RPCCertCacheExpiration conf) 3600
                   else sc_RPCCertCacheExpiration conf in
  let globalCache := if rpc then orDefaultZ (sc_RPCGlobalCacheExpiration conf) 30
                     else sc_RPCGlobalCacheExpiration conf in
  let purge := orDefaultZ (sc_PurgeInterval conf) 10 in
  let globals :=
    {| GlobalRPCPingTimeout := int_mul Second pingTimeout;
       GlobalRPCCallTimeout := int_mul Second callTimeout;
       regexpCacheTTL := int_mul Second (sc_RegexpCacheExpire conf);
       regexpCacheEnabled := negb (sc_DisableRegexpCache conf) |} in
  let health := orDefaultString (sc_HealthCheckEndpointName conf) "hello" in
  let ready := orDefaultString (sc_ReadinessCheckEndpointName conf) "ready" in
  let secrets := sc_Secrets conf in
  resolveField secrets "Could not retrieve the secret key..." (sc_Secret conf)
    (fun secret =>
  resolveField secrets "Could not retrieve the NodeSecret key..."
    (sc_NodeSecret conf)
    (fun nodeSecret =>
  resolveField secrets "Could not retrieve redis password..."
    (sc_StoragePassword conf)
    (fun storagePassword =>
  resolveField secrets "Could not retrieve cache storage password..."
    (sc_CacheStoragePassword conf)
    (fun cachePassword =>
  resolveField secrets
    "Could not retrieve the private certificate encoding secret..."
    (sc_PrivateCertificateEncodingSecret conf)
    (fun certSecret =>
  (if sc_UseDBAppConfigs conf
   then resolveField secrets "Could not fetch dashboard connection string."
          (sc_ConnectionString conf)
   else fun k => k (sc_ConnectionString conf))
    (fun connStr =>
  (if String.eqb (sc_PolicySource conf) "service"
   then resolveField secrets "Could not fetch policy connection string."
          (sc_PolicyConnectionString conf)
   else fun k => k (sc_PolicyConnectionString conf))
    (fun policyConnStr =>
  (if negb (String.eqb (sc_APIKey conf) EmptyString)
   then resolveField secrets "Could not retrieve API key from KV store."
          (sc_APIKey conf)
   else fun k => k (sc_APIKey conf))
    (fun apiKey st =>
  let edgePath := if negb (String.eqb (sc_APIKey conf) EmptyString)
                  then sc_APIKey conf else sc_EdgeOriginalAPIKeyPath conf in
  let otel := sc_OpenTelemetry conf in
  let otel :=
    if otel_Enabled otel then
      otel_SetDefaults
        (if String.eqb (otel_ResourceName otel) EmptyString
         then otel_setResourceName otel DefaultOTelResourceName else otel)
    else otel in
  SetupDone
    {| sc_UseRPC := rpc; sc_GroupID := groupID; sc_CallTimeout := callTimeout;
       sc_PingTimeout := pingTimeout; sc_KeySpaceSyncInterval := keySpace;
       sc_RPCCertCacheExpiration := certCache;
       sc_RPCGlobalCacheExpiration := globalCache;
       sc_APIKey := apiKey; sc_PurgeInterval := purge;
       sc_RegexpCacheExpire := sc_RegexpCacheExpire conf;
       sc_DisableRegexpCache := sc_DisableRegexpCache conf;
       sc_HealthCheckEndpointName := health;
       sc_ReadinessCheckEndpointName := ready;
       sc_Secret := secret; sc_NodeSecret := nodeSecret;
       sc_StoragePassword := storagePassword;
       sc_CacheStoragePassword := cachePassword;
       sc_PrivateCertificateEncodingSecret := certSecret;
       sc_UseDBAppConfigs := sc_UseDBAppConfigs conf;
       sc_ConnectionString := connStr;
       sc_PolicySource := sc_PolicySource conf;
       sc_PolicyConnectionString := policyConnStr;
       sc_EdgeOriginalAPIKeyPath := edgePath;
       sc_OpenTelemetry := otel; sc_Secrets := secrets |}
    globals st)))))))) st.

End AfterConfSetup.

(** ** The reload queue ([gateway/server.go]) *)

Section ReloadQueue.

Variable out : Outside.

(** A queued callback is a [func()]; [call] runs one.  [DoCoprocessReload]
    is not embedded. *)
Variable Callback : Type.
Variable call : Callback -> M unit.
Variable DoCoprocessReload : M unit.

(** [shouldReload]: the callbacks to run, whether to reload, and the queue
    [gw.requeue] as the call leaves it.  A nil callback is [None]. *)
Definition shouldReload (requeue : list (option Callback))
  : list (option Callback) * bool * list (option Callback) :=
  match requeue with
  | [] => ([], false, requeue)
  | _ => (requeue, true, [])
  end.

(** The loop over the callbacks in [reloadLoop]. *)
Fixpoint runCallbacks (cb : list (option Callback)) : M unit :=
  match cb with
  | [] => ret tt
  | c :: rest =>
      match c with
      | Some f => call f
      | None => ret tt
      end ;;;
      runCallbacks rest
  end.

(** The first of the optional functions of a variadic parameter, called if
    there is one. *)
Definition callFirst (fs : list (M unit)) : M unit :=
  match fs with
  | f :: _ => f
  | [] => ret tt
  end.

(** The body of [reloadLoop] for one tick, on the queue as it is at the
    tick: the queue it leaves.  The duration in the last log line is not
    modelled. *)
Definition reloadTick (complete : list (M unit))
  (requeue : list (option Callback)) : M (list (option Callback)) :=
  let '(cb, ok, requeue) := shouldReload requeue in
  if negb ok then ret requeue
  else
    act (logf LvlInfo "reload: initiating" []) ;;;
    DoReload out ;;;
    act (logf LvlInfo "reload: complete" []) ;;;
    act (logf LvlInfo "Initiating coprocess reload" []) ;;;
    DoCoprocessReload ;;;
    act (logf LvlInfo "coprocess reload complete" []) ;;;
    runCallbacks cb ;;;
    callFirst complete ;;;
    act (logf LvlInfo "reload: cycle completed in %v" []) ;;;
    ret requeue.

(** The body of [reloadQueueLoop] for one function received from the reload
    queue. *)
Definition queueReload (cb : list (M unit)) (fn : option Callback)
  (requeue : list (option Callback)) : M (list (option Callback)) :=
  let requeue := requeue ++ [fn] in
  act (logf LvlInfo "Reload queued" []) ;;;
  callFirst cb ;;;
  ret requeue.

End ReloadQueue.

(** An answer of the dashboard that makes [Register] try again: a transport
    error, or a status other than 200 and 409. *)
Definition unavailable (r : DoResult) : bool :=
  match r with
  | DoErr _ => true
  | DoResp status _ => negb (status =? StatusConflict)%Z && negb (status =? 200)%Z
  end.

(** What the dashboard sees of [n] attempts to register that it does not
    serve. *)
Fixpoint failedRegistrations (endpoint : string) (n : nat) : list Shape :=
  match n with
  | O => []
  | S k => ShSend "GET" endpoint :: ShSleep (5 * Second)
           :: failedRegistrations endpoint k
  end.

(** A dashboard whose answer to every request is [resp], with a context that
    is cancelled from the start when [cancelled] is set. *)
Definition dashboardOutside (resp : DoResult) (cancelled : bool) : Outside :=
  {| urlParses := fun _ => true;
     clientDo := fun _ _ => resp;
     rpcConnect := fun _ => false;
     rpcGetPolicies := fun _ _ => EmptyString;
     backupWritable := fun _ => true;
     openFile := fun _ _ => inr "no such file";
     globJSON := fun _ _ => inl [];
     decodePolicyList := fun _ => inr "invalid character";
     decodePolicyMap := fun _ => inr "invalid character";
     decodePolicy := fun _ => (zeroPolicy, Some "invalid character");
     FromDashboardService := fun _ _ => ([], None);
     FromRPC := fun _ _ _ => ([], None);
     FromDir := fun _ _ => [];
     Validate := fun _ _ => None;
     ctxDone := fun _ => cancelled;
     stopRequested := fun _ => false;
     jsonError := fun _ => "unexpected end of JSON input" |}.

(** An answer 200 of the dashboard carrying [msg] and the nonce [nonce]. *)
Definition nodeAnswer (msg : gmap string string) (nonce : string) : DoResult :=
  DoResp StatusOK
    {| rawBody := "{...}"; asPolicyList := None;
       asNodeResponse := Some {| node_Status := "ok"; node_Message := msg;
                                 node_Nonce := nonce |} |}.

(** A configuration as read from a file that leaves the timeouts out and
    takes its secret from the [secrets] section; [config.OpenTelemetry] is
    not looked into. *)
Definition sampleSetupConfig : @SetupConfig unit :=
  {| sc_UseRPC := true; sc_GroupID := EmptyString; sc_CallTimeout := 0;
     sc_PingTimeout := 0; sc_KeySpaceSyncInterval := 0;
     sc_RPCCertCacheExpiration := 0; sc_RPCGlobalCacheExpiration := 0;
     sc_APIKey := "env://api_key"; sc_PurgeInterval := 0;
     sc_RegexpCacheExpire := 60; sc_DisableRegexpCache := false;
     sc_HealthCheckEndpointName := EmptyString;
     sc_ReadinessCheckEndpointName := "ready";
     sc_Secret := "secrets://gw"; sc_NodeSecret := "node-secret";
     sc_StoragePassword := EmptyString; sc_CacheStoragePassword := EmptyString;
     sc_PrivateCertificateEncodingSecret := EmptyString;
     sc_UseDBAppConfigs := false; sc_ConnectionString := EmptyString;
     sc_PolicySource := "rpc"; sc_PolicyConnectionString := EmptyString;
     sc_EdgeOriginalAPIKeyPath := EmptyString;
     sc_OpenTelemetry := tt; sc_Secrets := {["gw" := "s3cret"]} |}.

Definition emptyKVState : KVState :=
  {| consulKVStore := None; vaultKVStore := None; kvLog := [] |}.

(* ===================================================================== *)
(** * Part II: properties                                                  *)
(* ===================================================================== *)

(** ** Trailing slashes *)

Example TrimRight_keys : TrimRight "/keys//" "/" = "/keys".
Proof. reflexivity. Qed.

Example TrimRight_inner : TrimRight "/apis/oas/" "/" = "/apis/oas".
Proof. reflexivity. Qed.

Example TrimRight_root : TrimRight "///" "/" = EmptyString.
Proof. reflexivity. Qed.

Lemma in_cutset_slash (c : ascii) :
  in_cutset c "/" = true -> c = "/"%char.
Proof.
  simpl. rewrite orb_false_r. intros H. now apply Ascii.eqb_eq.
Qed.

Lemma TrimRight_idempotent (s cutset : string) :
  TrimRight (TrimRight s cutset) cutset = TrimRight s cutset.
Proof.
  induction s as [|c rest IH]; simpl; [reflexivity|].
  destruct (TrimRight rest cutset) as [|d t] eqn:E.
  - destruct (in_cutset c cutset) eqn:Ec; simpl; [reflexivity|].
    now rewrite Ec.
  - change (TrimRight (String c (String d t)) cutset)
      with (match TrimRight (String d t) cutset with
            | EmptyString =>
                if in_cutset c cutset then EmptyString else String c EmptyString
            | t' => String c t'
            end).
    now rewrite IH.
Qed.

Lemma TrimRight_slash_suffix (s : string) :
  exists n, s = TrimRight s "/" +:+ repeat_char "/" n.
Proof.
  induction s as [|c rest [n IH]]; [now exists 0|].
  cbn [TrimRight]. destruct (TrimRight rest "/") as [|d t] eqn:E.
  - destruct (in_cutset c "/") eqn:Ec.
    + apply in_cutset_slash in Ec. subst c. exists (S n).
      rewrite IH at 1. reflexivity.
    + exists n. rewrite IH at 1. reflexivity.
  - exists n. rewrite IH at 1. reflexivity.
Qed.

Lemma TrimRight_no_trailing (s cutset : string) (c : ascii) :
  last_char (TrimRight s cutset) = Some c -> in_cutset c cutset = false.
Proof.
  induction s as [|a rest IH]; simpl; [discriminate|].
  destruct (TrimRight rest cutset) as [|d t] eqn:E.
  - destruct (in_cutset a cutset) eqn:Ea; simpl; [discriminate|].
    intros [= <-]. exact Ea.
  - intros H. apply IH. exact H.
Qed.

Lemma set_Path_same (u : url_URL) : set_Path u (Path u) = u.
Proof. now destruct u. Qed.

(** The state in which [stripSlashes] calls the inner handler. *)
Lemma stripSlashes_passes (next : Handler) (r : Request) (σ : World)
  (u : url_URL) :
  urls σ !! URL r = Some u ->
  exists σ',
    stripSlashes next r σ = next r σ' /\
    urls σ' !! URL r = Some (set_Path u (TrimRight (Path u) "/")) /\
    (forall l, l <> URL r -> urls σ' !! l = urls σ !! l) /\
    writer σ' = writer σ /\ logs σ' = logs σ.
Proof.
  intros Hu. unfold stripSlashes. rewrite Hu.
  destruct (String.eqb (TrimRight (Path u) "/") (Path u)) eqn:E; simpl.
  - apply String.eqb_eq in E. exists σ. repeat split; try reflexivity.
    rewrite E, set_Path_same. exact Hu.
  - eexists. split; [reflexivity|]. simpl. repeat split.
    + apply lookup_insert_eq.
    + intros l Hl. now apply lookup_insert_ne.
Qed.

(** C10.  A request passed through [stripSlashes] reaches the inner handler as
    the same request struct, over a URL whose path is the original path with
    all its trailing slashes removed and whose scheme, host, raw path and
    query are the original ones; no other URL, nor the response writer, nor
    the log is touched; and wrapping a handler twice is the same as wrapping
    it once. *)
Theorem stripSlashes_spec (next : Handler) (r : Request) (σ : World)
  (u : url_URL) :
  urls σ !! URL r = Some u ->
  let trim := TrimRight (Path u) "/" in
  (exists σ' u',
      stripSlashes next r σ = next r σ' /\
      urls σ' !! URL r = Some u' /\
      Path u' = trim /\
      Scheme u' = Scheme u /\ Host u' = Host u /\
      RawPath u' = RawPath u /\ RawQuery u' = RawQuery u /\
      (forall l, l <> URL r -> urls σ' !! l = urls σ !! l) /\
      writer σ' = writer σ /\ logs σ' = logs σ) /\
  (exists n, Path u = trim +:+ repeat_char "/" n) /\
  last_char trim <> Some "/"%char /\
  TrimRight trim "/" = trim /\
  stripSlashes (stripSlashes next) r σ = stripSlashes next r σ.
Proof.
  intros Hu trim.
  assert (Hidem : TrimRight trim "/" = trim) by apply TrimRight_idempotent.
  split; [|split; [|split; [|split]]].
  - destruct (stripSlashes_passes next r σ u Hu)
      as (σ' & Hrun & Hurl & Hother & Hw & Hl).
    exists σ', (set_Path u trim).
    split; [exact Hrun|]. split; [exact Hurl|].
    split; [reflexivity|]. split; [reflexivity|]. split; [reflexivity|].
    split; [reflexivity|]. split; [reflexivity|].
    split; [exact Hother|]. split; [exact Hw | exact Hl].
  - apply TrimRight_slash_suffix.
  - intros H. apply TrimRight_no_trailing in H. discriminate.
  - exact Hidem.
  - unfold stripSlashes at 1. rewrite Hu. fold trim.
    destruct (String.eqb trim (Path u)) eqn:E; simpl; [reflexivity|].
    unfold stripSlashes. simpl. rewrite Hu, lookup_insert_eq. simpl.
    fold trim. rewrite Hidem, String.eqb_refl, E. reflexivity.
Qed.

Lemma stripSlashes_spec_witness :
  urls sampleWorld !! URL sampleRequest = Some sampleURL /\
  Path sampleURL = "/keys//" /\
  exists σ',
    stripSlashes pathEcho sampleRequest sampleWorld
    = Returned (set_writer (Write (Raw "/keys") (writer σ')) σ') /\
    writer σ' = writer sampleWorld.
Proof.
  split; [reflexivity|]. split; [reflexivity|].
  destruct (stripSlashes_spec pathEcho sampleRequest sampleWorld sampleURL
              eq_refl)
    as ((σ' & u' & Hrun & Hurl & Hpath & _ & _ & _ & _ & _ & Hw & _) & _).
  exists σ'. split; [|exact Hw].
  rewrite Hrun. unfold pathEcho. rewrite Hurl, Hpath. reflexivity.
Defined.

(** ** The shared secret of the control API *)

(** What a rejected request leaves behind: a warning in the log and a JSON
    error answer on the writer. *)
Lemma doJSONWrite_fresh (code : Z) (obj : apiStatusMessage) (σ : World) :
  wroteHeader (writer σ) = false ->
  let w := writer (doJSONWrite code obj σ) in
  wroteHeader w = true /\ statusCode w = code /\
  sentHeader w !! ContentType = Some [ApplicationJSON] /\
  body w = body (writer σ) ++ [JSON obj].
Proof.
  intros Hfresh. unfold doJSONWrite, Write, WriteHeader. simpl.
  rewrite Hfresh. simpl. repeat split.
  unfold Header_Set. apply lookup_insert_eq.
Qed.

(** C7.  A request whose [X-Tyk-Authorization] header differs from the
    configured secret is answered by the guard itself, whatever the wrapped
    handler is: the result is a return with a warning logged and the JSON
    error written with status 403, an expression in which the wrapped handler
    does not occur, so it is not invoked; on the writer of a request not yet
    answered the client gets status 403, content type JSON and the error
    object as body.  The same holds for the guard behind [stripSlashes], as it
    is installed under [/tyk/]. *)
Theorem checkIsAPIOwner_rejects (secret : string) (r : Request) (σ : World) :
  Header_Get (Header r) XTykAuthorization <> secret ->
  let rejected := fun σ0 : World =>
    doJSONWrite StatusForbidden (apiError invalidKeyMessage)
      (log_append LvlWarning invalidKeyMessage [] σ0) in
  (forall next : Handler, checkIsAPIOwner secret next r σ = Returned (rejected σ)) /\
  (forall (next : Handler) (u : url_URL),
      urls σ !! URL r = Some u ->
      exists σ1, writer σ1 = writer σ /\ logs σ1 = logs σ /\
        controlAPIHandler secret next r σ = Returned (rejected σ1)) /\
  (wroteHeader (writer σ) = false ->
   let w := writer (rejected σ) in
   wroteHeader w = true /\ statusCode w = 403%Z /\
   sentHeader w !! ContentType = Some [ApplicationJSON] /\
   body w = body (writer σ) ++ [JSON (apiError invalidKeyMessage)]).
Proof.
  intros Hne rejected.
  assert (Hguard : forall next σ0,
             checkIsAPIOwner secret next r σ0 = Returned (rejected σ0)).
  { intros next σ0. unfold checkIsAPIOwner.
    destruct (String.eqb _ secret) eqn:E; [|reflexivity].
    apply String.eqb_eq in E. contradiction. }
  split; [|split].
  - intros next. apply Hguard.
  - intros next u Hu.
    destruct (stripSlashes_passes (checkIsAPIOwner secret next) r σ u Hu)
      as (σ1 & Heq & _ & _ & Hw & Hl).
    exists σ1. repeat split; try assumption.
    unfold controlAPIHandler. rewrite Heq. apply Hguard.
  - intros Hfresh.
    apply (doJSONWrite_fresh StatusForbidden (apiError invalidKeyMessage)
             (log_append LvlWarning invalidKeyMessage [] σ)).
    exact Hfresh.
Qed.

Lemma checkIsAPIOwner_rejects_witness :
  Header_Get (Header sampleRequest) XTykAuthorization <> "s3cret" /\
  checkIsAPIOwner "s3cret" sampleEndpoint sampleRequest sampleWorld
  = Returned
      (doJSONWrite StatusForbidden (apiError invalidKeyMessage)
         (log_append LvlWarning invalidKeyMessage [] sampleWorld)).
Proof.
  assert (H : Header_Get (Header sampleRequest) XTykAuthorization <> "s3cret")
    by (vm_compute; discriminate).
  split; [exact H|].
  apply (checkIsAPIOwner_rejects "s3cret" sampleRequest sampleWorld H).
Defined.

(** ** Panics of a response plugin *)

Lemma crw_call_silent (c : WriterCall) (rw : customResponseWriter) (σ : World) :
  sends c = false ->
  wroteHeader (writer (snd (crw_call c (rw, σ)))) = wroteHeader (writer σ).
Proof. destruct c; simpl; [reflexivity | discriminate | discriminate]. Qed.

Lemma crw_run_silent (cs : list WriterCall) (st : customResponseWriter * World) :
  forallb (fun c => negb (sends c)) cs = true ->
  wroteHeader (writer (snd (crw_run cs st))) = wroteHeader (writer (snd st)).
Proof.
  revert st. induction cs as [|c cs IH]; intros st H; [reflexivity|].
  simpl in H. apply andb_prop in H as [Hc Hcs].
  unfold crw_run in *. simpl. rewrite (IH _ Hcs).
  destruct st as [rw σ]. apply crw_call_silent.
  now apply negb_true_iff in Hc.
Qed.




(** ** Duplicate ids in the dashboard's policy list *)

Lemma mergeDashboardPolicy_dup (a : bool) (m : gmap string Policy) (s : State)
  (p : DBPolicy) (old : Policy) :
  m !! policyID a (db_Policy p) = Some old ->
  mergeDashboardPolicy a (m, s) p
  = (m, logf LvlWarning duplicateMessage
          [ArgStr (policyID a (db_Policy p)); ArgStr (OrgID (db_Policy p))] s).
Proof. intros H. unfold mergeDashboardPolicy. now rewrite H. Qed.

Lemma mergeDashboardPolicy_new (a : bool) (m : gmap string Policy) (s : State)
  (p : DBPolicy) :
  m !! policyID a (db_Policy p) = None ->
  mergeDashboardPolicy a (m, s) p
  = (<[policyID a (db_Policy p) := filedPolicy a p]> m, s).
Proof. intros H. unfold mergeDashboardPolicy. now rewrite H. Qed.

Lemma mergeDashboardPolicy_fold (a : bool) (l : list DBPolicy) :
  forall (m : gmap string Policy) (s : State),
    let r := fold_left (mergeDashboardPolicy a) l (m, s) in
    (forall id,
        fst r !! id = match m !! id with
                      | Some v => Some v
                      | None => firstWithID a id l
                      end) /\
    trace (env (snd r)) = trace (env s) ++ duplicateWarnings a (dom m) l /\
    gw (snd r) = gw s /\
    emergencyMode (env (snd r)) = emergencyMode (env s) /\
    policiesBackup (env (snd r)) = policiesBackup (env s) /\
    ncalls (env (snd r)) = ncalls (env s).
Proof.
  induction l as [|p rest IH]; intros m s; cbn zeta.
  - simpl. repeat split; try reflexivity.
    + intros id. now destruct (m !! id).
    + now rewrite app_nil_r.
  - cbn [fold_left firstWithID duplicateWarnings].
    set (idp := policyID a (db_Policy p)).
    destruct (m !! idp) as [old|] eqn:Hm.
    + rewrite (mergeDashboardPolicy_dup a m s p old Hm). fold idp.
      specialize (IH m
        (logf LvlWarning duplicateMessage
           [ArgStr idp; ArgStr (OrgID (db_Policy p))] s)).
      cbn zeta in IH. destruct IH as (Hlook & Htr & Hgw & He & Hb & Hn).
      repeat split; try assumption.
      * intros id. rewrite Hlook. destruct (m !! id) eqn:Hid; [reflexivity|].
        destruct (String.eqb idp id) eqn:E; [|reflexivity].
        apply String.eqb_eq in E. congruence.
      * rewrite Htr. simpl. rewrite <- app_assoc. simpl.
        destruct (decide (idp ∈ dom m)) as [_|Hn']; [reflexivity|].
        exfalso. apply Hn'. apply elem_of_dom. eauto.
    + rewrite (mergeDashboardPolicy_new a m s p Hm). fold idp.
      specialize (IH (<[idp := filedPolicy a p]> m) s).
      cbn zeta in IH. destruct IH as (Hlook & Htr & Hgw & He & Hb & Hn).
      repeat split; try assumption.
      * intros id. rewrite Hlook.
        destruct (String.eqb idp id) eqn:E.
        -- apply String.eqb_eq in E. subst id.
           now rewrite lookup_insert_eq, Hm.
        -- apply String.eqb_neq in E. now rewrite lookup_insert_ne.
      * rewrite Htr, dom_insert_L.
        destruct (decide (idp ∈ dom m)) as [Hin|_]; [|reflexivity].
        apply elem_of_dom in Hin as [v Hv]. congruence.
Qed.

(** Two fetched policies with the same id: the merged map holds the first,
    not the last. *)
Lemma LoadPoliciesFromDashboard_not_last_wins :
  ~ (forall (a : bool) (l : list DBPolicy) (s : State) (id : string),
        fst (fold_left (mergeDashboardPolicy a) l (∅, s)) !! id
        = lastWithID a id l).
Proof.
  intros H.
  specialize (H false [samplePolicy "p1" "first"; samplePolicy "p1" "last"]
                (sampleState sampleConfig []) "p1").
  destruct (mergeDashboardPolicy_fold false
              [samplePolicy "p1" "first"; samplePolicy "p1" "last"]
              ∅ (sampleState sampleConfig [])) as (Hlook & _).
  cbn zeta in Hlook. rewrite Hlook, lookup_empty in H.
  vm_compute in H. discriminate H.
Qed.

(** C2 (amended).  When the dashboard answers the policy request with a list,
    [LoadPoliciesFromDashboard] returns a map in which every id holds the
    first entry of the list that gets this id, and logs one warning for each
    later entry with an id already seen: duplicates are skipped, first wins. *)
Theorem LoadPoliciesFromDashboard_first_wins (out : Outside)
  (endpoint secret : string) (a : bool) (s : State) (b : RespBody)
  (Message : list DBPolicy) (Nonce : string) :
  urlParses out endpoint = true ->
  clientDo out (ncalls (env s)) (policyRequest endpoint secret s)
  = DoResp StatusOK b ->
  asPolicyList b = Some (Message, Nonce) ->
  exists policies s',
    LoadPoliciesFromDashboard out endpoint secret a s = Done (policies, None) s' /\
    (forall id, policies !! id = firstWithID a id Message) /\
    trace (env s')
    = trace (env s)
      ++ [EvLog LvlInfo "Mutex lock acquired... calling" [];
          EvLog LvlInfo "Calling dashboard service for policy list" [];
          EvSend (policyRequest endpoint secret s);
          EvLog LvlDebug "Loading Policies Finished: Nonce Set: " [ArgStr Nonce];
          EvLog LvlInfo "Processing policy list" []]
      ++ duplicateWarnings a ∅ Message.
Proof.
  intros Hurl Hdo Hbody. unfold LoadPoliciesFromDashboard.
  rewrite Hurl. cbn [negb].
  change (ncalls (env (logf LvlInfo "Calling dashboard service for policy list" []
                         (logf LvlInfo "Mutex lock acquired... calling" [] s))))
    with (ncalls (env s)).
  change (policyRequest endpoint secret
            (logf LvlInfo "Mutex lock acquired... calling" [] s))
    with (policyRequest endpoint secret s).
  rewrite Hdo, Z.eqb_refl. cbn [negb]. rewrite Hbody.
  match goal with
  | |- context [fold_left (mergeDashboardPolicy a) Message (∅, ?s0)] =>
      pose proof (mergeDashboardPolicy_fold a Message ∅ s0) as Hfold;
      destruct (fold_left (mergeDashboardPolicy a) Message (∅, s0))
        as [policies s'] eqn:Efold
  end.
  cbn zeta in Hfold. destruct Hfold as (Hlook & Htr & _).
  exists policies, s'. split; [reflexivity|]. split.
  - intros id. rewrite Hlook. now rewrite lookup_empty.
  - cbn [snd] in Htr. rewrite Htr, dom_empty_L. cbn [logf emit tick env trace
      set_ServiceNonce]. rewrite <- !app_assoc. reflexivity.
Qed.

Lemma LoadPoliciesFromDashboard_first_wins_witness :
  let out := sampleOutside
               (DoResp StatusOK
                  (policiesBody [samplePolicy "p1" "first";
                                 samplePolicy "p1" "last"])) [] in
  exists policies s',
    LoadPoliciesFromDashboard out "http://dashboard:3000/system/policies"
      "node-secret" false (sampleState sampleConfig [])
    = Done (policies, None) s' /\
    OrgID <$> policies !! "p1" = Some "first".
Proof.
  intros out.
  destruct (LoadPoliciesFromDashboard_first_wins out
              "http://dashboard:3000/system/policies" "node-secret" false
              (sampleState sampleConfig [])
              (policiesBody [samplePolicy "p1" "first"; samplePolicy "p1" "last"])
              [samplePolicy "p1" "first"; samplePolicy "p1" "last"] "nonce-1"
              eq_refl eq_refl eq_refl)
    as (policies & s' & Heq & Hlook & _).
  exists policies, s'. split; [exact Heq|].
  rewrite Hlook. reflexivity.
Defined.

(** ** Definitions that fail validation *)

Lemma buildDashboardConnStr_Done (resource c : string) (s s' : State) :
  buildDashboardConnStr resource s = Done c s' ->
  s' = s /\ c = DBAppConfOptions_ConnectionString (config (gw s)) +:+ resource.
Proof.
  unfold buildDashboardConnStr.
  destruct (String.eqb _ EmptyString && _); [discriminate|].
  destruct (negb _ && _); [discriminate|].
  intros [= <- <-]. now split.
Qed.

Lemma fetchAPISpecs_gw (out : Outside) (s s1 : State)
  (r : list APISpec * option string) :
  fetchAPISpecs out s = Done r s1 -> gw s1 = gw s.
Proof.
  unfold fetchAPISpecs.
  destruct (UseDBAppConfigs (config (gw s))).
  - unfold bind.
    destruct (buildDashboardConnStr "/system/apis" s) as [c s0| |] eqn:E;
      try discriminate.
    apply buildDashboardConnStr_Done in E as [-> _].
    destruct (FromDashboardService out _ c) as [l [e|]]; intros [= <- <-];
      reflexivity.
  - destruct (SlaveOptions_UseRPC (config (gw s))).
    + cbn [logf emit env ncalls emergencyMode gw].
      destruct (FromRPC out _ _ _) as [l [e|]]; intros [= <- <-]; reflexivity.
    + intros [= <- <-]. reflexivity.
Qed.

Lemma validateSpec_fold (out : Outside) (oas : string) (l : list APISpec) :
  forall (acc : list APISpec) (s : State),
    let r := fold_left (validateSpec out oas) l (acc, s) in
    fst r = acc ++ List.filter (isValid out oas) l /\
    gw (snd r) = gw s /\
    trace (env (snd r)) = trace (env s) ++ skipWarnings out oas l /\
    emergencyMode (env (snd r)) = emergencyMode (env s) /\
    policiesBackup (env (snd r)) = policiesBackup (env s) /\
    ncalls (env (snd r)) = ncalls (env s).
Proof.
  induction l as [|v rest IH]; intros acc s; cbn zeta.
  - simpl. rewrite !app_nil_r. repeat split; reflexivity.
  - cbn [fold_left List.filter skipWarnings flat_map].
    assert (Hstep : validateSpec out oas (acc, s) v
                    = match Validate out oas v with
                      | Some err =>
                          (acc, logf LvlError skippingMessage
                                  [ArgStr err; ArgStr (Name v)] s)
                      | None => (acc ++ [v], s)
                      end) by reflexivity.
    rewrite Hstep. clear Hstep. unfold isValid at 1.
    destruct (Validate out oas v) as [err|] eqn:Ev.
    + specialize (IH acc
        (logf LvlError skippingMessage [ArgStr err; ArgStr (Name v)] s)).
      cbn zeta in IH. destruct IH as (Hf & Hg & Ht & He & Hb & Hn).
      repeat split; try assumption.
      rewrite Ht. simpl. now rewrite <- app_assoc.
    + specialize (IH (acc ++ [v]) s).
      cbn zeta in IH. destruct IH as (Hf & Hg & Ht & He & Hb & Hn).
      repeat split; try assumption.
      rewrite Hf, <- app_assoc. reflexivity.
Qed.

Lemma installAPISpecs_spec (out : Outside) (l : list APISpec) (s : State) :
  let cfg := config (gw s) in
  let loaded := applyAuthOverride cfg l in
  let valid := List.filter (isValid out (OAS cfg)) loaded in
  exists s',
    installAPISpecs out l s = Done (Z.of_nat (length valid), None) s' /\
    apiSpecs (gw s') = valid /\
    apisByID (gw s') = apisByID (gw s) /\
    policiesByID (gw s') = policiesByID (gw s) /\
    performedSuccessfulReload (gw s') = performedSuccessfulReload (gw s) /\
    config (gw s') = config (gw s) /\
    emergencyMode (env s') = emergencyMode (env s) /\
    trace (env s')
    = trace (env s)
      ++ [EvLog LvlInfo "Detected %v APIs" [ArgInt (Z.of_nat (length l))]]
      ++ skipWarnings out (OAS cfg) loaded ++ [EvTLSCacheFlush].
Proof.
  intros cfg loaded valid. unfold installAPISpecs.
  change (config (gw (logf LvlInfo "Detected %v APIs"
                        [ArgInt (Z.of_nat (length l))] s))) with cfg.
  fold loaded.
  match goal with
  | |- context [fold_left (validateSpec out (OAS cfg)) loaded ([], ?s0)] =>
      pose proof (validateSpec_fold out (OAS cfg) loaded [] s0) as Hfold;
      destruct (fold_left (validateSpec out (OAS cfg)) loaded ([], s0))
        as [filter s1] eqn:Efold
  end.
  cbn zeta in Hfold. cbn [fst snd app] in Hfold.
  destruct Hfold as (Hf & Hg & Ht & He & _). fold valid in Hf. subst filter.
  eexists. split; [reflexivity|].
  cbn [set_apiSpecs emit gw env apiSpecs apisByID policiesByID
         performedSuccessfulReload config emergencyMode trace].
  rewrite Hg, Ht, He. cbn [logf emit gw env trace emergencyMode].
  rewrite <- !app_assoc. repeat split; reflexivity.
Qed.

Lemma skipWarnings_In (out : Outside) (oas : string) (l : list APISpec)
  (v : APISpec) (err : string) :
  In v l -> Validate out oas v = Some err ->
  In (EvLog LvlError skippingMessage [ArgStr err; ArgStr (Name v)])
     (skipWarnings out oas l).
Proof.
  intros Hin Hv. unfold skipWarnings. apply in_flat_map.
  exists v. split; [exact Hin|]. rewrite Hv. now left.
Qed.

(** C5.  Once the configured source has delivered its definitions, the sync
    returns without error; the loaded set is the delivered list (with the
    configured provider overrides) without the definitions that fail
    validation, in order; the count returned is its length; and for every
    definition that fails validation an error line naming it is logged. *)
Theorem syncAPISpecs_skips_invalid (out : Outside) (s s1 : State)
  (fetched : list APISpec) :
  fetchAPISpecs out s = Done (fetched, None) s1 ->
  let cfg := config (gw s) in
  let loaded := applyAuthOverride cfg fetched in
  let valid := List.filter (isValid out (OAS cfg)) loaded in
  exists s',
    syncAPISpecs out s = Done (Z.of_nat (length valid), None) s' /\
    apiSpecs (gw s') = valid /\
    (forall v, In v (apiSpecs (gw s')) <->
               In v loaded /\ Validate out (OAS cfg) v = None) /\
    trace (env s')
    = trace (env s1)
      ++ [EvLog LvlInfo "Detected %v APIs" [ArgInt (Z.of_nat (length fetched))]]
      ++ skipWarnings out (OAS cfg) loaded ++ [EvTLSCacheFlush] /\
    (forall v err,
        In v loaded -> Validate out (OAS cfg) v = Some err ->
        ~ In v (apiSpecs (gw s')) /\
        In (EvLog LvlError skippingMessage [ArgStr err; ArgStr (Name v)])
           (trace (env s'))).
Proof.
  intros Hfetch cfg loaded valid.
  pose proof (fetchAPISpecs_gw out s s1 _ Hfetch) as Hgw.
  destruct (installAPISpecs_spec out fetched s1)
    as (s' & Hrun & Hspecs & _ & _ & _ & _ & _ & Htr).
  rewrite Hgw in Hrun, Hspecs, Htr.
  fold cfg in Hrun, Hspecs, Htr. fold loaded in Hrun, Hspecs, Htr.
  fold valid in Hrun, Hspecs.
  assert (Hiff : forall v, In v (apiSpecs (gw s')) <->
                           In v loaded /\ Validate out (OAS cfg) v = None).
  { intros v. rewrite Hspecs. unfold valid. rewrite filter_In.
    unfold isValid. destruct (Validate out (OAS cfg) v); intuition congruence. }
  exists s'. split; [|split; [exact Hspecs | split; [exact Hiff | split]]].
  - unfold syncAPISpecs, bind. rewrite Hfetch. exact Hrun.
  - exact Htr.
  - intros v err Hin Hv. split.
    + intros Hloaded. apply Hiff in Hloaded as [_ Hnone]. congruence.
    + rewrite Htr. apply in_or_app. right. apply in_or_app. right.
      apply in_or_app. left. now apply skipWarnings_In.
Qed.

Lemma syncAPISpecs_skips_invalid_witness :
  let out := sampleOutside (DoErr "down") [sampleAPI "good"; sampleAPI "bad"] in
  let s := sampleState sampleConfig [] in
  fetchAPISpecs out s = Done ([sampleAPI "good"; sampleAPI "bad"], None) (tick s) /\
  exists s', syncAPISpecs out s = Done (1%Z, None) s' /\
             apiSpecs (gw s') = [sampleAPI "good"].
Proof.
  intros out s. split; [reflexivity|].
  destruct (syncAPISpecs_skips_invalid out s (tick s)
              [sampleAPI "good"; sampleAPI "bad"] eq_refl)
    as (s' & Hrun & Hspecs & _).
  exists s'. split; [exact Hrun | exact Hspecs].
Defined.

(** ** Retries, backoff and emergency mode *)

Lemma actions_app (t u : list Event) : actions (t ++ u) = actions t ++ actions u.
Proof. unfold actions. apply List.filter_app. Qed.

(** The debug lines of [syncPolicies], one per policy id, are log lines
    only. *)
Lemma log_ids_env (ids : list string) :
  forall s : State,
    let s' := fold_left (fun s id => logf LvlDebug " - %s" [ArgStr id] s) ids s in
    ncalls (env s') = ncalls (env s) /\
    actions (trace (env s')) = actions (trace (env s)) /\
    policiesBackup (env s') = policiesBackup (env s).
Proof.
  induction ids as [|id rest IH]; intros s; [now repeat split|].
  cbn [fold_left]. cbn zeta in IH.
  destruct (IH (logf LvlDebug " - %s" [ArgStr id] s)) as (-> & -> & ->).
  cbn [logf emit env ncalls trace policiesBackup].
  rewrite actions_app. cbn. now rewrite app_nil_r.
Qed.

Lemma mergeRPCPolicy_lookup (a : bool) (l : list Policy) :
  forall (m : gmap string Policy) (id : string),
    fold_left (mergeRPCPolicy a) l m !! id
    = match lastRPCWithID a id l with
      | Some p => Some p
      | None => m !! id
      end.
Proof.
  induction l as [|p rest IH]; intros m id; [reflexivity|].
  cbn [fold_left lastRPCWithID]. rewrite IH.
  destruct (lastRPCWithID a id rest) as [q|]; [reflexivity|].
  unfold mergeRPCPolicy.
  destruct (String.eqb (policyID a p) id) eqn:E.
  - apply String.eqb_eq in E. subst id. apply lookup_insert_eq.
  - apply String.eqb_neq in E. now apply lookup_insert_ne.
Qed.

Lemma wrap64_small (z : Z) :
  (- 2 ^ 63 <= z < 2 ^ 63)%Z -> wrap64 z = z.
Proof.
  intros H. unfold wrap64. rewrite Z.mod_small by lia. lia.
Qed.

Lemma FailedAttempts_pos (resource : string) (conf : Config)
  (syncFunc : M (Z * option string)) (i : Z) (k : nat) (s s' : State)
  (e : string) :
  FailedAttempts resource conf syncFunc i k s s' e -> (1 <= k)%nat.
Proof. destruct 1; lia. Qed.

Section SyncLoop.

Variable resource : string.
Variable conf : Config.
Variable syncFunc : M (Z * option string).

Let retries := ResourceSync_RetryAttempts conf.

Hypothesis retries_range : (0 <= retries < maxInt)%Z.

Lemma last_attempt : int_add retries 1 = (retries + 1)%Z.
Proof.
  unfold int_add. apply wrap64_small. unfold maxInt in retries_range. lia.
Qed.

Lemma syncLoop_success (fuel : nat) (i : Z) (err : option string)
  (s s' : State) (c : Z) :
  (i <= retries + 1)%Z ->
  syncFunc s = Done (c, None) s' ->
  syncLoop resource conf syncFunc (S fuel) i err s = Done (c, None) s'.
Proof.
  intros Hi Hs. cbn [syncLoop]. fold retries. rewrite last_attempt.
  destruct (Z.leb_spec i (retries + 1)); [|lia].
  unfold bind. rewrite Hs. reflexivity.
Qed.

Lemma syncLoop_retry (fuel : nat) (i : Z) (err : option string)
  (s s1 : State) (c : Z) (e : string) :
  (1 <= i < retries + 1)%Z ->
  syncFunc s = Done (c, Some e) s1 ->
  syncLoop resource conf syncFunc (S fuel) i err s
  = syncLoop resource conf syncFunc fuel (i + 1) (Some e)
      (backoff conf (logAttempt resource e i s1)).
Proof.
  intros Hi Hs. cbn [syncLoop]. fold retries. rewrite last_attempt.
  destruct (Z.leb_spec i (retries + 1)); [|lia].
  unfold bind at 1. rewrite Hs. unfold bind at 1, act at 1.
  destruct (Z.eqb_spec i (retries + 1)); [lia|].
  unfold bind at 1, act at 1.
  replace (int_add i 1) with (i + 1)%Z; [reflexivity|].
  unfold int_add. symmetry. apply wrap64_small.
  unfold maxInt in retries_range. lia.
Qed.

Lemma syncLoop_last (fuel : nat) (err : option string)
  (s s1 : State) (c : Z) (e : string) :
  syncFunc s = Done (c, Some e) s1 ->
  syncLoop resource conf syncFunc (S fuel) (retries + 1) err s
  = afterLastAttempt resource conf syncFunc e
      (logAttempt resource e (retries + 1) s1).
Proof.
  intros Hs. cbn [syncLoop]. fold retries. rewrite last_attempt.
  rewrite Z.leb_refl. unfold bind at 1. rewrite Hs.
  unfold bind at 1, act at 1. rewrite Z.eqb_refl. reflexivity.
Qed.

(** After [k] failed attempts the loop is where the code says: at the branch
    for the last attempt, or about to make attempt [i + k]. *)
Lemma syncLoop_failed (i : Z) (k : nat) (s s1 : State) (e : string) :
  FailedAttempts resource conf syncFunc i k s s1 e ->
  forall (fuel : nat) (err : option string),
    (1 <= i)%Z -> (i + Z.of_nat k - 1 <= retries + 1)%Z -> (k <= fuel)%nat ->
    syncLoop resource conf syncFunc fuel i err s
    = if (i + Z.of_nat k - 1 =? retries + 1)%Z then
        afterLastAttempt resource conf syncFunc e
          (logAttempt resource e (retries + 1) s1)
      else
        syncLoop resource conf syncFunc (fuel - k) (i + Z.of_nat k) (Some e)
          (backoff conf (logAttempt resource e (i + Z.of_nat k - 1) s1)).
Proof.
  induction 1 as [i s c e s' Hs | i k s c e1 s1 s' e Hs Hrest IH];
    intros fuel err Hi Hk Hfuel.
  - destruct fuel as [|fuel]; [lia|].
    replace (i + Z.of_nat 1 - 1)%Z with i in * by lia.
    destruct (Z.eqb_spec i (retries + 1)) as [->|Hne].
    + now apply syncLoop_last with (c := c).
    + rewrite (syncLoop_retry fuel i err s s' c e) by (try lia; assumption).
      replace (S fuel - 1)%nat with fuel by lia. reflexivity.
  - destruct fuel as [|fuel]; [lia|].
    pose proof (FailedAttempts_pos _ _ _ _ _ _ _ _ Hrest) as Hpos.
    rewrite (syncLoop_retry fuel i err s s1 c e1) by (try lia; assumption).
    rewrite (IH fuel (Some e1)) by lia.
    replace (i + 1 + Z.of_nat k - 1)%Z with (i + Z.of_nat (S k) - 1)%Z by lia.
    replace (i + 1 + Z.of_nat k)%Z with (i + Z.of_nat (S k))%Z by lia.
    reflexivity.
Qed.

(** With a sync function that always returns, the loop returns. *)
Lemma syncLoop_returns :
  (forall s, exists r s', syncFunc s = Done r s') ->
  forall (fuel : nat) (i : Z) (err : option string) (s : State),
    (1 <= i)%Z -> (retries + 1 - i < Z.of_nat fuel)%Z ->
    exists r s', syncLoop resource conf syncFunc fuel i err s = Done r s'.
Proof.
  intros Htotal. induction fuel as [|fuel IH]; intros i err s Hi Hfuel.
  - cbn [syncLoop]. fold retries. rewrite last_attempt.
    destruct (Z.leb_spec i (retries + 1)); [lia|]. now eexists _, _.
  - destruct (Z.leb_spec i (retries + 1)) as [Hle|Hgt].
    + destruct (Htotal s) as ([c [e|]] & s1 & Hs).
      * destruct (Z.eqb_spec i (retries + 1)) as [->|Hne].
        -- rewrite (syncLoop_last fuel err s s1 c e Hs).
           unfold afterLastAttempt.
           destruct (SlaveOptions_UseRPC conf); [|now eexists _, _].
           unfold bind at 1, act at 1. unfold bind at 1, act at 1.
           unfold bind at 1.
           match goal with
           | |- context [syncFunc ?s0] =>
               destruct (Htotal s0) as ([c2 [e2|]] & s2 & Hs2); rewrite Hs2
           end; now eexists _, _.
        -- rewrite (syncLoop_retry fuel i err s s1 c e) by (try lia; assumption).
           apply IH; lia.
      * rewrite (syncLoop_success fuel i err s s1 c Hle Hs). now eexists _, _.
    + cbn [syncLoop]. fold retries. rewrite last_attempt.
      destruct (Z.leb_spec i (retries + 1)); [lia|]. now eexists _, _.
Qed.

End SyncLoop.




(** ** What the loaders and the syncs leave untouched *)

Lemma loadPolicyFile_fold_gw (out : Outside) (paths : list string) :
  forall (m : gmap string Policy) (s : State),
    gw (snd (fold_left (loadPolicyFile out) paths (m, s))) = gw s.
Proof.
  induction paths as [|path rest IH]; intros m s; [reflexivity|].
  cbn [fold_left]. unfold loadPolicyFile at 2.
  destruct (openFile out _ path) as [content|err].
  - destruct (decodePolicy out content) as [pol [derr|]]; now rewrite IH.
  - now rewrite IH.
Qed.

Lemma log_ids_gw (ids : list string) :
  forall s : State,
    gw (fold_left (fun s id => logf LvlDebug " - %s" [ArgStr id] s) ids s) = gw s.
Proof.
  induction ids as [|id rest IH]; intros s; [reflexivity|].
  cbn [fold_left]. now rewrite IH.
Qed.

Lemma LoadPoliciesFromDashboard_registries (out : Outside)
  (endpoint secret : string) (a : bool) (s s' : State)
  (r : gmap string Policy * option string) :
  LoadPoliciesFromDashboard out endpoint secret a s = Done r s' ->
  registries (gw s') = registries (gw s).
Proof.
  unfold LoadPoliciesFromDashboard.
  destruct (negb (urlParses out endpoint)); [now intros [= <- <-]|].
  destruct (clientDo out _ _) as [e|status b]; [now intros [= <- <-]|].
  destruct (negb (status =? StatusOK)%Z); [now intros [= <- <-]|].
  destruct (asPolicyList b) as [[Message Nonce]|]; [|now intros [= <- <-]].
  match goal with
  | |- context [fold_left (mergeDashboardPolicy a) Message (∅, ?s0)] =>
      destruct (mergeDashboardPolicy_fold a Message ∅ s0) as (_ & _ & Hgw & _);
      destruct (fold_left (mergeDashboardPolicy a) Message (∅, s0))
        as [policies s1]
  end.
  intros [= <- <-]. cbn [snd] in Hgw. rewrite Hgw. reflexivity.
Qed.

Lemma LoadPoliciesFromRPC_registries (out : Outside) (orgId : string)
  (a : bool) (s s' : State) (r : gmap string Policy * option string) :
  LoadPoliciesFromRPC out orgId a s = Done r s' ->
  registries (gw s') = registries (gw s).
Proof.
  unfold LoadPoliciesFromRPC, LoadPoliciesFromRPCBackup, saveRPCPoliciesBackup.
  destruct (emergencyMode (env s)).
  - destruct (policiesBackup (env s)); now intros [= <- <-].
  - destruct (negb (rpcConnect out _)); [now intros [= <- <-]|].
    destruct (String.eqb _ EmptyString); [now intros [= <- <-]|].
    destruct (parsePoliciesFromRPC out _ a) as [pols [err|]];
      [now intros [= <- <-]|].
    destruct (backupWritable out _); now intros [= <- <-].
Qed.

Lemma LoadPoliciesFromFile_registries (out : Outside) (filePath : string)
  (s s' : State) (r : gmap string Policy * option string) :
  LoadPoliciesFromFile out filePath s = Done r s' ->
  registries (gw s') = registries (gw s).
Proof.
  unfold LoadPoliciesFromFile.
  destruct (openFile out _ filePath) as [content|err]; [|now intros [= <- <-]].
  destruct (decodePolicyMap out content); now intros [= <- <-].
Qed.

Lemma LoadPoliciesFromDir_registries (out : Outside) (dir : string)
  (s s' : State) (r : gmap string Policy * option string) :
  LoadPoliciesFromDir out dir s = Done r s' ->
  registries (gw s') = registries (gw s).
Proof.
  unfold LoadPoliciesFromDir.
  destruct (globJSON out _ dir) as [paths|err]; [|now intros [= <- <-]].
  pose proof (loadPolicyFile_fold_gw out paths ∅ (tick s)) as Hgw.
  destruct (fold_left (loadPolicyFile out) paths (∅, tick s)) as [policies s1].
  intros [= <- <-]. cbn [snd] in Hgw. now rewrite Hgw.
Qed.

(** [installPolicies] replaces the policy registry exactly when the loader
    reported no error, and nothing else. *)
Lemma installPolicies_spec (pols : gmap string Policy) (err : option string)
  (s : State) :
  exists s',
    installPolicies (pols, err) s = Done (Z.of_nat (size pols), err) s' /\
    registries (gw s')
    = match err with
      | Some _ => registries (gw s)
      | None => registries (gw (set_policiesByID pols s))
      end.
Proof.
  unfold installPolicies.
  destruct err as [e|]; eexists; (split; [reflexivity|]);
    cbn [set_policiesByID gw registries config apiSpecs apisByID policiesByID
           performedSuccessfulReload];
    unfold registries; now rewrite log_ids_gw.
Qed.

(** A policy sync leaves the configuration, the API registries and the reload
    flag as they were, and the policy registry too when it returns an error. *)
Lemma syncPolicies_frame (out : Outside) (s s' : State) (c : Z)
  (err : option string) :
  syncPolicies out s = Done (c, err) s' ->
  config (gw s') = config (gw s) /\
  apiSpecs (gw s') = apiSpecs (gw s) /\
  apisByID (gw s') = apisByID (gw s) /\
  performedSuccessfulReload (gw s') = performedSuccessfulReload (gw s) /\
  (err <> None -> policiesByID (gw s') = policiesByID (gw s)).
Proof.
  assert (Hinstall : forall (load : M (gmap string Policy * option string)) s0,
             (forall r s1, load s0 = Done r s1 ->
                           registries (gw s1) = registries (gw s0)) ->
             (r <- load ;; installPolicies r) s0 = Done (c, err) s' ->
             registries (gw s0) = registries (gw s) ->
             config (gw s') = config (gw s) /\
             apiSpecs (gw s') = apiSpecs (gw s) /\
             apisByID (gw s') = apisByID (gw s) /\
             performedSuccessfulReload (gw s') = performedSuccessfulReload (gw s) /\
             (err <> None -> policiesByID (gw s') = policiesByID (gw s))).
  { intros load s0 Hload Hrun H0. unfold bind in Hrun.
    destruct (load s0) as [[pols lerr] s1| |]; try discriminate.
    pose proof (Hload _ _ eq_refl) as El.
    destruct (installPolicies_spec pols lerr s1) as (s2 & Hi & Hreg).
    rewrite Hi in Hrun. injection Hrun as _ <- <-.
    unfold registries in Hreg, El, H0.
    destruct lerr as [e|];
      cbn [set_policiesByID gw config apiSpecs apisByID policiesByID
             performedSuccessfulReload] in Hreg;
      injection Hreg as H1 H2 H3 H4 H5; injection El as E1 E2 E3 E4 E5;
      injection H0 as F1 F2 F3 F4 F5;
      repeat split; congruence. }
  unfold syncPolicies.
  cbn [logf emit gw config].
  destruct (String.eqb (Policies_PolicySource (config (gw s))) "service").
  - destruct (String.eqb _ EmptyString); [discriminate|].
    intros Hrun. eapply Hinstall; [|exact Hrun|reflexivity].
    intros r s1. apply LoadPoliciesFromDashboard_registries.
  - destruct (String.eqb (Policies_PolicySource (config (gw s))) "rpc").
    + intros Hrun. eapply Hinstall; [|exact Hrun|reflexivity].
      intros r s1. apply LoadPoliciesFromRPC_registries.
    + destruct (negb (String.eqb _ EmptyString)).
      * intros Hrun. eapply Hinstall; [|exact Hrun|reflexivity].
        intros r s1. apply LoadPoliciesFromDir_registries.
      * destruct (String.eqb _ EmptyString).
        -- intros [= <- <- <-]. repeat split.
        -- intros Hrun. eapply Hinstall; [|exact Hrun|reflexivity].
           intros r s1. apply LoadPoliciesFromFile_registries.
Qed.

(** An API sync leaves the configuration, the index by id, the policies and
    the reload flag as they were; when it succeeds the count it returns is
    the size of the loaded set, and when it fails the loaded set is the old
    one. *)
Lemma syncAPISpecs_frame (out : Outside) (s s' : State) (c : Z)
  (err : option string) :
  syncAPISpecs out s = Done (c, err) s' ->
  config (gw s') = config (gw s) /\
  apisByID (gw s') = apisByID (gw s) /\
  policiesByID (gw s') = policiesByID (gw s) /\
  performedSuccessfulReload (gw s') = performedSuccessfulReload (gw s) /\
  (err = None -> c = Z.of_nat (length (apiSpecs (gw s')))) /\
  (err <> None -> apiSpecs (gw s') = apiSpecs (gw s)).
Proof.
  unfold syncAPISpecs, bind.
  destruct (fetchAPISpecs out s) as [[l [e|]] s1| |] eqn:Ef; try discriminate.
  - apply fetchAPISpecs_gw in Ef. intros [= <- <- <-]. rewrite Ef.
    repeat split. discriminate.
  - apply fetchAPISpecs_gw in Ef.
    destruct (installAPISpecs_spec out l s1)
      as (s2 & Hrun & Hspecs & Hids & Hpol & Hperf & Hcfg & _).
    rewrite Hrun. intros [= <- <- <-]. rewrite Hcfg, Hids, Hpol, Hperf, Hspecs, Ef.
    do 4 (split; [reflexivity|]). split.
    + intros _. reflexivity.
    + intros H. now contradiction H.
Qed.

Section SyncLoopInvariant.

Variable resource : string.
Variable conf : Config.
Variable syncFunc : M (Z * option string).

(** [Before] holds of the states in which the sync function is called,
    [Ok c] of the state a successful sync with count [c] leaves, [Failed] of
    the state a failed sync leaves; all three look at the gateway only. *)
Variable Before : State -> Prop.
Variable Ok : Z -> State -> Prop.
Variable Failed : State -> Prop.

Hypothesis Before_gw : forall s s', gw s' = gw s -> Before s -> Before s'.
Hypothesis Ok_gw : forall c s s', gw s' = gw s -> Ok c s -> Ok c s'.
Hypothesis Failed_gw : forall s s', gw s' = gw s -> Failed s -> Failed s'.
Hypothesis Before_Failed : forall s, Before s -> Failed s.
Hypothesis sync_ok :
  forall s c s', Before s -> syncFunc s = Done (c, None) s' -> Ok c s'.
Hypothesis sync_failed :
  forall s c e s', Before s -> syncFunc s = Done (c, Some e) s' ->
                   Before s' /\ Failed s'.

Lemma syncLoop_invariant (fuel : nat) :
  forall (i : Z) (err : option string) (s s' : State) (c : Z)
         (r : option string),
    Before s ->
    syncLoop resource conf syncFunc fuel i err s = Done (c, r) s' ->
    match r with
    | None => Ok c s'
    | Some _ => Failed s'
    end.
Proof.
  induction fuel as [|fuel IH]; intros i err s s' c r HB; cbn [syncLoop];
    destruct (i <=? int_add (ResourceSync_RetryAttempts conf) 1)%Z;
    try discriminate;
    try (intros [= <- <- <-]; now apply Before_Failed).
  unfold bind at 1.
  destruct (syncFunc s) as [[c1 [e1|]] s1| |] eqn:Es; try discriminate.
  - destruct (sync_failed s c1 e1 s1 HB Es) as [HB1 HF1].
    unfold bind at 1, act at 1.
    destruct (i =? int_add (ResourceSync_RetryAttempts conf) 1)%Z.
    + unfold afterLastAttempt. destruct (SlaveOptions_UseRPC conf).
      * unfold bind at 1, act at 1. unfold bind at 1, act at 1.
        unfold bind at 1.
        match goal with
        | |- context [syncFunc ?s0] =>
            assert (HB3 : Before s0) by (apply (Before_gw s1); [reflexivity | exact HB1]);
            destruct (syncFunc s0) as [[c2 [e2|]] s4| |] eqn:Es2;
            try discriminate
        end.
        -- intros [= <- <- <-]. now apply (sync_failed _ _ _ _ HB3 Es2).
        -- unfold bind, act. intros [= <- <- <-].
           apply (Ok_gw c2 s4); [reflexivity|]. now apply (sync_ok _ _ _ HB3 Es2).
      * intros [= <- <- <-]. now apply (Failed_gw s1).
    + unfold bind at 1, act at 1. apply IH.
      now apply (Before_gw s1).
  - intros [= <- <- <-]. now apply (sync_ok s).
Qed.

End SyncLoopInvariant.

Lemma resetJSVM_gw (s : State) : gw (resetJSVM s) = gw s.
Proof. unfold resetJSVM. now destruct (EnableJSVM (config (gw s))). Qed.

Lemma syncResourcesWithReload_loop (resource : string) (conf : Config)
  (syncFunc : M (Z * option string)) :
  resource = "apis" \/ resource = "policies" ->
  syncResourcesWithReload resource conf syncFunc
  = syncLoop resource conf syncFunc
      (Z.to_nat (int_add (ResourceSync_RetryAttempts conf) 1)) 1 None.
Proof. intros [-> | ->]; reflexivity. Qed.

(** The policy sync of a reload, with its retries: it never touches the API
    registries, and when it ends in an error the policy registry is the one
    it started with. *)
Lemma policies_sync_frame (out : Outside) (conf : Config) (s s' : State)
  (c : Z) (err : option string) :
  syncResourcesWithReload "policies" conf (syncPolicies out) s = Done (c, err) s' ->
  config (gw s') = config (gw s) /\
  apiSpecs (gw s') = apiSpecs (gw s) /\
  apisByID (gw s') = apisByID (gw s) /\
  performedSuccessfulReload (gw s') = performedSuccessfulReload (gw s) /\
  (err <> None -> policiesByID (gw s') = policiesByID (gw s)).
Proof.
  rewrite syncResourcesWithReload_loop by (right; reflexivity). intros Hrun.
  pose (Frame := fun s1 : State =>
          config (gw s1) = config (gw s) /\
          apiSpecs (gw s1) = apiSpecs (gw s) /\
          apisByID (gw s1) = apisByID (gw s) /\
          performedSuccessfulReload (gw s1) = performedSuccessfulReload (gw s)).
  pose (Before := fun s1 : State =>
          Frame s1 /\ policiesByID (gw s1) = policiesByID (gw s)).
  pose proof (syncLoop_invariant "policies" conf (syncPolicies out)
                Before (fun _ => Frame) Before) as Hinv.
  assert (Hres : match err with
                 | None => Frame s'
                 | Some _ => Before s'
                 end).
  { eapply Hinv; [| | | | | | |exact Hrun]; unfold Before, Frame.
    - intros s1 s2 E. now rewrite E.
    - intros _ s1 s2 E. now rewrite E.
    - intros s1 s2 E. now rewrite E.
    - auto.
    - intros s1 c1 s2 [(H1 & H2 & H3 & H4) H5] Hs.
      apply syncPolicies_frame in Hs as (F1 & F2 & F3 & F4 & _).
      repeat split; congruence.
    - intros s1 c1 e1 s2 [(H1 & H2 & H3 & H4) H5] Hs.
      apply syncPolicies_frame in Hs as (F1 & F2 & F3 & F4 & F5).
      assert (policiesByID (gw s2) = policiesByID (gw s1)) by (apply F5; discriminate).
      repeat split; congruence.
    - repeat split. }
  unfold Before, Frame in Hres. destruct err as [e|].
  - destruct Hres as [(H1 & H2 & H3 & H4) H5]. repeat split; auto.
  - destruct Hres as (H1 & H2 & H3 & H4). repeat split; auto.
    intros H. now contradiction H.
Qed.

(** The API sync of a reload, with its retries: it never touches the index
    by id nor the policies; the count of a successful sync is the size of
    the loaded set. *)
Lemma apis_sync_frame (out : Outside) (conf : Config) (s s' : State)
  (c : Z) (err : option string) :
  syncResourcesWithReload "apis" conf (syncAPISpecs out) s = Done (c, err) s' ->
  config (gw s') = config (gw s) /\
  apisByID (gw s') = apisByID (gw s) /\
  policiesByID (gw s') = policiesByID (gw s) /\
  performedSuccessfulReload (gw s') = performedSuccessfulReload (gw s) /\
  (err = None -> c = Z.of_nat (length (apiSpecs (gw s')))) /\
  (err <> None -> apiSpecs (gw s') = apiSpecs (gw s)).
Proof.
  rewrite syncResourcesWithReload_loop by (left; reflexivity). intros Hrun.
  pose (Frame := fun s1 : State =>
          config (gw s1) = config (gw s) /\
          apisByID (gw s1) = apisByID (gw s) /\
          policiesByID (gw s1) = policiesByID (gw s) /\
          performedSuccessfulReload (gw s1) = performedSuccessfulReload (gw s)).
  pose (Before := fun s1 : State =>
          Frame s1 /\ apiSpecs (gw s1) = apiSpecs (gw s)).
  pose proof (syncLoop_invariant "apis" conf (syncAPISpecs out) Before
                (fun c1 s1 => Frame s1 /\ c1 = Z.of_nat (length (apiSpecs (gw s1))))
                Before) as Hinv.
  assert (Hres : match err with
                 | None => Frame s' /\ c = Z.of_nat (length (apiSpecs (gw s')))
                 | Some _ => Before s'
                 end).
  { eapply Hinv; [| | | | | | |exact Hrun]; unfold Before, Frame.
    - intros s1 s2 E. now rewrite E.
    - intros c1 s1 s2 E. now rewrite E.
    - intros s1 s2 E. now rewrite E.
    - auto.
    - intros s1 c1 s2 [(H1 & H2 & H3 & H4) H5] Hs.
      apply syncAPISpecs_frame in Hs as (F1 & F2 & F3 & F4 & F5 & _).
      repeat split; try congruence. now apply F5.
    - intros s1 c1 e1 s2 [(H1 & H2 & H3 & H4) H5] Hs.
      apply syncAPISpecs_frame in Hs as (F1 & F2 & F3 & F4 & _ & F6).
      assert (apiSpecs (gw s2) = apiSpecs (gw s1)) by (apply F6; discriminate).
      repeat split; congruence.
    - repeat split. }
  unfold Before, Frame in Hres. destruct err as [e|].
  - destruct Hres as [(H1 & H2 & H3 & H4) H5]. repeat split; auto.
    discriminate.
  - destruct Hres as [(H1 & H2 & H3 & H4) H5]. repeat split; auto.
    intros H. now contradiction H.
Qed.

(** ** The reload *)

(** C6.  When the policy sync of a reload ends in an error, [DoReload] logs
    it and returns at once, so the APIs are not synced and the global apps
    are not rebuilt: the state it leaves is the one the failed sync left, plus
    the log line, and the policy registry, the loaded API list, the index by
    id and the reload flag are those from before the reload.  Likewise every
    single call of [syncPolicies] that returns an error leaves the policy
    registry as it was. *)
Theorem DoReload_policy_sync_error (out : Outside) (s s1 : State) (c : Z)
  (e : string) :
  syncResourcesWithReload "policies" (config (gw (resetJSVM s)))
    (syncPolicies out) (resetJSVM s) = Done (c, Some e) s1 ->
  DoReload out s = Done tt (logf LvlError policySyncErrorMessage [] s1) /\
  registries (gw (logf LvlError policySyncErrorMessage [] s1))
  = registries (gw s) /\
  (forall s0 c0 e0 s0',
      syncPolicies out s0 = Done (c0, Some e0) s0' ->
      policiesByID (gw s0') = policiesByID (gw s0)).
Proof.
  intros Hsync. split; [|split].
  - unfold DoReload. cbn zeta. unfold bind at 1. rewrite Hsync. reflexivity.
  - apply policies_sync_frame in Hsync as (H1 & H2 & H3 & H4 & H5).
    rewrite resetJSVM_gw in H1, H2, H3, H4, H5.
    unfold registries. cbn [logf emit gw].
    rewrite H1, H2, H3, H4, H5 by discriminate. reflexivity.
  - intros s0 c0 e0 s0' Hs.
    apply syncPolicies_frame in Hs as (_ & _ & _ & _ & H). apply H. discriminate.
Qed.

Lemma DoReload_policy_sync_error_witness :
  let out := sampleOutside (DoErr "connection refused") [sampleAPI "a"] in
  let s := sampleState sampleConfig [sampleAPI "a"] in
  let sync := syncResourcesWithReload "policies" (config (gw (resetJSVM s)))
                (syncPolicies out) (resetJSVM s) in
  sync = Done (0%Z, Some (syncFailed "policies" (Some "connection refused")))
           (stateOf sync) /\
  DoReload out s
  = Done tt (logf LvlError policySyncErrorMessage [] (stateOf sync)) /\
  registries (gw (logf LvlError policySyncErrorMessage [] (stateOf sync)))
  = registries (gw s).
Proof.
  intros out s sync.
  assert (E : sync = Done (0%Z, Some (syncFailed "policies"
                                        (Some "connection refused")))
                       (stateOf sync))
    by (vm_compute; reflexivity).
  split; [exact E|].
  destruct (DoReload_policy_sync_error out s (stateOf sync) _ _ E)
    as (H1 & H2 & _).
  split; [exact H1 | exact H2].
Defined.

(** C3.  When the policy sync succeeds, the API sync succeeds with zero
    definitions and the index by id is empty, [DoReload] is abandoned after
    the sync: it logs a warning, sets the reload flag and returns; the global
    apps are not rebuilt and nothing is installed, the index by id stays
    empty. *)
Theorem DoReload_abandoned_when_empty (out : Outside) (s s1 s2 : State)
  (c : Z) :
  syncResourcesWithReload "policies" (config (gw (resetJSVM s)))
    (syncPolicies out) (resetJSVM s) = Done (c, None) s1 ->
  syncResourcesWithReload "apis" (config (gw s1)) (syncAPISpecs out) s1
  = Done (0%Z, None) s2 ->
  apisByID (gw s) = ∅ ->
  let s' := set_performedSuccessfulReload true
              (logf LvlWarning notReloadingMessage [] s2) in
  DoReload out s = Done tt s' /\
  apisByID (gw s') = ∅ /\
  trace (env s') = trace (env s2) ++ [EvLog LvlWarning notReloadingMessage []].
Proof.
  intros Hpol Hapi Hempty s'.
  pose proof (policies_sync_frame _ _ _ _ _ _ Hpol) as (_ & _ & P3 & _).
  pose proof (apis_sync_frame _ _ _ _ _ _ Hapi) as (_ & A2 & _).
  rewrite resetJSVM_gw in P3.
  assert (Hids : apisByID (gw s2) = ∅) by congruence.
  split; [|split].
  - unfold DoReload. cbn zeta. unfold bind at 1. rewrite Hpol.
    unfold bind at 1. rewrite Hapi. unfold apisByIDLen. rewrite Hids.
    reflexivity.
  - exact Hids.
  - reflexivity.
Qed.

Lemma DoReload_abandoned_when_empty_witness :
  let out := sampleOutside (DoResp StatusOK (policiesBody [])) [] in
  let s := sampleState sampleConfig [] in
  let s1 := stateOf (syncResourcesWithReload "policies"
                       (config (gw (resetJSVM s))) (syncPolicies out)
                       (resetJSVM s)) in
  let s2 := stateOf (syncResourcesWithReload "apis" (config (gw s1))
                       (syncAPISpecs out) s1) in
  syncResourcesWithReload "policies" (config (gw (resetJSVM s)))
    (syncPolicies out) (resetJSVM s) = Done (0%Z, None) s1 /\
  syncResourcesWithReload "apis" (config (gw s1)) (syncAPISpecs out) s1
  = Done (0%Z, None) s2 /\
  apisByID (gw s) = ∅ /\
  DoReload out s
  = Done tt (set_performedSuccessfulReload true
               (logf LvlWarning notReloadingMessage [] s2)).
Proof.
  intros out s s1 s2.
  assert (E1 : syncResourcesWithReload "policies" (config (gw (resetJSVM s)))
                 (syncPolicies out) (resetJSVM s) = Done (0%Z, None) s1)
    by (vm_compute; reflexivity).
  assert (E2 : syncResourcesWithReload "apis" (config (gw s1))
                 (syncAPISpecs out) s1 = Done (0%Z, None) s2)
    by (vm_compute; reflexivity).
  split; [exact E1 | split; [exact E2 | split; [reflexivity|]]].
  apply (DoReload_abandoned_when_empty out s s1 s2 0 E1 E2 eq_refl).
Defined.

(** A run of the two syncs: one API is loaded, the dashboard delivers no
    policies and the source directory holds no definitions. *)
Lemma empty_sync_run :
  let out := sampleOutside (DoResp StatusOK (policiesBody [])) [] in
  let s := sampleState sampleConfig [sampleAPI "a"] in
  let s1 := stateOf (syncResourcesWithReload "policies"
                       (config (gw (resetJSVM s))) (syncPolicies out)
                       (resetJSVM s)) in
  let s2 := stateOf (syncResourcesWithReload "apis" (config (gw s1))
                       (syncAPISpecs out) s1) in
  syncResourcesWithReload "policies" (config (gw (resetJSVM s)))
    (syncPolicies out) (resetJSVM s) = Done (0%Z, None) s1 /\
  syncResourcesWithReload "apis" (config (gw s1)) (syncAPISpecs out) s1
  = Done (0%Z, None) s2 /\
  apisByID (gw s) <> ∅.
Proof.
  intros out s s1 s2.
  split; [vm_compute; reflexivity | split; [vm_compute; reflexivity|]].
  intros H. apply (f_equal (fun m => m !! "a")) in H.
  vm_compute in H. discriminate H.
Qed.

(** C1 (amended).  When the policy sync succeeds and the API sync succeeds
    with zero definitions while the index by id is not empty, the reload is
    carried out: the loaded API list is the empty list the sync installed,
    the global apps are rebuilt from it, the index by id becomes empty and
    the reload flag is set.  A reload with zero definitions is skipped only
    when the index is empty as well. *)
Theorem DoReload_honours_empty_sync (out : Outside) (s s1 s2 : State) (c : Z) :
  syncResourcesWithReload "policies" (config (gw (resetJSVM s)))
    (syncPolicies out) (resetJSVM s) = Done (c, None) s1 ->
  syncResourcesWithReload "apis" (config (gw s1)) (syncAPISpecs out) s1
  = Done (0%Z, None) s2 ->
  apisByID (gw s) <> ∅ ->
  let s' := logf LvlInfo reloadCompleteMessage []
              (set_performedSuccessfulReload true (loadGlobalApps s2)) in
  DoReload out s = Done tt s' /\
  apiSpecs (gw s') = [] /\
  apisByID (gw s') = ∅ /\
  performedSuccessfulReload (gw s') = true /\
  trace (env s')
  = trace (env s2) ++ [EvLoadGlobalApps []; EvLog LvlInfo reloadCompleteMessage []].
Proof.
  intros Hpol Hapi Hne s'.
  pose proof (policies_sync_frame _ _ _ _ _ _ Hpol) as (_ & _ & P3 & _).
  pose proof (apis_sync_frame _ _ _ _ _ _ Hapi) as (_ & A2 & _ & _ & A5 & _).
  rewrite resetJSVM_gw in P3.
  assert (Hspecs : apiSpecs (gw s2) = []).
  { specialize (A5 eq_refl). destruct (apiSpecs (gw s2)); [reflexivity|].
    simpl in A5. lia. }
  assert (Hlen : (apisByIDLen s2 =? 0)%Z = false).
  { unfold apisByIDLen. apply Z.eqb_neq. intros H.
    apply Hne. rewrite <- P3, <- A2. apply map_size_empty_iff. lia. }
  split; [|split; [|split; [|split]]].
  - unfold DoReload. cbn zeta. unfold bind at 1. rewrite Hpol.
    unfold bind at 1. rewrite Hapi. rewrite Hlen. reflexivity.
  - exact Hspecs.
  - unfold s', loadGlobalApps. cbn [logf emit set_performedSuccessfulReload
      set_apisByID gw apisByID]. now rewrite Hspecs.
  - reflexivity.
  - unfold s', loadGlobalApps. cbn [logf emit set_performedSuccessfulReload
      set_apisByID env trace]. rewrite Hspecs, <- app_assoc. reflexivity.
Qed.


Lemma DoReload_honours_empty_sync_witness :
  let out := sampleOutside (DoResp StatusOK (policiesBody [])) [] in
  let s := sampleState sampleConfig [sampleAPI "a"] in
  let s1 := stateOf (syncResourcesWithReload "policies"
                       (config (gw (resetJSVM s))) (syncPolicies out)
                       (resetJSVM s)) in
  let s2 := stateOf (syncResourcesWithReload "apis" (config (gw s1))
                       (syncAPISpecs out) s1) in
  let s' := logf LvlInfo reloadCompleteMessage []
              (set_performedSuccessfulReload true (loadGlobalApps s2)) in
  syncResourcesWithReload "policies" (config (gw (resetJSVM s)))
    (syncPolicies out) (resetJSVM s) = Done (0%Z, None) s1 /\
  syncResourcesWithReload "apis" (config (gw s1)) (syncAPISpecs out) s1
  = Done (0%Z, None) s2 /\
  apisByID (gw s) <> ∅ /\
  DoReload out s = Done tt s' /\
  apiSpecs (gw s') = [] /\ apisByID (gw s') = ∅.
Proof.
  intros out s s1 s2 s'.
  destruct empty_sync_run as (E1 & E2 & Hne).
  split; [exact E1 | split; [exact E2 | split; [exact Hne|]]].
  destruct (DoReload_honours_empty_sync out s s1 s2 0 E1 E2 Hne)
    as (H1 & H2 & H3 & _).
  split; [exact H1 | split; [exact H2 | exact H3]].
Defined.

(** A reload whose API sync returns nothing while one API is loaded: neither
    the loaded list nor the index by id is what it was. *)
Lemma DoReload_empty_sync_clears_registry :
  ~ (forall (out : Outside) (s s1 s2 s' : State) (c : Z),
        syncResourcesWithReload "policies" (config (gw (resetJSVM s)))
          (syncPolicies out) (resetJSVM s) = Done (c, None) s1 ->
        syncResourcesWithReload "apis" (config (gw s1)) (syncAPISpecs out) s1
        = Done (0%Z, None) s2 ->
        apisByID (gw s) <> ∅ ->
        DoReload out s = Done tt s' ->
        apisByID (gw s') = apisByID (gw s) \/ apiSpecs (gw s') = apiSpecs (gw s)).
Proof.
  intros Hclaim.
  destruct empty_sync_run as (E1 & E2 & Hne).
  set (out := sampleOutside (DoResp StatusOK (policiesBody [])) []) in *.
  set (s := sampleState sampleConfig [sampleAPI "a"]) in *.
  assert (Hrun : DoReload out s = Done tt (stateOf (DoReload out s)))
    by (vm_compute; reflexivity).
  destruct (Hclaim _ _ _ _ _ _ E1 E2 Hne Hrun) as [H | H].
  - apply (f_equal (fun m => m !! "a")) in H. vm_compute in H. discriminate H.
  - vm_compute in H. discriminate H.
Qed.

(** ** The heartbeat *)

Lemma Init_endpoints (s s' : State) (h : HTTPDashboardHandler) :
  DBAppConfOptions_ConnectionString (config (gw s)) <> EmptyString ->
  Init s = Done h s' ->
  HeartBeatEndpoint h
  = DBAppConfOptions_ConnectionString (config (gw s)) +:+ "/register/ping" /\
  RegistrationEndpoint h
  = DBAppConfOptions_ConnectionString (config (gw s)) +:+ "/register/node".
Proof.
  intros _. unfold Init. unfold bind at 1.
  destruct (buildDashboardConnStr "/register/node" s) as [c1 s1| |] eqn:E1;
    try discriminate.
  apply buildDashboardConnStr_Done in E1 as [-> ->].
  unfold bind at 1.
  destruct (buildDashboardConnStr "/system/node" s) as [c2 s2| |] eqn:E2;
    try discriminate.
  apply buildDashboardConnStr_Done in E2 as [-> ->].
  unfold bind at 1.
  destruct (buildDashboardConnStr "/register/ping" s) as [c3 s3| |] eqn:E3;
    try discriminate.
  apply buildDashboardConnStr_Done in E3 as [-> ->].
  unfold bind at 1.
  destruct (buildDashboardConnStr "/system/key/quota_trigger" s)
    as [c4 s4| |] eqn:E4; try discriminate.
  apply buildDashboardConnStr_Done in E4 as [-> ->].
  destruct (String.eqb _ EmptyString); [discriminate|].
  intros [= <- <-]. split; reflexivity.
Qed.

Lemma newRequest_Done (out : Outside) (h : HTTPDashboardHandler)
  (method endpoint : string) (s : State) :
  urlParses out endpoint = true ->
  exists req, newRequest out h method endpoint s = Done req s /\
              out_Method req = method /\ out_URL req = endpoint.
Proof.
  intros Hu. unfold newRequest. rewrite Hu. eexists. repeat split.
Qed.

Lemma slept_app (l m : list Shape) : slept (l ++ m) = (slept l + slept m)%Z.
Proof.
  induction l as [|x l IH]; [reflexivity|].
  destruct x; simpl; rewrite IH; lia.
Qed.

Lemma requestsTo_app (url : string) (l m : list Shape) :
  requestsTo url (l ++ m) = requestsTo url l + requestsTo url m.
Proof.
  induction l as [|x l IH]; [reflexivity|].
  destruct x; simpl; try exact IH.
  destruct (String.eqb url0 url); simpl; now rewrite IH.
Qed.

Lemma beats_count (url : string) (n : nat) :
  requestsTo url (beats url n) = n /\
  slept (beats url n) = (Z.of_nat n * 2000000000)%Z.
Proof.
  induction n as [|n [IHr IHs]]; [split; reflexivity|].
  cbn [beats]. rewrite requestsTo_app, slept_app, IHr, IHs.
  unfold beat. cbn [requestsTo slept]. rewrite String.eqb_refl.
  change (2 * Second)%Z with 2000000000%Z. split; lia.
Qed.

Lemma requestsTo_failedRegistrations (url endpoint : string) (n : nat) :
  String.eqb endpoint url = false ->
  requestsTo url (failedRegistrations endpoint n) = 0.
Proof.
  intros Hne. induction n as [|n IH]; [reflexivity|].
  cbn [failedRegistrations requestsTo]. now rewrite Hne.
Qed.

(** One beat whose ping is not answered 403: it returns, and what it adds
    to the trace is, log lines apart, the ping and the sleep. *)
Lemma beatOnce_beat (out : Outside) (h : HTTPDashboardHandler) (rfuel : nat)
  (req : OutRequest) (s : State) :
  out_Method req = "GET" ->
  (forall b, clientDo out (ncalls (env s)) (stampRequest req s)
             <> DoResp StatusForbidden b) ->
  exists s',
    beatOnce out h rfuel req s = Done tt s' /\
    map shape (actions (trace (env s')))
    = map shape (actions (trace (env s))) ++ beat (out_URL req).
Proof.
  intros Hm Hno. unfold beatOnce, bind, act, sendHeartBeat, beat, warnHeartBeat.
  destruct (clientDo out (ncalls (env s)) (stampRequest req s))
    as [e|status b].
  - eexists. split; [reflexivity|].
    cbn [logf emit tick Sleep env trace]. rewrite <- !app_assoc.
    rewrite actions_app, map_app. cbn. now rewrite Hm.
  - destruct (Z.eqb_spec status StatusForbidden) as [->|Hne];
      [now contradiction (Hno b)|].
    destruct (negb (status =? StatusOK)%Z).
    + eexists. split; [reflexivity|].
      cbn [logf emit tick Sleep env trace]. rewrite <- !app_assoc.
      rewrite actions_app, map_app. cbn. now rewrite Hm.
    + destruct (asNodeResponse b); eexists; (split; [reflexivity|]);
        cbn [logf emit tick Sleep env trace set_ServiceNonce];
        rewrite <- ?app_assoc; rewrite actions_app, map_app; cbn;
        now rewrite Hm.
Qed.

Lemma beatLoop_beats (out : Outside) (h : HTTPDashboardHandler)
  (rfuel : nat) (ping : string) :
  (forall k, ctxDone out k = false) ->
  (forall k, stopRequested out k = false) ->
  (forall k req b, out_URL req = ping ->
                   clientDo out k req <> DoResp StatusForbidden b) ->
  forall (n : nat) (req : OutRequest) (s : State),
    out_Method req = "GET" -> out_URL req = ping ->
    exists s',
      beatLoop out h n rfuel req s = Pending s' /\
      map shape (actions (trace (env s')))
      = map shape (actions (trace (env s))) ++ beats ping n.
Proof.
  intros Hctx Hstop Hno. induction n as [|n IH]; intros req s Hm Hu.
  - exists s. split; [reflexivity|]. simpl. now rewrite app_nil_r.
  - cbn [beatLoop beats]. rewrite Hctx, Hstop.
    destruct (beatOnce_beat out h rfuel req s Hm) as (s1 & Hbeat & Hshape).
    { intros b. apply Hno. exact Hu. }
    unfold bind at 1. rewrite Hbeat.
    destruct (IH (stampRequest req s) s1 Hm Hu) as (s' & Hloop & Hrest).
    exists s'. split; [exact Hloop|].
    rewrite Hrest, Hshape, Hu, <- app_assoc. reflexivity.
Qed.

(** A registration the dashboard does not serve, under a context that is not
    cancelled, is still trying after any number of attempts. *)
Lemma Register_unserved (out : Outside) (h : HTTPDashboardHandler) :
  urlParses out (RegistrationEndpoint h) = true ->
  (forall n req, out_URL req = RegistrationEndpoint h ->
                 unavailable (clientDo out n req) = true) ->
  (forall n, ctxDone out n = false) ->
  forall (fuel : nat) (s : State),
  exists s',
    Register out fuel h s = Pending s' /\
    map shape (actions (trace (env s')))
    = map shape (actions (trace (env s)))
      ++ failedRegistrations (RegistrationEndpoint h) fuel.
Proof.
  intros Hurl Hdown Hctx.
  induction fuel as [|fuel IH]; intros s.
  - exists s. cbn [Register failedRegistrations]. rewrite app_nil_r.
    split; reflexivity.
  - cbn [Register]. unfold bind at 1, act at 1. unfold bind at 1.
    destruct (newRequest_Done out h "GET" (RegistrationEndpoint h)
                (logf LvlInfo "Registering gateway node with Dashboard" [] s)
                Hurl) as (req & -> & Hm & Hep).
    match goal with
    | |- context [clientDo out ?n ?r] =>
        pose proof (Hdown n r Hep) as Hd;
        destruct (clientDo out n r) as [e|status b]
    end.
    + unfold bind at 1, act at 1. unfold bind at 1, waitRetry at 1.
      rewrite Hctx.
      match goal with
      | |- context [Register out fuel h ?s1] =>
          destruct (IH s1) as (s' & Hrun & Htr)
      end.
      exists s'. split; [exact Hrun|].
      rewrite Htr. cbn [Sleep logf emit tick env trace].
      rewrite <- !app_assoc, !actions_app, !map_app. cbn.
      rewrite <- app_assoc. cbn. now rewrite Hm, Hep.
    + cbn [unavailable] in Hd. apply andb_prop in Hd as [H409 H200].
      apply negb_true_iff in H409. rewrite H409, H200.
      unfold bind at 1, act at 1. unfold bind at 1, waitRetry at 1.
      rewrite Hctx.
      match goal with
      | |- context [Register out fuel h ?s1] =>
          destruct (IH s1) as (s' & Hrun & Htr)
      end.
      exists s'. split; [exact Hrun|].
      rewrite Htr. cbn [Sleep logf emit tick env trace].
      rewrite <- !app_assoc, !actions_app, !map_app. cbn.
      rewrite <- app_assoc. cbn. now rewrite Hm, Hep.
Qed.

(** A ping answered 403 hands the heartbeat over to [Register]. *)
Lemma sendHeartBeat_forbidden (out : Outside) (h : HTTPDashboardHandler)
  (rfuel : nat) (req : OutRequest) (s : State) (b : RespBody) :
  clientDo out (ncalls (env s)) (stampRequest req s) = DoResp 403 b ->
  sendHeartBeat out h rfuel req s
  = Register out rfuel h (tick (emit (EvSend (stampRequest req s)) s)).
Proof. intros H. unfold sendHeartBeat. rewrite H. reflexivity. Qed.

(** While every ping is answered 403 and the registration is not served, the
    heartbeat has sent its first ping and is registering ever since. *)
Lemma StartBeating_unserved (out : Outside) (h : HTTPDashboardHandler)
  (s : State) :
  (forall k, ctxDone out k = false) ->
  (forall k, stopRequested out k = false) ->
  urlParses out (HeartBeatEndpoint h) = true ->
  urlParses out (RegistrationEndpoint h) = true ->
  (forall k req, out_URL req = HeartBeatEndpoint h ->
                 exists b, clientDo out k req = DoResp 403 b) ->
  (forall k req, out_URL req = RegistrationEndpoint h ->
                 unavailable (clientDo out k req) = true) ->
  forall n rfuel : nat,
  exists s',
    StartBeating out h (S n) rfuel s = Pending s' /\
    map shape (actions (trace (env s')))
    = map shape (actions (trace (env s)))
      ++ [ShSend "GET" (HeartBeatEndpoint h)]
      ++ failedRegistrations (RegistrationEndpoint h) rfuel.
Proof.
  intros Hctx Hstop Hurl Hreg H403 Hdown n rfuel.
  unfold StartBeating. unfold bind at 1.
  destruct (newRequest_Done out h "GET" (HeartBeatEndpoint h) s Hurl)
    as (req & -> & Hm & Hep).
  cbn [beatLoop]. rewrite Hctx, Hstop.
  destruct (H403 (ncalls (env s)) (stampRequest req s) Hep) as [b Hb].
  unfold bind at 1, beatOnce at 1. unfold bind at 1.
  rewrite (sendHeartBeat_forbidden out h rfuel req s b Hb).
  destruct (Register_unserved out h Hreg Hdown Hctx rfuel
              (tick (emit (EvSend (stampRequest req s)) s)))
    as (s' & -> & Htr).
  exists s'. split; [reflexivity|].
  rewrite Htr. cbn [tick emit env trace].
  rewrite actions_app, map_app. cbn. rewrite Hm, Hep.
  now rewrite <- app_assoc.
Qed.




(* ===================================================================== *)
(** * Part III: further properties of the embedded code                    *)
(* ===================================================================== *)

(** ** The RPC policy list *)

(** X1.  [parsePoliciesFromRPC] fails exactly when the list does not decode,
    returning no policies; otherwise every id of the returned map holds the
    last entry of the list that gets this id: for the RPC list a duplicate id
    overwrites, last wins. *)
Theorem parsePoliciesFromRPC_last_wins (out : Outside) (list : string)
  (a : bool) :
  match decodePolicyList out list with
  | inr err => parsePoliciesFromRPC out list a = (∅, Some err)
  | inl l =>
      exists m, parsePoliciesFromRPC out list a = (m, None) /\
                forall id, m !! id = lastRPCWithID a id l
  end.
Proof.
  unfold parsePoliciesFromRPC.
  destruct (decodePolicyList out list) as [l|err]; [|reflexivity].
  eexists. split; [reflexivity|].
  intros id. rewrite mergeRPCPolicy_lookup.
  destruct (lastRPCWithID a id l); [reflexivity | apply lookup_empty].
Qed.

Lemma parsePoliciesFromRPC_ok (out : Outside) (list : string) (a : bool)
  (m : gmap string Policy) :
  parsePoliciesFromRPC out list a = (m, None) ->
  exists l, decodePolicyList out list = inl l.
Proof.
  unfold parsePoliciesFromRPC.
  destruct (decodePolicyList out list) as [l|err]; [|discriminate].
  intros _. now exists l.
Qed.

(** X2.  Outside emergency mode [LoadPoliciesFromRPC] always returns, and it
    returns an error exactly when the store cannot be connected to, answers
    with the empty string, or answers with a list that does not decode.  An
    error comes with no policies and leaves the backup as it was; a success
    returns the parsed list whether or not the backup could be written.  The
    gateway itself is never touched. *)
Theorem LoadPoliciesFromRPC_errors (out : Outside) (orgId : string) (a : bool)
  (s : State) :
  emergencyMode (env s) = false ->
  let n := ncalls (env s) in
  let raw := rpcGetPolicies out (S n) orgId in
  exists m err s',
    LoadPoliciesFromRPC out orgId a s = Done (m, err) s' /\
    gw s' = gw s /\
    (err = None <->
     rpcConnect out n = true /\ raw <> EmptyString /\
     exists l, decodePolicyList out raw = inl l) /\
    match err with
    | Some _ => m = ∅ /\ policiesBackup (env s') = policiesBackup (env s)
    | None =>
        (m, None) = parsePoliciesFromRPC out raw a /\
        policiesBackup (env s')
        = if backupWritable out (S (S n)) then Some raw
          else policiesBackup (env s)
    end.
Proof.
  intros Hem n raw. unfold LoadPoliciesFromRPC. rewrite Hem.
  cbn [tick env ncalls]. fold n.
  destruct (rpcConnect out n) eqn:Hc; cbn [negb].
  2:{ eexists _, _, _. split; [reflexivity|]. split; [reflexivity|]. split.
      - split; [discriminate | intros (H & _); discriminate].
      - split; reflexivity. }
  fold raw. destruct (String.eqb_spec raw EmptyString) as [He|He].
  { eexists _, _, _. split; [reflexivity|]. split; [reflexivity|]. split.
    - split; [discriminate | intros (_ & H & _); contradiction].
    - split; reflexivity. }
  destruct (parsePoliciesFromRPC out raw a) as [pols [e|]] eqn:Hp.
  { eexists _, _, _. split; [reflexivity|]. split; [reflexivity|]. split.
    - split; [discriminate|]. intros (_ & _ & l & Hl).
      unfold parsePoliciesFromRPC in Hp. rewrite Hl in Hp. discriminate.
    - split; reflexivity. }
  unfold saveRPCPoliciesBackup. cbn [tick env ncalls]. fold n.
  destruct (backupWritable out (S (S n))).
  - eexists _, _, _. split; [reflexivity|]. split; [reflexivity|]. split.
    + split; [|reflexivity]. intros _. split; [reflexivity|]. split; [exact He|].
      eapply parsePoliciesFromRPC_ok, Hp.
    + split; reflexivity.
  - eexists _, _, _. split; [reflexivity|]. split; [reflexivity|]. split.
    + split; [|reflexivity]. intros _. split; [reflexivity|]. split; [exact He|].
      eapply parsePoliciesFromRPC_ok, Hp.
    + split; reflexivity.
Qed.

Lemma LoadPoliciesFromRPC_errors_witness :
  let out := rpcOutside "[p1]" [rpcPolicy "p1" "org"] false in
  let s := sampleState sampleRPCConfig [] in
  emergencyMode (env s) = false /\
  exists m s',
    LoadPoliciesFromRPC out "org" false s = Done (m, None) s' /\
    m !! "p1" = Some (set_ID (rpcPolicy "p1" "org") "p1") /\
    policiesBackup (env s') = None.
Proof.
  intros out s. split; [reflexivity|].
  destruct (LoadPoliciesFromRPC_errors out "org" false s eq_refl)
    as (m & err & s' & Hrun & _ & Hiff & Hres).
  assert (He : err = None).
  { apply Hiff. split; [reflexivity|]. split; [discriminate|].
    now exists [rpcPolicy "p1" "org"]. }
  subst err. destruct Hres as [Hm Hb].
  exists m, s'. split; [exact Hrun|]. split; [|exact Hb].
  injection Hm as ->. reflexivity.
Defined.

(** X3.  A call of [LoadPoliciesFromRPC], in emergency mode or not, never
    replaces a backup that decodes by one that does not: the list is saved
    only after it has been parsed. *)
Theorem LoadPoliciesFromRPC_keeps_backup_valid (out : Outside)
  (orgId : string) (a : bool) (s s' : State)
  (r : gmap string Policy * option string) :
  backupParses out s ->
  LoadPoliciesFromRPC out orgId a s = Done r s' ->
  backupParses out s'.
Proof.
  intros Hb. unfold LoadPoliciesFromRPC, LoadPoliciesFromRPCBackup.
  destruct (emergencyMode (env s)).
  - destruct (policiesBackup (env s)) eqn:E; intros [= <- <-]; exact Hb.
  - destruct (negb (rpcConnect out _)); [intros [= <- <-]; exact Hb|].
    destruct (String.eqb _ EmptyString); [intros [= <- <-]; exact Hb|].
    destruct (parsePoliciesFromRPC out _ a) as [pols [e|]] eqn:Hp;
      [intros [= <- <-]; exact Hb|].
    apply parsePoliciesFromRPC_ok in Hp.
    unfold saveRPCPoliciesBackup.
    destruct (backupWritable out _); intros [= <- <-]; [|exact Hb].
    intros raw0 [= <-]. exact Hp.
Qed.

Lemma LoadPoliciesFromRPC_keeps_backup_valid_witness :
  let out := rpcOutside "[p1]" [rpcPolicy "p1" "org"] true in
  let s := sampleState sampleRPCConfig [] in
  backupParses out s /\
  backupParses out (stateOf (LoadPoliciesFromRPC out "org" false s)) /\
  policiesBackup (env (stateOf (LoadPoliciesFromRPC out "org" false s)))
  = Some "[p1]".
Proof.
  intros out s.
  assert (Hb : backupParses out s) by (intros raw H; discriminate H).
  split; [exact Hb|]. split; [|reflexivity].
  apply (LoadPoliciesFromRPC_keeps_backup_valid out "org" false s _
           (fst (parsePoliciesFromRPC out "[p1]" false), None) Hb).
  vm_compute. reflexivity.
Defined.

(** ** Policies from a directory *)

Lemma loadPolicyFile_fold (out : Outside) (paths : list string) :
  forall (m : gmap string Policy) (s : State),
    let r := fold_left (loadPolicyFile out) paths (m, s) in
    ncalls (env (snd r)) = (ncalls (env s) + length paths)%nat /\
    forall id p,
      fst r !! id = Some p ->
      m !! id = Some p \/
      exists i path content,
        paths !! i = Some path /\
        openFile out (ncalls (env s) + i)%nat path = inl content /\
        fst (decodePolicy out content) = p /\ ID p = id.
Proof.
  induction paths as [|path rest IH]; intros m s; cbn zeta.
  - cbn [fold_left fst snd length]. split; [lia|]. intros id p H. now left.
  - cbn [fold_left]. unfold loadPolicyFile at 2 4.
    cbn [logf emit tick env ncalls].
    destruct (openFile out (ncalls (env s)) path) as [content|err] eqn:Eo.
    + destruct (decodePolicy out content) as [pol derr] eqn:Ed.
      match goal with
      | |- context [fold_left (loadPolicyFile out) rest (?m1, ?s1)] =>
          specialize (IH m1 s1); cbn zeta in IH; destruct IH as [IHn IHm];
          assert (Hn : ncalls (env s1) = S (ncalls (env s)))
            by (destruct derr; reflexivity)
      end.
      rewrite Hn in IHn, IHm. split; [rewrite IHn; cbn [length]; lia|].
      intros id p H. apply IHm in H as [H | (i & q & c & Hi & Ho & Hd & Hid)].
      * destruct (decide (ID pol = id)) as [E|E].
        -- subst id. rewrite lookup_insert_eq in H. injection H as <-.
           right. exists 0%nat, path, content.
           rewrite Nat.add_0_r, Ed. repeat split; exact Eo.
        -- rewrite lookup_insert_ne in H by exact E. now left.
      * right. exists (S i), q, c.
        replace (ncalls (env s) + S i)%nat with (S (ncalls (env s)) + i)%nat
          by lia.
        repeat split; assumption.
    + match goal with
      | |- context [fold_left (loadPolicyFile out) rest (?m1, ?s1)] =>
          specialize (IH m1 s1); cbn zeta in IH; destruct IH as [IHn IHm];
          assert (Hn : ncalls (env s1) = S (ncalls (env s))) by reflexivity
      end.
      rewrite Hn in IHn, IHm. split; [rewrite IHn; cbn [length]; lia|].
      intros id p H. apply IHm in H as [H | (i & q & c & Hi & Ho & Hd & Hid)].
      * now left.
      * right. exists (S i), q, c.
        replace (ncalls (env s) + S i)%nat with (S (ncalls (env s)) + i)%nat
          by lia.
        repeat split; assumption.
Qed.

(** X4.  Once the directory has been listed, [LoadPoliciesFromDir] returns
    without error whatever the files hold: it tries every listed file once,
    and every policy it returns is what the decoder made of a listed file
    that could be opened, filed under that policy's own id. *)
Theorem LoadPoliciesFromDir_never_fails (out : Outside) (dir : string)
  (paths : list string) (s : State) :
  globJSON out (ncalls (env s)) dir = inl paths ->
  exists m s',
    LoadPoliciesFromDir out dir s = Done (m, None) s' /\
    gw s' = gw s /\
    ncalls (env s') = (ncalls (env s) + 1 + length paths)%nat /\
    forall id p,
      m !! id = Some p ->
      exists i path content,
        paths !! i = Some path /\
        openFile out (ncalls (env s) + 1 + i)%nat path = inl content /\
        fst (decodePolicy out content) = p /\ ID p = id.
Proof.
  intros Hg. unfold LoadPoliciesFromDir. rewrite Hg.
  pose proof (loadPolicyFile_fold out paths ∅ (tick s)) as Hfold.
  pose proof (loadPolicyFile_fold_gw out paths ∅ (tick s)) as Hgw.
  destruct (fold_left (loadPolicyFile out) paths (∅, tick s)) as [m s1].
  cbn zeta in Hfold. cbn [fst snd tick env ncalls gw] in Hfold, Hgw.
  destruct Hfold as [Hn Hm].
  exists m, s1. split; [reflexivity|]. split; [exact Hgw|].
  split; [rewrite Hn; lia|].
  intros id p H. apply Hm in H as [H | (i & q & c & Hi & Ho & Hd & Hid)].
  - rewrite lookup_empty in H. discriminate.
  - exists i, q, c.
    replace (ncalls (env s) + 1 + i)%nat with (S (ncalls (env s)) + i)%nat
      by lia.
    repeat split; assumption.
Qed.

Lemma LoadPoliciesFromDir_never_fails_witness :
  let out := dirOutside ["a.json"; "locked.json"] {["a.json" := "gold"]} in
  let s := sampleState sampleDirConfig [] in
  globJSON out (ncalls (env s)) "/opt/tyk-gateway/policies"
  = inl ["a.json"; "locked.json"] /\
  exists m s',
    LoadPoliciesFromDir out "/opt/tyk-gateway/policies" s = Done (m, None) s' /\
    ncalls (env s') = 3%nat.
Proof.
  intros out s. split; [reflexivity|].
  destruct (LoadPoliciesFromDir_never_fails out "/opt/tyk-gateway/policies"
              ["a.json"; "locked.json"] s eq_refl)
    as (m & s' & Hrun & _ & Hn & _).
  exists m, s'. split; [exact Hrun | exact Hn].
Defined.

(** ** The count a policy sync returns *)

Lemma installPolicies_count (pols : gmap string Policy) (s s' : State) (c : Z) :
  installPolicies (pols, None) s = Done (c, None) s' ->
  c = Z.of_nat (size (policiesByID (gw s'))) /\ policiesByID (gw s') = pols.
Proof.
  destruct (installPolicies_spec pols None s) as (s2 & Hi & Hreg).
  rewrite Hi. intros [= <- <-]. unfold registries in Hreg.
  cbn [set_policiesByID gw policiesByID] in Hreg.
  injection Hreg as _ _ _ -> _. split; reflexivity.
Qed.

(** X5.  A successful [syncPolicies] returns the number of policies now in
    the registry, with one exception: when the configuration names no source
    (no service, no RPC, no policy path, no record name) it returns 0 and
    leaves the registry, whatever it holds, as it was. *)
Theorem syncPolicies_count (out : Outside) (s s' : State) (c : Z) :
  syncPolicies out s = Done (c, None) s' ->
  if noPolicySource (config (gw s))
  then c = 0%Z /\ gw s' = gw s
  else c = Z.of_nat (size (policiesByID (gw s'))).
Proof.
  assert (Hinstall : forall (load : M (gmap string Policy * option string)) s0,
             (r <- load ;; installPolicies r) s0 = Done (c, None) s' ->
             c = Z.of_nat (size (policiesByID (gw s')))).
  { intros load s0. unfold bind.
    destruct (load s0) as [[pols lerr] s1| |]; try discriminate.
    destruct lerr as [e|].
    - destruct (installPolicies_spec pols (Some e) s1) as (s2 & Hi & _).
      rewrite Hi. discriminate.
    - intros H. now apply installPolicies_count in H as [-> _]. }
  unfold syncPolicies, noPolicySource. cbn [logf emit gw config].
  destruct (String.eqb (Policies_PolicySource (config (gw s))) "service").
  - destruct (String.eqb _ EmptyString); [discriminate|]. apply Hinstall.
  - destruct (String.eqb (Policies_PolicySource (config (gw s))) "rpc").
    + apply Hinstall.
    + destruct (String.eqb (Policies_PolicyPath _) EmptyString); cbn [negb andb].
      * destruct (String.eqb _ EmptyString).
        -- intros [= <- <-]. split; reflexivity.
        -- apply Hinstall.
      * apply Hinstall.
Qed.

Lemma syncPolicies_count_witness :
  let out := dirOutside ["a.json"; "locked.json"] {["a.json" := "gold"]} in
  let s := sampleState sampleDirConfig [] in
  exists s', syncPolicies out s = Done (1%Z, None) s' /\
             size (policiesByID (gw s')) = 1%nat.
Proof.
  intros out s.
  assert (E : syncPolicies out s = Done (1%Z, None) (stateOf (syncPolicies out s)))
    by (vm_compute; reflexivity).
  exists (stateOf (syncPolicies out s)). split; [exact E|].
  pose proof (syncPolicies_count out s _ 1 E) as H.
  change (noPolicySource (config (gw s))) with false in H.
  cbv beta iota in H. lia.
Defined.

(** ** API syncs that fail, and the provider overrides *)



Lemma applyAuthOverride_In (cfg : Config) (l : list APISpec) (v : APISpec) :
  In v (applyAuthOverride cfg l) ->
  (AuthOverride_ForceAuthProvider cfg = true ->
   AuthProvider v = AuthOverride_AuthProvider cfg) /\
  (AuthOverride_ForceSessionProvider cfg = true ->
   SessionProvider v = AuthOverride_SessionProvider cfg).
Proof.
  unfold applyAuthOverride.
  destruct (AuthOverride_ForceAuthProvider cfg),
           (AuthOverride_ForceSessionProvider cfg); intros Hin.
  - apply in_map_iff in Hin as (w & <- & Hin).
    apply in_map_iff in Hin as (u & <- & _). split; reflexivity.
  - apply in_map_iff in Hin as (u & <- & _). split; [reflexivity|discriminate].
  - apply in_map_iff in Hin as (u & <- & _). split; [discriminate|reflexivity].
  - split; discriminate.
Qed.

(** X7.  After a successful [syncAPISpecs] under a forced auth provider
    every loaded definition carries the configured provider, whatever its
    source said; likewise for a forced session provider. *)
Theorem syncAPISpecs_forces_providers (out : Outside) (s s' : State) (c : Z) :
  syncAPISpecs out s = Done (c, None) s' ->
  forall v, In v (apiSpecs (gw s')) ->
    (AuthOverride_ForceAuthProvider (config (gw s)) = true ->
     AuthProvider v = AuthOverride_AuthProvider (config (gw s))) /\
    (AuthOverride_ForceSessionProvider (config (gw s)) = true ->
     SessionProvider v = AuthOverride_SessionProvider (config (gw s))).
Proof.
  unfold syncAPISpecs, bind.
  destruct (fetchAPISpecs out s) as [[l [e1|]] s1| |] eqn:Ef; try discriminate.
  pose proof (fetchAPISpecs_gw out s s1 _ Ef) as Hgw.
  destruct (installAPISpecs_spec out l s1) as (s2 & Hrun & Hspecs & _).
  rewrite Hrun. intros [= <- <-] v Hin. rewrite Hspecs in Hin.
  apply filter_In in Hin as [Hin _]. rewrite Hgw in Hin.
  now apply applyAuthOverride_In with (l := l).
Qed.

Lemma syncAPISpecs_forces_providers_witness :
  let out := sampleOutside (DoErr "down") [sampleAPI "a"] in
  let s := sampleState sampleDirConfig [] in
  syncAPISpecs out s = Done (1%Z, None) (stateOf (syncAPISpecs out s)) /\
  forall v, In v (apiSpecs (gw (stateOf (syncAPISpecs out s)))) ->
            AuthProvider v = "ldap".
Proof.
  intros out s.
  assert (E : syncAPISpecs out s = Done (1%Z, None) (stateOf (syncAPISpecs out s)))
    by (vm_compute; reflexivity).
  split; [exact E|]. intros v Hin.
  destruct (syncAPISpecs_forces_providers out s _ _ E v Hin) as [H _].
  apply H. reflexivity.
Defined.

(** ** Syncs that make no attempt *)

(** X8.  [syncResourcesWithReload] does not call the sync function at all,
    and returns an error in the state it was called in, when the resource
    is neither "apis" nor "policies", and also when the configured number of
    retries is negative: the loop bound [RetryAttempts + 1] is then below
    the first attempt, and the error wraps a nil cause. *)
Theorem syncResourcesWithReload_no_attempt (resource : string) (conf : Config)
  (syncFunc : M (Z * option string)) (s : State) :
  (resource <> "apis" /\ resource <> "policies" ->
   syncResourcesWithReload resource conf syncFunc s
   = Done (0%Z, Some ErrSyncResourceNotKnown) s) /\
  (resource = "apis" \/ resource = "policies" ->
   (- 2 ^ 63 <= ResourceSync_RetryAttempts conf < 0)%Z ->
   syncResourcesWithReload resource conf syncFunc s
   = Done (0%Z, Some (syncFailed resource None)) s).
Proof.
  split.
  - intros [H1 H2]. unfold syncResourcesWithReload.
    apply String.eqb_neq in H1, H2. rewrite H1, H2. reflexivity.
  - intros Hres Hneg. rewrite syncResourcesWithReload_loop by exact Hres.
    assert (Hlast : int_add (ResourceSync_RetryAttempts conf) 1
                    = (ResourceSync_RetryAttempts conf + 1)%Z)
      by (unfold int_add; apply wrap64_small; lia).
    rewrite Hlast.
    replace (Z.to_nat (ResourceSync_RetryAttempts conf + 1)) with 0%nat by lia.
    cbn [syncLoop]. rewrite Hlast.
    destruct (Z.leb_spec 1 (ResourceSync_RetryAttempts conf + 1)); [lia|].
    reflexivity.
Qed.

Lemma syncResourcesWithReload_no_attempt_witness :
  let s := sampleState sampleDirConfig [] in
  syncResourcesWithReload "keys" sampleDirConfig (flakySync 0) s
  = Done (0%Z, Some "unknown resource to sync") s /\
  syncResourcesWithReload "policies" sampleDirConfig (flakySync 0) s
  = Done (0%Z, Some "syncing policies failed %!w(<nil>)") s.
Proof.
  intros s.
  destruct (syncResourcesWithReload_no_attempt "keys" sampleDirConfig
              (flakySync 0) s) as [H1 _].
  destruct (syncResourcesWithReload_no_attempt "policies" sampleDirConfig
              (flakySync 0) s) as [_ H2].
  split.
  - apply H1. split; discriminate.
  - apply H2; [now right | simpl; lia].
Defined.

(** ** A reload whose API sync fails *)

(** X9.  When the policy sync of a reload succeeds and the API sync then
    ends in an error, [DoReload] logs the error and returns: the global apps
    are not rebuilt, the loaded API list, the index by id and the reload
    flag are those from before the reload, while the policy registry is the
    one the policy sync installed. *)
Theorem DoReload_api_sync_error (out : Outside) (s s1 s2 : State) (c c2 : Z)
  (e : string) :
  syncResourcesWithReload "policies" (config (gw (resetJSVM s)))
    (syncPolicies out) (resetJSVM s) = Done (c, None) s1 ->
  syncResourcesWithReload "apis" (config (gw s1)) (syncAPISpecs out) s1
  = Done (c2, Some e) s2 ->
  let s' := logf LvlError "Error during syncing apis" [] s2 in
  DoReload out s = Done tt s' /\
  apiSpecs (gw s') = apiSpecs (gw s) /\
  apisByID (gw s') = apisByID (gw s) /\
  performedSuccessfulReload (gw s') = performedSuccessfulReload (gw s) /\
  policiesByID (gw s') = policiesByID (gw s1).
Proof.
  intros Hpol Hapi s'.
  pose proof (policies_sync_frame _ _ _ _ _ _ Hpol) as (_ & P2 & P3 & P4 & _).
  pose proof (apis_sync_frame _ _ _ _ _ _ Hapi) as (_ & A2 & A3 & A4 & _ & A6).
  rewrite resetJSVM_gw in P2, P3, P4.
  split; [|split; [|split; [|split]]].
  - unfold DoReload. cbn zeta. unfold bind at 1. rewrite Hpol.
    unfold bind at 1. rewrite Hapi. reflexivity.
  - cbn [s' logf emit gw]. rewrite A6 by discriminate. exact P2.
  - cbn [s' logf emit gw]. congruence.
  - cbn [s' logf emit gw]. congruence.
  - cbn [s' logf emit gw]. exact A3.
Qed.

Lemma DoReload_api_sync_error_witness :
  let out := rpcOutside "[p1]" [rpcPolicy "p1" "org"] true in
  let out' :=
    {| urlParses := urlParses out; clientDo := clientDo out;
       rpcConnect := rpcConnect out; rpcGetPolicies := rpcGetPolicies out;
       backupWritable := backupWritable out; openFile := openFile out;
       globJSON := globJSON out; decodePolicyList := decodePolicyList out;
       decodePolicyMap := decodePolicyMap out; decodePolicy := decodePolicy out;
       FromDashboardService := FromDashboardService out;
       FromRPC := fun _ _ _ => ([], Some "rpc is down");
       FromDir := FromDir out; Validate := Validate out;
       ctxDone := ctxDone out; stopRequested := stopRequested out;
       jsonError := jsonError out |} in
  let s := sampleState sampleRPCConfig [sampleAPI "old"] in
  let s1 := stateOf (syncResourcesWithReload "policies"
                       (config (gw (resetJSVM s))) (syncPolicies out')
                       (resetJSVM s)) in
  let s2 := stateOf (syncResourcesWithReload "apis" (config (gw s1))
                       (syncAPISpecs out') s1) in
  syncResourcesWithReload "policies" (config (gw (resetJSVM s)))
    (syncPolicies out') (resetJSVM s) = Done (1%Z, None) s1 /\
  syncResourcesWithReload "apis" (config (gw s1)) (syncAPISpecs out') s1
  = Done (0%Z, Some (syncFailed "apis" (Some "rpc is down"))) s2 /\
  DoReload out' s = Done tt (logf LvlError "Error during syncing apis" [] s2) /\
  apiSpecs (gw (logf LvlError "Error during syncing apis" [] s2))
  = [sampleAPI "old"].
Proof.
  intros out out' s s1 s2.
  assert (E1 : syncResourcesWithReload "policies" (config (gw (resetJSVM s)))
                 (syncPolicies out') (resetJSVM s) = Done (1%Z, None) s1)
    by (vm_compute; reflexivity).
  assert (E2 : syncResourcesWithReload "apis" (config (gw s1))
                 (syncAPISpecs out') s1
               = Done (0%Z, Some (syncFailed "apis" (Some "rpc is down"))) s2)
    by (vm_compute; reflexivity).
  split; [exact E1 | split; [exact E2|]].
  destruct (DoReload_api_sync_error out' s s1 s2 _ _ _ E1 E2) as (H1 & H2 & _).
  split; [exact H1 | exact H2].
Defined.

(** ** The control API behind the secret and mutual TLS *)

(** X10.  A request to the control API that carries the configured secret,
    and, when mutual TLS is on, an accepted client certificate, reaches the
    router: the chain does nothing but trim the trailing slashes of the
    path; it writes nothing to the client and logs nothing before the router
    runs.  With mutual TLS on and a certificate that is not accepted the
    chain answers 403 with the validation error as JSON, and the router is
    not invoked. *)
Theorem controlAPIChain_outcomes (secret : string) (mtls : bool)
  (validate : Request -> option string) (router : Handler) (r : Request)
  (σ : World) (u : url_URL) :
  urls σ !! URL r = Some u ->
  Header_Get (Header r) XTykAuthorization = secret ->
  exists σ',
    urls σ' !! URL r = Some (set_Path u (TrimRight (Path u) "/")) /\
    (forall l, l <> URL r -> urls σ' !! l = urls σ !! l) /\
    writer σ' = writer σ /\ logs σ' = logs σ /\
    controlAPIChain secret mtls validate router r σ
    = match (if mtls then validate r else None) with
      | None => router r σ'
      | Some err => Returned (doJSONWrite StatusForbidden (apiError err) σ')
      end.
Proof.
  intros Hu Hsecret.
  destruct (stripSlashes_passes
              (checkIsAPIOwner secret
                 (controlAPICheckClientCertificate mtls validate
                    "/gateway/client" router)) r σ u Hu)
    as (σ' & Heq & Hurl & Hother & Hw & Hl).
  exists σ'. split; [exact Hurl|]. split; [exact Hother|].
  split; [exact Hw|]. split; [exact Hl|].
  unfold controlAPIChain. rewrite Heq.
  unfold checkIsAPIOwner. rewrite Hsecret, String.eqb_refl. cbn [negb].
  unfold controlAPICheckClientCertificate.
  destruct mtls; [|reflexivity]. now destruct (validate r).
Qed.

Lemma controlAPIChain_outcomes_witness :
  let r := {| Method := "GET"; URL := 0;
              Header := {[XTykAuthorization := ["s3cret"]]};
              Body := EmptyString; RemoteAddr := "10.0.0.1" |} in
  urls sampleWorld !! URL r = Some sampleURL /\
  Header_Get (Header r) XTykAuthorization = "s3cret" /\
  statusCode
    (writer match controlAPIChain "s3cret" true
                    (fun _ => Some "certificate is not allowed")
                    sampleEndpoint r sampleWorld with
            | Returned σ | Panicked _ σ => σ
            end) = 403%Z.
Proof.
  intros r. split; [reflexivity|]. split; [reflexivity|].
  destruct (controlAPIChain_outcomes "s3cret" true
              (fun _ => Some "certificate is not allowed") sampleEndpoint r
              sampleWorld sampleURL eq_refl eq_refl)
    as (σ' & _ & _ & Hw & _ & Heq).
  rewrite Heq.
  destruct (doJSONWrite_fresh StatusForbidden
              (apiError "certificate is not allowed") σ') as (_ & Hs & _).
  - rewrite Hw. reflexivity.
  - exact Hs.
Defined.

(** ** Response plugins that return *)

Lemma crw_run_app (cs : list WriterCall) (c : WriterCall)
  (st : customResponseWriter * World) :
  crw_run (cs ++ [c]) st = crw_call c (crw_run cs st).
Proof. unfold crw_run. now rewrite fold_left_app. Qed.

(** Whatever the plugin calls, a response it is recorded to have sent has
    fixed the status line of the client's writer. *)
Lemma crw_run_sent (cs : list WriterCall) :
  forall (rw : customResponseWriter) (σ : World),
    (responseSent rw = true -> wroteHeader (writer σ) = true) ->
    responseSent (fst (crw_run cs (rw, σ))) = true ->
    wroteHeader (writer (snd (crw_run cs (rw, σ)))) = true.
Proof.
  induction cs as [|c cs IH] using rev_ind; intros rw σ H0; [exact H0|].
  rewrite crw_run_app. specialize (IH rw σ H0).
  destruct (crw_run cs (rw, σ)) as [rw1 σ1]. cbn [fst snd] in IH.
  destruct c as [k v|code|b]; cbn [crw_call fst snd set_writer writer].
  - exact IH.
  - intros _. unfold WriteHeader.
    destruct (wroteHeader (writer σ1)) eqn:E; [exact E | reflexivity].
  - intros _. unfold Write, WriteHeader. cbn [wroteHeader].
    destruct (wroteHeader (writer σ1)) eqn:E; [exact E | reflexivity].
Qed.

(** Calls that send nothing leave everything but the header map as it was. *)
Lemma crw_run_quiet (cs : list WriterCall) :
  forall (rw : customResponseWriter) (σ : World),
    forallb (fun c => negb (sends c)) cs = true ->
    let r := crw_run cs (rw, σ) in
    fst r = rw /\
    wroteHeader (writer (snd r)) = wroteHeader (writer σ) /\
    statusCode (writer (snd r)) = statusCode (writer σ) /\
    sentHeader (writer (snd r)) = sentHeader (writer σ) /\
    body (writer (snd r)) = body (writer σ) /\
    urls (snd r) = urls σ /\ logs (snd r) = logs σ.
Proof.
  induction cs as [|c cs IH]; intros rw σ H; cbn zeta.
  - repeat split; reflexivity.
  - cbn [forallb] in H. apply andb_prop in H as [Hc Hcs].
    destruct c as [k v|code|b]; try discriminate Hc.
    unfold crw_run. cbn [fold_left crw_call].
    specialize (IH rw (set_writer (rw_Header_Set k v (writer σ)) σ) Hcs).
    cbn zeta in IH. unfold crw_run in IH. exact IH.
Qed.

Lemma crw_run_cons (c : WriterCall) (cs : list WriterCall)
  (st : customResponseWriter * World) :
  crw_run (c :: cs) st = crw_run cs (crw_call c st).
Proof. reflexivity. Qed.

(** What the wrapper has on record after the calls of the plugin. *)
Lemma crw_run_recorded (cs : list WriterCall) :
  forall (rw : customResponseWriter) (σ : World),
    statusCodeSent (fst (crw_run cs (rw, σ)))
    = recordedStatus cs (statusCodeSent rw) /\
    responseSent (fst (crw_run cs (rw, σ)))
    = responseSent rw || existsb sends cs.
Proof.
  induction cs as [|c cs IH]; intros rw σ.
  - cbn [recordedStatus existsb]. now rewrite orb_false_r.
  - rewrite crw_run_cons.
    destruct c as [k v|code|b]; cbn [crw_call recordedStatus existsb sends];
      match goal with
      | |- context [crw_run cs (?rw1, ?σ1)] =>
          destruct (IH rw1 σ1) as [-> ->]
      end; cbn [statusCodeSent responseSent orb];
      split; try reflexivity; now rewrite orb_true_r.
Qed.

(** A status line that is sent stays. *)
Lemma crw_run_committed (cs : list WriterCall) :
  forall (rw : customResponseWriter) (σ : World),
    wroteHeader (writer σ) = true ->
    wroteHeader (writer (snd (crw_run cs (rw, σ)))) = true /\
    statusCode (writer (snd (crw_run cs (rw, σ)))) = statusCode (writer σ).
Proof.
  induction cs as [|c cs IH]; intros rw σ Hw; [now split|].
  rewrite crw_run_cons.
  destruct c as [k v|code|b]; cbn [crw_call];
    match goal with
    | |- context [crw_run cs (?rw1, ?σ1)] =>
        destruct (IH rw1 σ1) as [-> ->]
    end;
    cbn [set_writer writer rw_Header_Set wroteHeader statusCode];
    unfold Write, WriteHeader; rewrite ?Hw; try (split; reflexivity);
    exact Hw.
Qed.

(** The status line of a writer that had sent nothing is that of the first
    call that sends. *)
Lemma crw_run_first (cs : list WriterCall) :
  forall (rw : customResponseWriter) (σ : World),
    wroteHeader (writer σ) = false ->
    match firstStatus cs with
    | Some code =>
        wroteHeader (writer (snd (crw_run cs (rw, σ)))) = true /\
        statusCode (writer (snd (crw_run cs (rw, σ)))) = code
    | None => wroteHeader (writer (snd (crw_run cs (rw, σ)))) = false
    end.
Proof.
  induction cs as [|c cs IH]; intros rw σ Hw; [exact Hw|].
  rewrite crw_run_cons.
  destruct c as [k v|code|b]; cbn [crw_call firstStatus].
  - apply IH. exact Hw.
  - match goal with
    | |- context [crw_run cs (?rw1, ?σ1)] =>
        destruct (crw_run_committed cs rw1 σ1) as [-> ->]
    end;
      cbn [set_writer writer]; unfold WriteHeader; rewrite Hw;
      try reflexivity; now split.
  - match goal with
    | |- context [crw_run cs (?rw1, ?σ1)] =>
        destruct (crw_run_committed cs rw1 σ1) as [-> ->]
    end;
      cbn [set_writer writer]; unfold Write, WriteHeader; rewrite Hw;
      try reflexivity; now split.
Qed.

Lemma firstStatus_sends (cs : list WriterCall) (code : Z) :
  firstStatus cs = Some code -> existsb sends cs = true.
Proof.
  induction cs as [|c cs IH]; [discriminate|].
  destruct c as [k v|c0|b]; cbn [firstStatus existsb sends orb];
    [exact IH | reflexivity | reflexivity].
Qed.



(** ** Loading a response plugin once *)

(** X12.  [Init] loads the plugin at most once.  On a middleware without
    handler it resolves the file, loads the symbol and keeps the resolved
    path; if either step fails it returns that error and the handler stays
    unset.  On a middleware whose handler is set it returns nil without
    consulting the loader and keeps the handler, yet it overwrites the path
    and the symbol name with those of the definition it is given. *)
Theorem ResponseGoPluginMiddleware_Init_once (ld : PluginLoader)
  (c : MiddlewareDefinition) (spec : APISpec)
  (h : ResponseGoPluginMiddleware) :
  let '(err, h1, _, _) := ResponseGoPluginMiddleware_Init ld c spec h in
  (ResHandler h = None ->
   match GetPluginFileNameToLoad ld (mwd_Path c) with
   | inr e => err = Some e /\ ResHandler h1 = None
   | inl newPath =>
       mw_Path h1 = newPath /\
       match GetResponseHandler ld newPath (mwd_Name c) with
       | inr e => err = Some e /\ ResHandler h1 = None
       | inl f => err = None /\ ResHandler h1 = Some f
       end
   end) /\
  (err = None -> ResHandler h1 <> None) /\
  (forall f, ResHandler h1 = Some f ->
     forall ld' c' spec',
       let '(err2, h2, spec2, _) :=
         ResponseGoPluginMiddleware_Init ld' c' spec' h1 in
       err2 = None /\ ResHandler h2 = Some f /\ spec2 = spec' /\
       mw_Path h2 = mwd_Path c' /\ SymbolName h2 = mwd_Name c').
Proof.
  unfold ResponseGoPluginMiddleware_Init. cbn [ResHandler mw_Path SymbolName].
  destruct (ResHandler h) as [f0|] eqn:Eh.
  - split; [discriminate|]. split; [intros _; cbn; discriminate|].
    cbn [ResHandler]. intros f [= <-] ld' c' spec'. cbn. repeat split.
  - destruct (GetPluginFileNameToLoad ld (mwd_Path c)) as [newPath|e].
    + destruct (GetResponseHandler ld newPath (mwd_Name c)) as [f|e].
      * split; [intros _; repeat split|]. split; [intros _; cbn; discriminate|].
        cbn [ResHandler]. intros f1 [= <-] ld' c' spec'. cbn. repeat split.
      * split; [intros _; repeat split|].
        split; [discriminate|]. cbn [ResHandler]. discriminate.
    + split; [intros _; split; reflexivity|].
      split; [discriminate|]. cbn [ResHandler]. discriminate.
Qed.

Lemma ResponseGoPluginMiddleware_Init_once_witness :
  let ld := {| GetPluginFileNameToLoad := fun p => inl (p +:+ "_v5_linux_amd64.so");
               GetResponseHandler := fun _ _ =>
                 inl (fun _ _ => {| calls := []; panics := None |}) |} in
  let broken := {| GetPluginFileNameToLoad := fun _ => inr "file not found";
                   GetResponseHandler := fun _ _ => inr "symbol not found" |} in
  let c := {| mwd_Disabled := false; mwd_Name := "Hook";
              mwd_Path := "/opt/plugin"; mwd_RequireSession := false;
              mwd_RawBodyOnly := false |} in
  let h := {| mw_Path := EmptyString; SymbolName := EmptyString;
              ResHandler := None |} in
  let h1 := snd (fst (fst (ResponseGoPluginMiddleware_Init ld c (sampleAPI "a") h))) in
  mw_Path h1 = "/opt/plugin_v5_linux_amd64.so" /\
  fst (fst (fst (ResponseGoPluginMiddleware_Init broken c (sampleAPI "a") h1)))
  = None /\
  mw_Path (snd (fst (fst (ResponseGoPluginMiddleware_Init broken c
                            (sampleAPI "a") h1))))
  = "/opt/plugin".
Proof.
  intros ld broken c h h1.
  pose proof (ResponseGoPluginMiddleware_Init_once ld c (sampleAPI "a") h) as H.
  fold h1 in H.
  destruct (ResponseGoPluginMiddleware_Init ld c (sampleAPI "a") h)
    as [[[err h1'] spec1] logs1] eqn:E.
  destruct H as (Hfresh & _ & Hkeep).
  destruct (Hfresh eq_refl) as (Hpath & _ & Hf).
  assert (E1 : h1 = h1') by reflexivity.
  rewrite E1. split; [exact Hpath|].
  specialize (Hkeep _ Hf broken c (sampleAPI "a")).
  destruct (ResponseGoPluginMiddleware_Init broken c (sampleAPI "a") h1')
    as [[[err2 h2] spec2] logs2].
  destruct Hkeep as (He & _ & _ & Hp & _). split; [exact He | exact Hp].
Defined.


(** ** Registration *)

(** X13.  While the dashboard does not serve the registration (transport
    errors, or statuses other than 200 and 409) and the context is not
    cancelled, [Register] does not return: however many attempts are
    observed, it has sent one request per attempt, five seconds apart, has
    left the gateway as it was and is about to try again. *)
Theorem Register_keeps_trying (out : Outside) (h : HTTPDashboardHandler) :
  urlParses out (RegistrationEndpoint h) = true ->
  (forall n req, unavailable (clientDo out n req) = true) ->
  (forall n, ctxDone out n = false) ->
  forall (fuel : nat) (s : State),
  exists s',
    Register out fuel h s = Pending s' /\
    gw s' = gw s /\
    map shape (actions (trace (env s')))
    = map shape (actions (trace (env s)))
      ++ failedRegistrations (RegistrationEndpoint h) fuel.
Proof.
  intros Hurl Hdown Hctx.
  induction fuel as [|fuel IH]; intros s.
  - exists s. cbn [Register failedRegistrations]. rewrite app_nil_r.
    repeat split.
  - cbn [Register]. unfold bind at 1, act at 1. unfold bind at 1.
    destruct (newRequest_Done out h "GET" (RegistrationEndpoint h)
                (logf LvlInfo "Registering gateway node with Dashboard" [] s)
                Hurl) as (req & -> & Hm & Hep).
    match goal with
    | |- context [clientDo out ?n ?r] =>
        pose proof (Hdown n r) as Hd; destruct (clientDo out n r) as [e|status b]
    end.
    + unfold bind at 1, act at 1. unfold bind at 1, waitRetry at 1.
      rewrite Hctx.
      match goal with
      | |- context [Register out fuel h ?s1] =>
          destruct (IH s1) as (s' & Hrun & Hgw & Htr)
      end.
      exists s'. split; [exact Hrun|]. split; [rewrite Hgw; reflexivity|].
      rewrite Htr. cbn [Sleep logf emit tick env trace].
      rewrite <- !app_assoc, !actions_app, !map_app. cbn.
      rewrite <- app_assoc. cbn. now rewrite Hm, Hep.
    + cbn [unavailable] in Hd. apply andb_prop in Hd as [H409 H200].
      apply negb_true_iff in H409. rewrite H409, H200.
      unfold bind at 1, act at 1. unfold bind at 1, waitRetry at 1.
      rewrite Hctx.
      match goal with
      | |- context [Register out fuel h ?s1] =>
          destruct (IH s1) as (s' & Hrun & Hgw & Htr)
      end.
      exists s'. split; [exact Hrun|]. split; [rewrite Hgw; reflexivity|].
      rewrite Htr. cbn [Sleep logf emit tick env trace].
      rewrite <- !app_assoc, !actions_app, !map_app. cbn.
      rewrite <- app_assoc. cbn. now rewrite Hm, Hep.
Qed.

Lemma Register_keeps_trying_witness :
  let out := dashboardOutside (DoErr "connection refused") false in
  let s := sampleState sampleConfig [] in
  urlParses out (RegistrationEndpoint sampleHandler) = true /\
  (forall n req, unavailable (clientDo out n req) = true) /\
  (forall n, ctxDone out n = false) /\
  exists s', Register out 3 sampleHandler s = Pending s' /\ gw s' = gw s.
Proof.
  intros out s.
  assert (H1 : urlParses out (RegistrationEndpoint sampleHandler) = true)
    by reflexivity.
  assert (H2 : forall n req, unavailable (clientDo out n req) = true)
    by (intros n req; reflexivity).
  assert (H3 : forall n, ctxDone out n = false) by (intros n; reflexivity).
  split; [exact H1 | split; [exact H2 | split; [exact H3|]]].
  destruct (Register_keeps_trying out sampleHandler H1 H2 H3 3 s)
    as (s' & Hrun & Hgw & _).
  exists s'. split; [exact Hrun | exact Hgw].
Defined.

(** X14.  [Register] returns an error in two cases only.  Either the context
    was cancelled while it waited to retry, and the error is that of the
    context; or the dashboard answered a registration request with 200 and a
    body that does not decode, and the error is the decoder's error for this
    body.  Every other failure is retried. *)
Theorem Register_errors (out : Outside) (h : HTTPDashboardHandler)
  (fuel : nat) :
  forall (s s' : State) (e : string),
    Register out fuel h s = Done (Some e) s' ->
    (e = ctxCanceled /\ exists n, ctxDone out n = true) \/
    (exists n req b,
        out_Method req = "GET" /\ out_URL req = RegistrationEndpoint h /\
        clientDo out n req = DoResp 200 b /\
        asNodeResponse b = None /\ e = jsonError out b).
Proof.
  induction fuel as [|fuel IH]; intros s s' e; [discriminate|].
  assert (Hretry : forall s0,
             (cancelled <- waitRetry out ;;
              if cancelled : bool then ret (Some ctxCanceled)
              else Register out fuel h) s0 = Done (Some e) s' ->
             (e = ctxCanceled /\ exists n, ctxDone out n = true) \/
             (exists n req b,
                 out_Method req = "GET" /\
                 out_URL req = RegistrationEndpoint h /\
                 clientDo out n req = DoResp 200 b /\
                 asNodeResponse b = None /\ e = jsonError out b)).
  { intros s0. unfold bind, waitRetry.
    destruct (ctxDone out (ncalls (env s0))) eqn:Ec.
    - intros [= <- <-]. left. split; [reflexivity|].
      now exists (ncalls (env s0)).
    - apply IH. }
  cbn [Register]. unfold bind at 1, act at 1. unfold bind at 1.
  unfold newRequest at 1.
  destruct (negb (urlParses out (RegistrationEndpoint h))); [discriminate|].
  match goal with
  | |- context [clientDo out ?n ?r] =>
      destruct (clientDo out n r) as [e1|status b] eqn:Ed
  end.
  - unfold bind at 1, act at 1. apply Hretry.
  - destruct (status =? StatusConflict)%Z; [discriminate|].
    destruct (Z.eqb_spec status 200) as [->|Hne]; cbn [negb].
    + destruct (asNodeResponse b) as [val|] eqn:Eb.
      * destruct (node_Message val !! "NodeID") as [id|].
        -- unfold bind at 1, act at 1. unfold bind at 1, act at 1.
           unfold bind at 1, act at 1. unfold bind at 1.
           destruct (DoReload out _) as [[] s2| |]; discriminate.
        -- unfold bind at 1, act at 1. apply Hretry.
      * intros [= <- <-]. right.
        eexists _, _, b. split; [|split; [|split; [exact Ed|]]];
          [reflexivity | reflexivity | split; [exact Eb | reflexivity]].
    + unfold bind at 1, act at 1. apply Hretry.
Qed.

Lemma Register_errors_witness :
  let out := dashboardOutside (DoResp 200 (policiesBody [])) false in
  let s := sampleState sampleConfig [] in
  Register out 2 sampleHandler s
  = Done (Some "unexpected end of JSON input")
      (stateOf (Register out 2 sampleHandler s)) /\
  exists n req b,
    out_URL req = "http://dashboard:3000/register/node" /\
    clientDo out n req = DoResp 200 b /\ asNodeResponse b = None.
Proof.
  intros out s.
  assert (E : Register out 2 sampleHandler s
              = Done (Some "unexpected end of JSON input")
                  (stateOf (Register out 2 sampleHandler s)))
    by (vm_compute; reflexivity).
  split; [exact E|].
  destruct (Register_errors out sampleHandler 2 s _ _ E)
    as [[H _] | (n & req & b & _ & Hu & Hd & Hb & _)]; [discriminate H|].
  exists n, req, b. split; [exact Hu | split; [exact Hd | exact Hb]].
Defined.

(** X15.  A 200 answer without a NodeID makes [Register] retry, but not
    before it has stored the missing id: the gateway's node id is then the
    empty string, the nonce is untouched, and so it stays if the context is
    cancelled during the wait. *)
Theorem Register_missing_NodeID (out : Outside) (h : HTTPDashboardHandler)
  (fuel : nat) (s : State) (b : RespBody) (val : NodeResponseOK) :
  urlParses out (RegistrationEndpoint h) = true ->
  (forall req, clientDo out (ncalls (env s)) req = DoResp 200 b) ->
  asNodeResponse b = Some val ->
  node_Message val !! "NodeID" = None ->
  ctxDone out (S (ncalls (env s))) = true ->
  exists s',
    Register out (S fuel) h s = Done (Some ctxCanceled) s' /\
    nodeID (gw s') = EmptyString /\
    ServiceNonce (gw s') = ServiceNonce (gw s) /\
    registries (gw s') = registries (gw s).
Proof.
  intros Hurl Hdo Hval Hmiss Hctx.
  cbn [Register]. unfold bind at 1, act at 1. unfold bind at 1.
  destruct (newRequest_Done out h "GET" (RegistrationEndpoint h)
              (logf LvlInfo "Registering gateway node with Dashboard" [] s)
              Hurl) as (req & -> & _).
  cbn [logf emit env ncalls]. rewrite Hdo.
  change (200 =? StatusConflict)%Z with false. cbn [negb Z.eqb Pos.eqb].
  rewrite Hval, Hmiss. unfold bind at 1, act at 1.
  unfold bind at 1, waitRetry at 1.
  cbn [logf emit tick set_nodeID env ncalls]. rewrite Hctx.
  eexists. split; [reflexivity|]. repeat split.
Qed.

Lemma Register_missing_NodeID_witness :
  let out := dashboardOutside (nodeAnswer ∅ "nonce-1") true in
  let s := sampleState sampleConfig [] in
  exists s',
    Register out 1 sampleHandler s = Done (Some ctxCanceled) s' /\
    nodeID (gw s') = EmptyString.
Proof.
  intros out s.
  destruct (Register_missing_NodeID out sampleHandler 0 s
              {| rawBody := "{...}"; asPolicyList := None;
                 asNodeResponse := Some {| node_Status := "ok";
                                           node_Message := ∅;
                                           node_Nonce := "nonce-1" |} |}
              {| node_Status := "ok"; node_Message := ∅;
                 node_Nonce := "nonce-1" |})
    as (s' & Hrun & Hid & _); try reflexivity.
  exists s'. split; [exact Hrun | exact Hid].
Defined.

(** X16.  When the dashboard answers 200 with a NodeID, [Register] stores
    the node id and the nonce of the answer and then reloads, in a state
    where both are set; it returns nil whenever the reload returns, whether
    or not the reload succeeded.  An answer 409 is a success as well: nil is
    returned at once, without reload and with the gateway untouched. *)
Theorem Register_success (out : Outside) (h : HTTPDashboardHandler)
  (fuel : nat) (s : State) (answer : DoResult) :
  urlParses out (RegistrationEndpoint h) = true ->
  (forall req, clientDo out (ncalls (env s)) req = answer) ->
  (forall b, answer = DoResp StatusConflict b ->
     exists s', Register out (S fuel) h s = Done None s' /\ gw s' = gw s) /\
  (forall b val id,
     answer = DoResp 200 b -> asNodeResponse b = Some val ->
     node_Message val !! "NodeID" = Some id ->
     exists s1,
       nodeID (gw s1) = id /\ ServiceNonce (gw s1) = node_Nonce val /\
       registries (gw s1) = registries (gw s) /\
       Register out (S fuel) h s = (DoReload out ;;; ret None) s1 /\
       forall s2, DoReload out s1 = Done tt s2 ->
                  Register out (S fuel) h s = Done None s2).
Proof.
  intros Hurl Hdo.
  destruct (newRequest_Done out h "GET" (RegistrationEndpoint h)
              (logf LvlInfo "Registering gateway node with Dashboard" [] s)
              Hurl) as (req & Hreq & _).
  split.
  - intros b ->. cbn [Register]. unfold bind at 1, act at 1. unfold bind at 1.
    rewrite Hreq. cbn [logf emit env ncalls]. rewrite Hdo, Z.eqb_refl.
    eexists. split; reflexivity.
  - intros b val id -> Hval Hid.
    assert (Hrun : exists s1,
               Register out (S fuel) h s = (DoReload out ;;; ret None) s1 /\
               nodeID (gw s1) = id /\ ServiceNonce (gw s1) = node_Nonce val /\
               registries (gw s1) = registries (gw s)).
    { cbn [Register]. unfold bind at 1, act at 1. unfold bind at 1.
      rewrite Hreq. cbn [logf emit env ncalls]. rewrite Hdo.
      change (200 =? StatusConflict)%Z with false. cbn [negb Z.eqb Pos.eqb].
      rewrite Hval, Hid.
      unfold bind at 1, act at 1. unfold bind at 1, act at 1.
      unfold bind at 1, act at 1.
      eexists. split; [reflexivity|]. repeat split. }
    destruct Hrun as (s1 & Hrun & H1 & H2 & H3).
    exists s1. split; [exact H1|]. split; [exact H2|]. split; [exact H3|].
    split; [exact Hrun|].
    intros s2 Hre. rewrite Hrun. unfold bind. rewrite Hre. reflexivity.
Qed.

Lemma Register_success_witness :
  let out := dashboardOutside (nodeAnswer {["NodeID" := "node-7"]} "nonce-1")
               false in
  let s := sampleState sampleConfig [] in
  urlParses out (RegistrationEndpoint sampleHandler) = true /\
  exists s1,
    nodeID (gw s1) = "node-7" /\ ServiceNonce (gw s1) = "nonce-1" /\
    Register out 1 sampleHandler s = (DoReload out ;;; ret None) s1.
Proof.
  intros out s. split; [reflexivity|].
  destruct (Register_success out sampleHandler 0 s
              (nodeAnswer {["NodeID" := "node-7"]} "nonce-1") eq_refl
              (fun _ => eq_refl)) as [_ H].
  destruct (H _ _ "node-7" eq_refl eq_refl eq_refl)
    as (s1 & H1 & H2 & _ & H4 & _).
  exists s1. split; [exact H1 | split; [exact H2 | exact H4]].
Defined.

(** ** The nonce of the dashboard protocol *)

Lemma stampRequest_nonce (req : OutRequest) (s : State) :
  Header_Get (out_Header (stampRequest req s)) XTykNonce = ServiceNonce (gw s) /\
  Header_Get (out_Header (stampRequest req s)) XTykNodeID = nodeID (gw s).
Proof.
  unfold stampRequest, Header_Get, Header_Set. cbn [out_Header]. split.
  - now rewrite lookup_insert_eq.
  - rewrite lookup_insert_ne by discriminate. now rewrite lookup_insert_eq.
Qed.

(** X17.  A heartbeat carries the gateway's current nonce and node id.  When
    the dashboard answers it with 200 and a body that decodes, the nonce of
    the answer replaces the gateway's, so that the next heartbeat carries
    it, and nothing else of the gateway changes; when the heartbeat fails
    for any reason other than a 403 answer, the gateway, nonce included, is
    left as it was. *)
Theorem sendHeartBeat_nonce (out : Outside) (h : HTTPDashboardHandler)
  (rfuel : nat) (req : OutRequest) (s : State) :
  let sent := stampRequest req s in
  let answer := clientDo out (ncalls (env s)) sent in
  Header_Get (out_Header sent) XTykNonce = ServiceNonce (gw s) /\
  Header_Get (out_Header sent) XTykNodeID = nodeID (gw s) /\
  (forall b val,
      answer = DoResp StatusOK b -> asNodeResponse b = Some val ->
      exists s',
        sendHeartBeat out h rfuel req s = Done None s' /\
        ServiceNonce (gw s') = node_Nonce val /\
        nodeID (gw s') = nodeID (gw s) /\
        registries (gw s') = registries (gw s) /\
        forall req',
          Header_Get (out_Header (stampRequest req' s')) XTykNonce
          = node_Nonce val) /\
  (forall e s',
      (forall b, answer <> DoResp StatusForbidden b) ->
      sendHeartBeat out h rfuel req s = Done (Some e) s' -> gw s' = gw s).
Proof.
  intros sent answer.
  destruct (stampRequest_nonce req s) as [Hn Hid].
  split; [exact Hn|]. split; [exact Hid|]. split.
  - intros b val Hans Hval. unfold sendHeartBeat. fold sent. fold answer.
    rewrite Hans. cbn [Z.eqb StatusOK StatusForbidden Pos.eqb negb].
    rewrite Hval. eexists. split; [reflexivity|].
    split; [reflexivity|]. split; [reflexivity|]. split; [reflexivity|].
    intros req'. apply stampRequest_nonce.
  - intros e s' H403. unfold sendHeartBeat. fold sent. fold answer.
    destruct answer as [e1|status b]; [now intros [= <- <-]|].
    destruct (Z.eqb_spec status StatusForbidden) as [->|Hne].
    + now contradiction (H403 b).
    + destruct (negb (status =? StatusOK)%Z); [now intros [= <- <-]|].
      destruct (asNodeResponse b); [discriminate | now intros [= <- <-]].
Qed.

(** X18.  [DeRegister] sends exactly one request, a DELETE to the
    deregistration endpoint carrying the current nonce and node id, and
    always returns.  It returns nil exactly when the dashboard answers 200
    with a body that decodes, and then the nonce of the answer is the
    gateway's new nonce; in every other case the gateway is left as it
    was, and the error names the transport error or the status, or is the
    decoder's error for a body answered with 200 that does not decode. *)
Theorem DeRegister_spec (out : Outside) (h : HTTPDashboardHandler) (s : State) :
  urlParses out (DeRegistrationEndpoint h) = true ->
  exists (sent : OutRequest) (err : option string) (s' : State),
    DeRegister out h s = Done err s' /\
    out_Method sent = "DELETE" /\ out_URL sent = DeRegistrationEndpoint h /\
    Header_Get (out_Header sent) XTykNonce = ServiceNonce (gw s) /\
    Header_Get (out_Header sent) XTykNodeID = nodeID (gw s) /\
    actions (trace (env s')) = actions (trace (env s)) ++ [EvSend sent] /\
    match clientDo out (ncalls (env s)) sent with
    | DoErr e =>
        err = Some ("deregister request failed with error " +:+ e) /\
        gw s' = gw s
    | DoResp status b =>
        if (status =? 200)%Z then
          match asNodeResponse b with
          | Some val =>
              err = None /\ ServiceNonce (gw s') = node_Nonce val /\
              nodeID (gw s') = nodeID (gw s) /\
              registries (gw s') = registries (gw s)
          | None => err = Some (jsonError out b) /\ gw s' = gw s
          end
        else
          err = Some ("deregister request failed with status " +:+ pretty status)
          /\ gw s' = gw s
    end.
Proof.
  intros Hurl. unfold DeRegister, bind.
  destruct (newRequest_Done out h "DELETE" (DeRegistrationEndpoint h) s Hurl)
    as (req & -> & Hm & Hep).
  destruct (stampRequest_nonce req s) as [Hn Hid].
  exists (stampRequest req s).
  destruct (clientDo out (ncalls (env s)) (stampRequest req s))
    as [e|status b] eqn:Ed.
  - eexists _, _. split; [reflexivity|].
    repeat (split; [first [exact Hm | exact Hep | exact Hn | exact Hid]|]).
    split; [|split; reflexivity].
    cbn [tick emit env trace]. rewrite actions_app. reflexivity.
  - change StatusOK with 200%Z. destruct (status =? 200)%Z; cbn [negb].
    + destruct (asNodeResponse b) as [val|]; eexists _, _;
        (split; [reflexivity|]);
        repeat (split; [first [exact Hm | exact Hep | exact Hn | exact Hid]|]);
        (split; [|repeat split]);
        cbn [tick emit logf set_ServiceNonce env trace];
        rewrite ?actions_app; cbn; now rewrite ?app_nil_r.
    + eexists _, _. split; [reflexivity|].
      repeat (split; [first [exact Hm | exact Hep | exact Hn | exact Hid]|]).
      split; [|split; reflexivity].
      cbn [tick emit env trace]. rewrite actions_app. reflexivity.
Qed.

Lemma DeRegister_spec_witness :
  let out := dashboardOutside (nodeAnswer ∅ "nonce-9") false in
  let s := sampleState sampleConfig [] in
  urlParses out (DeRegistrationEndpoint sampleHandler) = true /\
  exists s', DeRegister out sampleHandler s = Done None s' /\
             ServiceNonce (gw s') = "nonce-9".
Proof.
  intros out s. split; [reflexivity|].
  destruct (DeRegister_spec out sampleHandler s eq_refl)
    as (sent & err & s' & Hrun & _ & _ & _ & _ & _ & Hres).
  cbn in Hres. destruct Hres as (-> & Hn & _).
  exists s'. split; [exact Hrun | exact Hn].
Defined.

(** ** The dashboard client *)

(** X19.  The dashboard client is created once: [initialiseClient] returns
    the client of the first call ever after, whatever the configuration has
    become.  The client it creates times out after the configured number of
    seconds, or after 30 seconds when fewer than 1 are configured; the
    timeout is at least one second as long as the configured number fits a
    duration. *)
Theorem initialiseClient_once (conf conf' : ClientOptions)
  (dashClient : option http_Client) :
  let '(c, dc) := initialiseClient conf dashClient in
  dc = Some c /\
  initialiseClient conf' dc = (c, dc) /\
  (dashClient = None ->
   (ConnectionTimeout conf <= 9223372036)%Z ->
   client_Timeout c
   = ((if (ConnectionTimeout conf <? 1)%Z then 30 else ConnectionTimeout conf)
      * Second)%Z /\
   (Second <= client_Timeout c)%Z).
Proof.
  unfold initialiseClient. destruct dashClient as [c0|].
  - split; [reflexivity|]. split; [reflexivity|]. discriminate.
  - split; [reflexivity|]. split; [reflexivity|]. intros _ Hfit.
    cbn [client_Timeout]. unfold int_mul, Second.
    destruct (Z.ltb_spec (ConnectionTimeout conf) 1).
    + rewrite wrap64_small by lia. lia.
    + rewrite wrap64_small by lia. lia.
Qed.

(** ** Strings: prefixes and suffixes *)

Lemma append_cons (c : ascii) (s t : string) :
  String c s +:+ t = String c (s +:+ t).
Proof. reflexivity. Qed.

Lemma append_nil_l (s : string) : EmptyString +:+ s = s.
Proof. reflexivity. Qed.

Lemma HasPrefix_app (p k : string) : HasPrefix (p +:+ k) p = true.
Proof.
  induction p as [|c p IH]; [reflexivity|].
  rewrite append_cons. cbn [HasPrefix]. now rewrite Ascii.eqb_refl, IH.
Qed.

Lemma drop_bytes_app (p k : string) : drop_bytes (String.length p) (p +:+ k) = k.
Proof.
  induction p as [|c p IH]; [reflexivity|].
  rewrite append_cons. cbn [String.length drop_bytes]. exact IH.
Qed.

Lemma TrimPrefix_app (p k : string) : TrimPrefix (p +:+ k) p = k.
Proof. unfold TrimPrefix. now rewrite HasPrefix_app, drop_bytes_app. Qed.

Lemma append_inj_r (a b t : string) :
  String.length a = String.length b -> a +:+ t = b +:+ t -> a = b.
Proof.
  revert b. induction a as [|c a IH]; intros [|d b] Hlen H; try discriminate.
  - reflexivity.
  - rewrite !append_cons in H. injection H as -> H.
    f_equal. apply IH; [now injection Hlen | exact H].
Qed.

Lemma length_append (a b : string) :
  String.length (a +:+ b) = (String.length a + String.length b)%nat.
Proof.
  induction a as [|c a IH]; [reflexivity|].
  rewrite append_cons. cbn [String.length]. now rewrite IH.
Qed.

(** ** OAuth key prefixes *)

(** X20.  [generateOAuthPrefix] is injective: two APIs share their OAuth key
    prefix only if they have the same id. *)
Theorem generateOAuthPrefix_inj (a b : string) :
  generateOAuthPrefix a = generateOAuthPrefix b -> a = b.
Proof.
  unfold generateOAuthPrefix. intros H.
  apply (String.app_inj "oauth-data.") in H.
  apply append_inj_r in H; [exact H|].
  apply (f_equal String.length) in H. rewrite !length_append in H.
  cbn [String.length] in H. lia.
Qed.

Lemma generateOAuthPrefix_inj_witness :
  generateOAuthPrefix "a1" = "oauth-data.a1." /\ "a1" = "a1".
Proof.
  split; [reflexivity|].
  apply (generateOAuthPrefix_inj "a1" "a1"). reflexivity.
Defined.

(** ** Secrets of the configuration *)

(** X21.  A configuration value [secrets://KEY] resolves to the entry [KEY]
    of the configuration's secrets, whatever [KEY] is, and to an error
    naming [KEY] when there is no such entry; a value that has none of the
    prefixes secrets, env, consul and vault is returned as it is.  Neither
    touches the stores, and the plain value logs nothing. *)
Theorem kvStore_secrets (Secrets : gmap string string)
  (Getenv ToUpper : string -> string)
  (NewConsul NewVault : option kv_Store * option string)
  (st : KVState) :
  let kv := kvStore Secrets Getenv ToUpper NewConsul NewVault in
  (forall key,
      exists st',
        kv ("secrets://" +:+ key) st
        = (Some match Secrets !! key with
                | Some val => (val, None)
                | None =>
                    (EmptyString,
                     Some ("secrets does not exist in config.. " +:+ key
                           +:+ " not found"))
                end, st') /\
        consulKVStore st' = consulKVStore st /\
        vaultKVStore st' = vaultKVStore st) /\
  (forall value,
      HasPrefix value "secrets://" = false -> HasPrefix value "env://" = false ->
      HasPrefix value "consul://" = false -> HasPrefix value "vault://" = false ->
      kv value st = (Some (value, None), st)).
Proof.
  intros kv. split.
  - intros key. unfold kv, kvStore.
    rewrite HasPrefix_app, TrimPrefix_app.
    destruct (Secrets !! key); eexists; split; reflexivity || (split; reflexivity).
  - intros value H1 H2 H3 H4. unfold kv, kvStore.
    now rewrite H1, H2, H3, H4.
Qed.

(** X22.  A reference [consul://KEY] whose store cannot be set up is not an
    error: [kvStore] returns the reference itself, with a nil error.  Once a
    store is set, it is the one that is asked, with the key stripped of its
    prefix, and the constructor is not consulted again.  The same holds for
    [vault://KEY]. *)
Theorem kvStore_remote (Secrets : gmap string string)
  (Getenv ToUpper : string -> string)
  (NewConsul NewVault : option kv_Store * option string)
  (key : string) (st : KVState) :
  let kv := kvStore Secrets Getenv ToUpper NewConsul NewVault in
  (consulKVStore st = None -> forall e, snd NewConsul = Some e ->
   fst (kv ("consul://" +:+ key) st) = Some ("consul://" +:+ key, None) /\
   consulKVStore (snd (kv ("consul://" +:+ key) st)) = fst NewConsul) /\
  (vaultKVStore st = None -> forall e, snd NewVault = Some e ->
   fst (kv ("vault://" +:+ key) st) = Some ("vault://" +:+ key, None) /\
   vaultKVStore (snd (kv ("vault://" +:+ key) st)) = fst NewVault) /\
  (forall store, consulKVStore st = Some store ->
   forall NewConsul' NewVault',
     fst (kvStore Secrets Getenv ToUpper NewConsul' NewVault'
            ("consul://" +:+ key) st) = Some (store key) /\
     consulKVStore (snd (kvStore Secrets Getenv ToUpper NewConsul' NewVault'
                           ("consul://" +:+ key) st)) = Some store) /\
  (forall store, vaultKVStore st = Some store ->
   forall NewConsul' NewVault',
     fst (kvStore Secrets Getenv ToUpper NewConsul' NewVault'
            ("vault://" +:+ key) st) = Some (store key) /\
     vaultKVStore (snd (kvStore Secrets Getenv ToUpper NewConsul' NewVault'
                          ("vault://" +:+ key) st)) = Some store).
Proof.
  intros kv.
  assert (Hc : forall nc nv,
             kvStore Secrets Getenv ToUpper nc nv ("consul://" +:+ key) st
             = let st1 := kv_log LvlDebug "Retrieving %s from consul"
                            [ArgStr key] st in
               match setUpConsul nc st1 with
               | (Some err, st2) =>
                   (Some ("consul://" +:+ key, None),
                    kv_log LvlError "Failed to setup consul: " [ArgStr err] st2)
               | (None, st2) =>
                   match consulKVStore st2 with
                   | Some store => (Some (store key), st2)
                   | None => (None, st2)
                   end
               end).
  { intros nc nv. unfold kvStore.
    change (HasPrefix ("consul://" +:+ key) "secrets://") with false.
    change (HasPrefix ("consul://" +:+ key) "env://") with false.
    cbv iota. now rewrite HasPrefix_app, TrimPrefix_app. }
  assert (Hv : forall nc nv,
             kvStore Secrets Getenv ToUpper nc nv ("vault://" +:+ key) st
             = let st1 := kv_log LvlDebug "Retrieving %s from vault"
                            [ArgStr key] st in
               match setUpVault nv st1 with
               | (Some err, st2) =>
                   (Some ("vault://" +:+ key, None),
                    kv_log LvlError "Failed to setup vault: " [ArgStr err] st2)
               | (None, st2) =>
                   match vaultKVStore st2 with
                   | Some store => (Some (store key), st2)
                   | None => (None, st2)
                   end
               end).
  { intros nc nv. unfold kvStore.
    change (HasPrefix ("vault://" +:+ key) "secrets://") with false.
    change (HasPrefix ("vault://" +:+ key) "env://") with false.
    change (HasPrefix ("vault://" +:+ key) "consul://") with false.
    cbv iota. now rewrite HasPrefix_app, TrimPrefix_app. }
  split; [|split; [|split]].
  - intros Hnone e He. unfold kv. rewrite Hc. cbn zeta.
    unfold setUpConsul. cbn [kv_log consulKVStore]. rewrite Hnone.
    destruct NewConsul as [store err]. cbn [snd] in He. subst err.
    split; reflexivity.
  - intros Hnone e He. unfold kv. rewrite Hv. cbn zeta.
    unfold setUpVault. cbn [kv_log vaultKVStore]. rewrite Hnone.
    destruct NewVault as [store err]. cbn [snd] in He. subst err.
    split; reflexivity.
  - intros store Hs nc nv. rewrite Hc. cbn zeta.
    unfold setUpConsul, kv_log. cbn [consulKVStore]. rewrite Hs.
    cbn [consulKVStore fst snd]. split; reflexivity.
  - intros store Hs nc nv. rewrite Hv. cbn zeta.
    unfold setUpVault, kv_log. cbn [vaultKVStore]. rewrite Hs.
    cbn [vaultKVStore fst snd]. split; reflexivity.
Qed.

(** ** Whitelisted ports *)

(** X23.  [setupPortsWhitelist] adds the listen port, and the control port
    when one is configured, to the whitelist of the protocol the gateway
    serves (https with SSL, http without): after the ports that were
    whitelisted for it, whose order and ranges are kept.  The whitelists of
    other protocols and the ports themselves are untouched.  It appends
    without looking: a second call lists the same ports once more. *)
Theorem setupPortsWhitelist_spec (c : PortsConf) :
  let protocol := if conf_UseSSL c then "https" else "http" in
  let old := default ∅ (conf_PortWhiteList c) in
  let before := default {| Ranges := []; Ports := [] |} (old !! protocol) in
  let added := ListenPort c
               :: (if (ControlAPIPort c =? 0)%Z then [] else [ControlAPIPort c]) in
  let c1 := setupPortsWhitelist c in
  (exists w ls,
      conf_PortWhiteList c1 = Some w /\ w !! protocol = Some ls /\
      Ports ls = Ports before ++ added /\ Ranges ls = Ranges before /\
      forall k, k <> protocol -> w !! k = old !! k) /\
  conf_UseSSL c1 = conf_UseSSL c /\ ListenPort c1 = ListenPort c /\
  ControlAPIPort c1 = ControlAPIPort c /\
  (exists w ls,
      conf_PortWhiteList (setupPortsWhitelist c1) = Some w /\
      w !! protocol = Some ls /\
      Ports ls = Ports before ++ added ++ added).
Proof.
  intros protocol old before added c1.
  assert (Hfirst : forall c0 : PortsConf,
             let protocol := if conf_UseSSL c0 then "https" else "http" in
             let old := default ∅ (conf_PortWhiteList c0) in
             let before := default {| Ranges := []; Ports := [] |}
                             (old !! protocol) in
             let added := ListenPort c0
                          :: (if (ControlAPIPort c0 =? 0)%Z then []
                              else [ControlAPIPort c0]) in
             exists w ls,
               conf_PortWhiteList (setupPortsWhitelist c0) = Some w /\
               w !! protocol = Some ls /\
               Ports ls = Ports before ++ added /\ Ranges ls = Ranges before /\
               forall k, k <> protocol -> w !! k = old !! k).
  { intros c0. cbn zeta. unfold setupPortsWhitelist. cbn [conf_PortWhiteList].
    eexists _, _. split; [reflexivity|]. split; [apply lookup_insert_eq|].
    split; [|split].
    - destruct (ControlAPIPort c0 =? 0)%Z; cbn [negb Ports];
        [reflexivity | now rewrite <- app_assoc].
    - now destruct (ControlAPIPort c0 =? 0)%Z.
    - intros k Hk. now apply lookup_insert_ne. }
  split; [apply Hfirst|]. split; [reflexivity|]. split; [reflexivity|].
  split; [reflexivity|].
  destruct (Hfirst c) as (w & ls & Hw & Hls & Hp & _).
  destruct (Hfirst c1) as (w2 & ls2 & Hw2 & Hls2 & Hp2 & _).
  fold c1 in Hw. rewrite Hw in Hp2.
  change (conf_UseSSL c1) with (conf_UseSSL c) in Hp2, Hls2.
  change (ListenPort c1) with (ListenPort c) in Hp2.
  change (ControlAPIPort c1) with (ControlAPIPort c) in Hp2.
  change (default ∅ (Some w)) with w in Hp2. rewrite Hls in Hp2.
  change (default {| Ranges := []; Ports := [] |} (Some ls)) with ls in Hp2.
  exists w2, ls2. split; [exact Hw2|]. split; [exact Hls2|].
  rewrite Hp2, Hp, <- app_assoc. reflexivity.
Qed.

(** ** Custom middleware *)

Lemma enabled_app (l m : list MiddlewareDefinition) :
  enabled (l ++ m) = enabled l ++ enabled m.
Proof. unfold enabled. apply List.filter_app. Qed.

Lemma loadPre_fold (l : list MiddlewareDefinition) :
  forall st,
    mwView (fold_left loadPre l st)
    = (mwPaths st ++ map mwd_Path (enabled l), mwAuthCheckFunc st,
       mwPreFuncs st ++ enabled l, mwPostFuncs st, mwPostKeyAuthFuncs st,
       mwResponseFuncs st, mwDriver st).
Proof.
  induction l as [|d l IH]; intros st.
  - cbn. now rewrite !app_nil_r.
  - cbn [fold_left]. rewrite IH. unfold loadPre, enabled.
    cbn [List.filter]. destruct (mwd_Disabled d); cbn [negb]; [reflexivity|].
    cbn [mw_log mw_store mw_addPath mwPaths mwAuthCheckFunc mwPreFuncs
           mwPostFuncs mwPostKeyAuthFuncs mwResponseFuncs mwDriver map].
    now rewrite <- !app_assoc.
Qed.

Lemma loadPost_fold (l : list MiddlewareDefinition) :
  forall st,
    mwView (fold_left loadPost l st)
    = (mwPaths st ++ map mwd_Path (enabled l), mwAuthCheckFunc st,
       mwPreFuncs st, mwPostFuncs st ++ enabled l, mwPostKeyAuthFuncs st,
       mwResponseFuncs st, mwDriver st).
Proof.
  induction l as [|d l IH]; intros st.
  - cbn. now rewrite !app_nil_r.
  - cbn [fold_left]. rewrite IH. unfold loadPost, enabled.
    cbn [List.filter]. destruct (mwd_Disabled d); cbn [negb]; [reflexivity|].
    cbn [mw_log mw_store mw_addPath mwPaths mwAuthCheckFunc mwPreFuncs
           mwPostFuncs mwPostKeyAuthFuncs mwResponseFuncs mwDriver map].
    now rewrite <- !app_assoc.
Qed.

Lemma loadPostKeyAuth_fold (l : list MiddlewareDefinition) :
  forall st,
    mwView (fold_left loadPostKeyAuth l st)
    = (mwPaths st ++ nonEmptyPaths (enabled l), mwAuthCheckFunc st,
       mwPreFuncs st, mwPostFuncs st, mwPostKeyAuthFuncs st ++ enabled l,
       mwResponseFuncs st, mwDriver st).
Proof.
  induction l as [|d l IH]; intros st.
  - cbn. now rewrite !app_nil_r.
  - cbn [fold_left]. rewrite IH. unfold loadPostKeyAuth, enabled, nonEmptyPaths.
    cbn [List.filter]. destruct (mwd_Disabled d); cbn [negb]; [reflexivity|].
    cbn [map List.filter].
    destruct (String.eqb (mwd_Path d) EmptyString); cbn [negb];
      cbn [mw_store mw_addPath mwPaths mwAuthCheckFunc mwPreFuncs
             mwPostFuncs mwPostKeyAuthFuncs mwResponseFuncs mwDriver];
      now rewrite <- ?app_assoc.
Qed.

Lemma loadResponse_fold (l : list MiddlewareDefinition) :
  forall st,
    mwView (fold_left loadResponse l st)
    = (mwPaths st, mwAuthCheckFunc st, mwPreFuncs st, mwPostFuncs st,
       mwPostKeyAuthFuncs st, mwResponseFuncs st ++ enabled l, mwDriver st).
Proof.
  induction l as [|d l IH]; intros st.
  - cbn. now rewrite !app_nil_r.
  - cbn [fold_left]. rewrite IH. unfold loadResponse, enabled.
    cbn [List.filter]. destruct (mwd_Disabled d); cbn [negb]; [reflexivity|].
    cbn [mwPaths mwAuthCheckFunc mwPreFuncs mwPostFuncs mwPostKeyAuthFuncs
           mwResponseFuncs mwDriver].
    now rewrite <- !app_assoc.
Qed.

Lemma loadFile_view (folder : string * FolderTarget) (st : LoadedMiddleware)
  (path : string) :
  let r := loadFile folder st path in
  mwPaths r = mwPaths st ++ [path] /\
  mwAuthCheckFunc r = match snd folder with
                      | IntoAuth => fileMiddleware path
                      | _ => mwAuthCheckFunc st
                      end /\
  mwPreFuncs r = match snd folder with
                 | IntoPre => mwPreFuncs st ++ [fileMiddleware path]
                 | _ => mwPreFuncs st
                 end /\
  mwPostFuncs r = match snd folder with
                  | IntoPost => mwPostFuncs st ++ [fileMiddleware path]
                  | _ => mwPostFuncs st
                  end /\
  mwPostKeyAuthFuncs r = match snd folder with
                         | IntoPostAuth =>
                             mwPostKeyAuthFuncs st ++ [fileMiddleware path]
                         | _ => mwPostKeyAuthFuncs st
                         end /\
  mwResponseFuncs r = mwResponseFuncs st /\ mwDriver r = mwDriver st.
Proof.
  unfold loadFile. cbn zeta.
  destruct (mwd_RequireSession (fileMiddleware path)); [|repeat split].
  destruct (String.eqb (fst folder) "post_auth" || String.eqb (fst folder) "post");
    repeat split.
Qed.

Lemma last_cons_default {A} (l : list A) :
  forall x d : A, List.last (x :: l) d = List.last l x.
Proof.
  induction l as [|y l IH]; intros x d; [reflexivity|].
  change (List.last (x :: y :: l) d) with (List.last (y :: l) d).
  now rewrite !IH.
Qed.

Lemma loadFile_fold (folder : string * FolderTarget) (paths : list string) :
  forall st,
    let files := map fileMiddleware paths in
    mwView (fold_left (loadFile folder) paths st)
    = (mwPaths st ++ paths,
       match snd folder with
       | IntoAuth => List.last files (mwAuthCheckFunc st)
       | _ => mwAuthCheckFunc st
       end,
       match snd folder with
       | IntoPre => mwPreFuncs st ++ files
       | _ => mwPreFuncs st
       end,
       match snd folder with
       | IntoPost => mwPostFuncs st ++ files
       | _ => mwPostFuncs st
       end,
       match snd folder with
       | IntoPostAuth => mwPostKeyAuthFuncs st ++ files
       | _ => mwPostKeyAuthFuncs st
       end,
       mwResponseFuncs st, mwDriver st).
Proof.
  induction paths as [|path paths IH]; intros st; cbn zeta.
  - cbn [fold_left map List.last]. unfold mwView. rewrite !app_nil_r.
    now destruct (snd folder).
  - cbn [fold_left]. rewrite IH.
    destruct (loadFile_view folder st path)
      as (H1 & H2 & H3 & H4 & H5 & H6 & H7).
    rewrite H1, H2, H3, H4, H5, H6, H7. cbn [map].
    rewrite <- !app_assoc. cbn [app].
    destruct (snd folder); rewrite <- ?app_assoc; try reflexivity.
    now rewrite last_cons_default.
Qed.

(** X24.  What [loadCustomMiddleware] returns, for any configuration and
    any content of the middleware folders.  A disabled definition is never
    returned.  Pre and post hooks are the enabled configured ones, in order,
    followed by those of the files; for the hooks after key authentication
    it is the other way round, files first.  Response hooks are the enabled
    configured ones, and the driver is the configured one.  A file in the
    auth folder replaces the configured auth hook, the last file winning.
    The paths are listed in the order the code visits them; the configured
    pre and post hooks contribute their path even when it is empty, the
    auth hook and the hooks after key authentication only when it is not. *)
Theorem loadCustomMiddleware_spec (glob : string -> list string)
  (cm : MiddlewareSection) :
  let r := loadCustomMiddleware glob cm in
  let files := fun name => map fileMiddleware (glob name) in
  mwPreFuncs r = enabled (cm_Pre cm) ++ files "pre" /\
  mwPostFuncs r = enabled (cm_Post cm) ++ files "post" /\
  mwPostKeyAuthFuncs r = files "post_auth" ++ enabled (cm_PostKeyAuth cm) /\
  mwResponseFuncs r = enabled (cm_Response cm) /\
  mwAuthCheckFunc r
  = List.last (files "auth")
      (default zeroMiddlewareDefinition (configuredAuthCheck cm)) /\
  mwDriver r = cm_Driver cm /\
  mwPaths r
  = nonEmptyPaths (option_list (configuredAuthCheck cm))
    ++ map mwd_Path (enabled (cm_Pre cm))
    ++ map mwd_Path (enabled (cm_Post cm))
    ++ glob "pre" ++ glob "auth" ++ glob "post_auth" ++ glob "post"
    ++ nonEmptyPaths (enabled (cm_PostKeyAuth cm)) /\
  (forall d, In d (mwPreFuncs r ++ mwPostFuncs r ++ mwPostKeyAuthFuncs r
                   ++ mwResponseFuncs r) -> mwd_Disabled d = false).
Proof.
  intros r files.
  assert (Hview : mwView r
                  = (nonEmptyPaths (option_list (configuredAuthCheck cm))
                     ++ map mwd_Path (enabled (cm_Pre cm))
                     ++ map mwd_Path (enabled (cm_Post cm))
                     ++ glob "pre" ++ glob "auth" ++ glob "post_auth"
                     ++ glob "post"
                     ++ nonEmptyPaths (enabled (cm_PostKeyAuth cm)),
                     List.last (files "auth")
                       (default zeroMiddlewareDefinition (configuredAuthCheck cm)),
                     enabled (cm_Pre cm) ++ files "pre",
                     enabled (cm_Post cm) ++ files "post",
                     files "post_auth" ++ enabled (cm_PostKeyAuth cm),
                     enabled (cm_Response cm), cm_Driver cm)).
  { unfold r, loadCustomMiddleware. cbn zeta.
    remember (if negb (mwd_Disabled (cm_AuthCheck cm))
                 && negb (String.eqb (mwd_Name (cm_AuthCheck cm)) EmptyString)
              then _ else _) as st0 eqn:E0.
    assert (H0 : mwView st0
                 = (nonEmptyPaths (option_list (configuredAuthCheck cm)),
                    default zeroMiddlewareDefinition (configuredAuthCheck cm),
                    [], [], [], [], EmptyString)).
    { rewrite E0. unfold configuredAuthCheck, nonEmptyPaths.
      destruct (negb (mwd_Disabled (cm_AuthCheck cm))
                && negb (String.eqb (mwd_Name (cm_AuthCheck cm)) EmptyString));
        [|reflexivity].
      unfold option_list. cbn [option_rect map List.filter from_option id].
      now destruct (String.eqb (mwd_Path (cm_AuthCheck cm)) EmptyString). }
    clear E0.
    pose proof (loadPre_fold (cm_Pre cm) st0) as H1.
    remember (fold_left loadPre (cm_Pre cm) st0) as st1 eqn:E1. clear E1.
    pose proof (loadPost_fold (cm_Post cm) st1) as H2.
    remember (fold_left loadPost (cm_Post cm) st1) as st2 eqn:E2. clear E2.
    cbn [fold_left middlewareFolders fst].
    pose proof (loadFile_fold ("pre", IntoPre) (glob "pre") st2) as H3.
    remember (fold_left (loadFile ("pre", IntoPre)) (glob "pre") st2)
      as st3 eqn:E3. clear E3.
    pose proof (loadFile_fold ("auth", IntoAuth) (glob "auth") st3) as H4.
    remember (fold_left (loadFile ("auth", IntoAuth)) (glob "auth") st3)
      as st4 eqn:E4. clear E4.
    pose proof (loadFile_fold ("post_auth", IntoPostAuth) (glob "post_auth") st4)
      as H5.
    remember (fold_left (loadFile ("post_auth", IntoPostAuth))
                (glob "post_auth") st4) as st5 eqn:E5. clear E5.
    pose proof (loadFile_fold ("post", IntoPost) (glob "post") st5) as H6.
    remember (fold_left (loadFile ("post", IntoPost)) (glob "post") st5)
      as st6 eqn:E6. clear E6.
    cbn zeta in H3, H4, H5, H6. cbn [snd] in H3, H4, H5, H6.
    remember (if negb (String.eqb (cm_Driver cm) EmptyString) then _ else st6)
      as st7 eqn:E7.
    assert (H7 : mwView st7
                 = (mwPaths st6, mwAuthCheckFunc st6, mwPreFuncs st6,
                    mwPostFuncs st6, mwPostKeyAuthFuncs st6,
                    mwResponseFuncs st6,
                    if negb (String.eqb (cm_Driver cm) EmptyString)
                    then cm_Driver cm else mwDriver st6)).
    { rewrite E7. now destruct (negb (String.eqb (cm_Driver cm) EmptyString)). }
    clear E7.
    pose proof (loadPostKeyAuth_fold (cm_PostKeyAuth cm) st7) as H8.
    remember (fold_left loadPostKeyAuth (cm_PostKeyAuth cm) st7) as st8 eqn:E8.
    clear E8.
    rewrite loadResponse_fold.
    unfold mwView in H0, H1, H2, H3, H4, H5, H6, H7, H8.
    injection H0 as A1 A2 A3 A4 A5 A6 A7.
    injection H1 as B1 B2 B3 B4 B5 B6 B7.
    injection H2 as C1 C2 C3 C4 C5 C6 C7.
    injection H3 as D1 D2 D3 D4 D5 D6 D7.
    injection H4 as E1 E2 E3 E4 E5 E6 E7.
    injection H5 as F1 F2 F3 F4 F5 F6 F7.
    injection H6 as G1 G2 G3 G4 G5 G6 G7.
    injection H7 as I1 I2 I3 I4 I5 I6 I7.
    injection H8 as J1 J2 J3 J4 J5 J6 J7.
    assert (Hd : mwDriver st8 = cm_Driver cm).
    { rewrite J7, I7, G7, F7, E7, D7, C7, B7, A7.
      destruct (String.eqb_spec (cm_Driver cm) EmptyString) as [->|];
        reflexivity. }
    rewrite Hd, J1, J2, J3, J4, J5, J6, I1, I2, I3, I4, I5, I6,
      G1, G2, G3, G4, G5, G6, F1, F2, F3, F4, F5, F6,
      E1, E2, E3, E4, E5, E6, D1, D2, D3, D4, D5, D6,
      C1, C2, C3, C4, C5, C6, B1, B2, B3, B4, B5, B6,
      A1, A2, A3, A4, A5, A6.
    cbn [app]. rewrite <- ?app_assoc. reflexivity. }
  unfold mwView in Hview. injection Hview as V1 V2 V3 V4 V5 V6 V7.
  split; [exact V3|]. split; [exact V4|]. split; [exact V5|].
  split; [exact V6|]. split; [exact V2|]. split; [exact V7|].
  split; [exact V1|].
  intros d. rewrite V3, V4, V5, V6, !in_app_iff. unfold enabled, files.
  rewrite !filter_In, !in_map_iff.
  intros [[[_ H] | (x & <- & _)] | [[[_ H] | (x & <- & _)]
         | [[(x & <- & _) | [_ H]] | [_ H]]]];
    (reflexivity || now apply negb_true_iff in H).
Qed.

(** ** The name of a middleware file *)

Lemma string_app_assoc (a b c : string) :
  (a +:+ b) +:+ c = a +:+ (b +:+ c).
Proof.
  induction a as [|x a IH]; [reflexivity|].
  change (String x ((a +:+ b) +:+ c) = String x (a +:+ (b +:+ c))).
  now rewrite IH.
Qed.

Lemma append_not_empty (s t : string) :
  t <> EmptyString -> s +:+ t <> EmptyString.
Proof. destruct s; [now rewrite append_nil_l | now rewrite append_cons]. Qed.

Lemma TrimRight_app_kept (s t cutset : string) :
  t <> EmptyString -> TrimRight t cutset = t ->
  TrimRight (s +:+ t) cutset = s +:+ t.
Proof.
  intros Ht Hk. induction s as [|a s IH]; [now rewrite append_nil_l|].
  rewrite append_cons. cbn [TrimRight]. rewrite IH.
  destruct (s +:+ t) eqn:E; [|reflexivity].
  now apply append_not_empty in E.
Qed.

Lemma hasSlash_app (s t : string) :
  hasSlash (s +:+ t) = hasSlash s || hasSlash t.
Proof.
  induction s as [|a s IH]; [reflexivity|].
  rewrite append_cons. cbn [hasSlash]. now rewrite IH, orb_assoc.
Qed.

Lemma lastElement_app (dir rest : string) :
  hasSlash rest = false -> lastElement (dir +:+ "/" +:+ rest) = rest.
Proof.
  intros Hr. induction dir as [|c dir IH].
  - rewrite append_nil_l, append_cons, append_nil_l.
    cbn [lastElement]. now rewrite Hr.
  - rewrite append_cons. cbn [lastElement].
    rewrite hasSlash_app, append_cons, append_nil_l. cbn [hasSlash].
    rewrite Ascii.eqb_refl, orb_true_r. exact IH.
Qed.

Lemma beforeDot_app (file ext : string) :
  beforeDot file = file -> beforeDot (file +:+ "." +:+ ext) = file.
Proof.
  induction file as [|c file IH]; intros H.
  - reflexivity.
  - rewrite append_cons. cbn [beforeDot] in *.
    destruct (Ascii.eqb c "."); [discriminate|].
    injection H as H. now rewrite IH.
Qed.

(** X25.  A middleware file [DIR/NAME.js], where [NAME] holds neither a
    slash nor a dot, is loaded as the middleware [NAME], enabled, with the
    file as its path; it requires a session exactly when [NAME] ends in
    [_with_session]. *)
Theorem fileMiddleware_name (dir name : string) :
  hasSlash name = false -> beforeDot name = name ->
  let d := fileMiddleware (dir +:+ "/" +:+ name +:+ ".js") in
  mwd_Name d = name /\
  mwd_Path d = dir +:+ "/" +:+ name +:+ ".js" /\
  mwd_Disabled d = false /\
  mwd_RequireSession d = HasSuffix name "_with_session".
Proof.
  intros Hs Hd d.
  assert (Hname : beforeDot (Base (dir +:+ "/" +:+ name +:+ ".js")) = name).
  { unfold Base.
    assert (Hne : dir +:+ "/" +:+ name +:+ ".js" <> EmptyString).
    { apply append_not_empty. discriminate. }
    apply String.eqb_neq in Hne. rewrite Hne.
    rewrite <- (string_app_assoc "/" name ".js").
    rewrite <- (string_app_assoc dir ("/" +:+ name) ".js").
    rewrite TrimRight_app_kept by (discriminate || reflexivity).
    rewrite (string_app_assoc dir ("/" +:+ name) ".js").
    rewrite (string_app_assoc "/" name ".js").
    rewrite lastElement_app.
    2:{ rewrite hasSlash_app, Hs. reflexivity. }
    assert (Hne2 : name +:+ ".js" <> EmptyString)
      by (apply append_not_empty; discriminate).
    apply String.eqb_neq in Hne2. rewrite Hne2.
    apply (beforeDot_app name "js" Hd). }
  unfold d, fileMiddleware. cbn [mwd_Name mwd_Path mwd_Disabled mwd_RequireSession].
  rewrite Hname. repeat split.
Qed.

Lemma fileMiddleware_name_witness :
  let d := fileMiddleware "/opt/mw/api1/post/quota_with_session.js" in
  mwd_Name d = "quota_with_session" /\ mwd_RequireSession d = true.
Proof.
  destruct (fileMiddleware_name "/opt/mw/api1/post" "quota_with_session"
              eq_refl eq_refl) as (H1 & _ & _ & H4).
  split; [exact H1 | exact H4].
Defined.

(** ** The reload queue *)

Lemma bind_ext {A B} (m m' : M A) (k k' : A -> M B) (s : State) :
  m s = m' s -> (forall a s1, k a s1 = k' a s1) -> bind m k s = bind m' k' s.
Proof.
  intros Hm Hk. unfold bind. rewrite Hm.
  destruct (m' s) as [a s1| |]; [apply Hk | reflexivity | reflexivity].
Qed.

Lemma runCallbacks_omap {Callback} (call : Callback -> M unit)
  (q : list (option Callback)) :
  forall s, runCallbacks Callback call q s
            = runCallbacks Callback call (map Some (omap id q)) s.
Proof.
  induction q as [|[f|] q IH]; intros s; [reflexivity| |].
  - cbn [omap map runCallbacks option_bind id].
    change (omap id (Some f :: q)) with (f :: omap id q).
    cbn [map runCallbacks]. apply bind_ext; [reflexivity|]. intros _ s1. apply IH.
  - change (omap id (None :: q)) with (omap id q).
    cbn [runCallbacks]. unfold bind at 1, ret at 1. apply IH.
Qed.

(** X26.  A tick of the reload loop serves all the requests queued since
    the last one with a single reload cycle.  On an empty queue it does
    nothing.  On a queue that is not empty it runs, in this order, one
    [DoReload], one coprocess reload, the queued callbacks that are not nil
    in the order queued, and the completion function if there is one, and
    leaves the queue empty; so what it does depends on the queue only
    through its callbacks that are not nil, and any number of queued reloads
    with the same callbacks is served like one.  A request is queued behind
    those already there. *)
Theorem reloadTick_coalesces (out : Outside) (Callback : Type)
  (call : Callback -> M unit) (DoCoprocessReload : M unit)
  (complete : list (M unit)) (q q' : list (option Callback)) :
  let tick := reloadTick out Callback call DoCoprocessReload complete in
  (forall s, tick [] s = Done [] s) /\
  (q <> [] -> q' <> [] -> omap id q = omap id q' ->
   forall s, tick q s = tick q' s) /\
  (forall s r s', tick q s = Done r s' -> r = []) /\
  (forall cb fn s r s',
      queueReload Callback cb fn q s = Done r s' -> r = q ++ [fn]) /\
  (q <> [] ->
   forall s,
     tick q s
     = (act (logf LvlInfo "reload: initiating" []) ;;;
        DoReload out ;;;
        act (logf LvlInfo "reload: complete" []) ;;;
        act (logf LvlInfo "Initiating coprocess reload" []) ;;;
        DoCoprocessReload ;;;
        act (logf LvlInfo "coprocess reload complete" []) ;;;
        runCallbacks Callback call (map Some (omap id q)) ;;;
        callFirst complete ;;;
        act (logf LvlInfo "reload: cycle completed in %v" []) ;;;
        ret []) s) /\
  (q <> [] ->
   forall s s1 s2 s3 s4,
     DoReload out (logf LvlInfo "reload: initiating" [] s) = Done tt s1 ->
     DoCoprocessReload
       (logf LvlInfo "Initiating coprocess reload" []
          (logf LvlInfo "reload: complete" [] s1)) = Done tt s2 ->
     runCallbacks Callback call (map Some (omap id q))
       (logf LvlInfo "coprocess reload complete" [] s2) = Done tt s3 ->
     callFirst complete s3 = Done tt s4 ->
     tick q s
     = Done [] (logf LvlInfo "reload: cycle completed in %v" [] s4)).
Proof.
  intros tick.
  assert (Hcycle : q <> [] ->
            forall s,
              tick q s
              = (act (logf LvlInfo "reload: initiating" []) ;;;
                 DoReload out ;;;
                 act (logf LvlInfo "reload: complete" []) ;;;
                 act (logf LvlInfo "Initiating coprocess reload" []) ;;;
                 DoCoprocessReload ;;;
                 act (logf LvlInfo "coprocess reload complete" []) ;;;
                 runCallbacks Callback call (map Some (omap id q)) ;;;
                 callFirst complete ;;;
                 act (logf LvlInfo "reload: cycle completed in %v" []) ;;;
                 ret []) s).
  { intros Hq s. unfold tick, reloadTick.
    destruct q as [|c q0]; [contradiction|].
    cbn [shouldReload negb].
    repeat (apply bind_ext; [reflexivity | intros _ ?]).
    apply bind_ext; [|reflexivity].
    apply (runCallbacks_omap call (c :: q0)). }
  split; [reflexivity|]. split; [|split; [|split; [|split]]].
  - intros Hq Hq' Hsame s. unfold tick, reloadTick.
    destruct q as [|c q0]; [contradiction|].
    destruct q' as [|c' q0']; [contradiction|].
    cbn [shouldReload negb].
    repeat (apply bind_ext; [reflexivity | intros _ ?]).
    apply bind_ext; [|reflexivity].
    rewrite (runCallbacks_omap call (c :: q0)),
      (runCallbacks_omap call (c' :: q0')).
    now rewrite Hsame.
  - intros s r s'. unfold tick, reloadTick.
    destruct q as [|c q0]; cbn [shouldReload negb]; [now intros [= <- _]|].
    unfold bind, act, ret.
    repeat match goal with
           | |- context [match ?m ?s0 with Done _ _ => _ | Exited _ => _
                                          | Pending _ => _ end] =>
               destruct (m s0) as [? ?| |]; try discriminate
           end.
    now intros [= <- _].
  - intros cb fn s r s'. unfold queueReload, bind, act, ret.
    destruct (callFirst cb _) as [[] s1| |]; try discriminate.
    now intros [= <- _].
  - exact Hcycle.
  - intros Hq s s1 s2 s3 s4 H1 H2 H3 H4. rewrite (Hcycle Hq s).
    unfold bind at 1, act at 1. unfold bind at 1. rewrite H1.
    unfold bind at 1, act at 1. unfold bind at 1, act at 1.
    unfold bind at 1. rewrite H2.
    unfold bind at 1, act at 1. unfold bind at 1. rewrite H3.
    unfold bind at 1. rewrite H4. reflexivity.
Qed.

(** ** A heartbeat that stops *)

(** X27.  [StartBeating] never returns an error: an error of a heartbeat
    is logged as a warning and the loop goes on.  It returns, with nil, only
    at the head of its loop, when the context is cancelled or the heartbeat
    was stopped; if that is the case when it starts, it sends nothing. *)
Theorem StartBeating_returns_nil (out : Outside) (h : HTTPDashboardHandler)
  (fuel rfuel : nat) (s : State) :
  (forall err s',
      StartBeating out h fuel rfuel s = Done err s' -> err = None) /\
  (urlParses out (HeartBeatEndpoint h) = true ->
   ctxDone out (ncalls (env s)) || stopRequested out (ncalls (env s)) = true ->
   exists s',
     StartBeating out h (S fuel) rfuel s = Done None s' /\
     gw s' = gw s /\ actions (trace (env s')) = actions (trace (env s))).
Proof.
  split.
  - assert (Hloop : forall fuel req s0 err s',
               beatLoop out h fuel rfuel req s0 = Done err s' -> err = None).
    { clear. induction fuel as [|fuel IH]; intros req s0 err s'; [discriminate|].
      cbn [beatLoop].
      destruct (ctxDone out _); [now intros [= <- _]|].
      destruct (stopRequested out _); [now intros [= <- _]|].
      unfold bind at 1.
      destruct (beatOnce out h rfuel req s0) as [[] s1| |]; try discriminate.
      apply IH. }
    intros err s'. unfold StartBeating, bind.
    destruct (newRequest out h "GET" (HeartBeatEndpoint h) s) as [req s1| |];
      try discriminate.
    apply Hloop.
  - intros Hurl Hstop. unfold StartBeating, bind.
    destruct (newRequest_Done out h "GET" (HeartBeatEndpoint h) s Hurl)
      as (req & -> & _).
    cbn [beatLoop].
    destruct (ctxDone out (ncalls (env s))).
    + eexists. split; [reflexivity|]. split; [reflexivity|].
      cbn [logf emit env trace]. rewrite actions_app. cbn. apply app_nil_r.
    + cbn [orb] in Hstop. rewrite Hstop.
      eexists. split; [reflexivity|]. split; [reflexivity|].
      cbn [logf emit env trace]. rewrite actions_app. cbn. apply app_nil_r.
Qed.

(** ** The dashboard handler *)

(** X28.  With a connection string configured, [Init] returns exactly when
    the node secret is not empty and ends the process otherwise; the handler
    it returns holds the node secret of the configuration, and its four
    endpoints are the connection string followed by the fixed paths; the
    gateway and the trace are untouched.  Without a connection string and
    with zeroconf disabled, [Init] ends the process with a fatal log line,
    whatever the node secret is. *)
Theorem Init_spec (s : State) :
  let cs := DBAppConfOptions_ConnectionString (config (gw s)) in
  (cs <> EmptyString ->
   (forall h s',
       Init s = Done h s' ->
       s' = s /\
       dash_Secret h = NodeSecret (config (gw s)) /\
       dash_Secret h <> EmptyString /\
       RegistrationEndpoint h = cs +:+ "/register/node" /\
       DeRegistrationEndpoint h = cs +:+ "/system/node" /\
       HeartBeatEndpoint h = cs +:+ "/register/ping" /\
       KeyQuotaTriggerEndpoint h = cs +:+ "/system/key/quota_trigger") /\
   (NodeSecret (config (gw s)) = EmptyString ->
    Init s
    = Exited (logf LvlFatal
                "Node secret is not set, required for dashboard connection"
                [] s)) /\
   (NodeSecret (config (gw s)) <> EmptyString ->
    exists h, Init s = Done h s)) /\
  (cs = EmptyString -> DisableDashboardZeroConf (config (gw s)) = true ->
   Init s = Exited (logf LvlFatal "Connection string is empty, failing." [] s)).
Proof.
  intros cs.
  assert (Hconn : cs <> EmptyString ->
                  forall resource, buildDashboardConnStr resource s
                                   = Done (cs +:+ resource) s).
  { intros Hcs resource. unfold buildDashboardConnStr. fold cs.
    apply String.eqb_neq in Hcs. rewrite Hcs.
    cbn [andb]. now rewrite andb_false_r. }
  split.
  - intros Hcs. split; [|split].
    + intros h s'. unfold Init, bind. rewrite !(Hconn Hcs).
      destruct (String.eqb_spec (NodeSecret (config (gw s))) EmptyString)
        as [He|Hne]; [discriminate|].
      intros [= <- <-]. repeat split. exact Hne.
    + intros Hsecret. unfold Init, bind. rewrite !(Hconn Hcs), Hsecret.
      reflexivity.
    + intros Hsecret. unfold Init, bind. rewrite !(Hconn Hcs).
      apply String.eqb_neq in Hsecret. rewrite Hsecret.
      eexists. reflexivity.
  - intros Hcs Hzero. unfold Init. unfold bind at 1.
    unfold buildDashboardConnStr at 1. fold cs. rewrite Hcs, Hzero.
    reflexivity.
Qed.

(** ** Access rights of a dashboard policy *)

(** X29.  [ToRegularPolicy] keeps the embedded policy but for its access
    rights, which it builds anew from the dashboard's: one entry per key of
    the dashboard's map, with the same API and versions, and with the limit
    the dashboard gave, or the zero limit when it gave none.  The access
    rights the embedded policy came with are dropped. *)
Theorem ToRegularPolicy_spec (d : DBPolicy) :
  let p := ToRegularPolicy d in
  (forall k, AccessRights p !! k = ToRegularAD <$> db_AccessRights d !! k) /\
  dom (AccessRights p) = dom (db_AccessRights d) /\
  (forall k v ad,
      db_AccessRights d !! k = Some v -> AccessRights p !! k = Some ad ->
      ad_APIID ad = db_APIID v /\ ad_APIName ad = db_APIName v /\
      ad_Versions ad = db_Versions v /\ ad_AllowedURLs ad = db_AllowedURLs v /\
      ad_Limit ad = default zeroAPILimit (db_Limit v)) /\
  (MID p, ID p, pol_Name p, OrgID p, Rate p, Per p, QuotaMax p)
  = (MID (db_Policy d), ID (db_Policy d), pol_Name (db_Policy d),
     OrgID (db_Policy d), Rate (db_Policy d), Per (db_Policy d),
     QuotaMax (db_Policy d)) /\
  (forall ar,
      ToRegularPolicy {| db_Policy := set_AccessRights (db_Policy d) ar;
                         db_AccessRights := db_AccessRights d |} = p).
Proof.
  intros p. unfold p, ToRegularPolicy. cbn [AccessRights set_AccessRights].
  split; [|split; [|split; [|split]]].
  - intros k. apply lookup_fmap.
  - apply dom_fmap_L.
  - intros k v ad Hv. rewrite lookup_fmap, Hv. intros [= <-].
    unfold ToRegularAD. cbn [ad_APIID ad_APIName ad_Versions ad_AllowedURLs ad_Limit].
    do 4 (split; [reflexivity|]). now destruct (db_Limit v).
  - reflexivity.
  - reflexivity.
Qed.

(** ** Defaults and secrets of the configuration *)

Lemma resolveField_Done (Getenv ToUpper : string -> string)
  (NewConsul NewVault : option kv_Store * option string)
  (OpenTelemetry : Type) (secrets : gmap string string) (msg value : string)
  (k : string -> KVState -> @SetupResult OpenTelemetry) (st st' : KVState)
  (c : @SetupConfig OpenTelemetry) (g : SetupGlobals) :
  resolveField Getenv ToUpper NewConsul NewVault secrets msg value k st
  = SetupDone c g st' ->
  exists v st1,
    kvStore secrets Getenv ToUpper NewConsul NewVault value st
    = (Some (v, None), st1) /\
    k v st1 = SetupDone c g st'.
Proof.
  unfold resolveField.
  destruct (kvStore secrets Getenv ToUpper NewConsul NewVault value st)
    as [[[v [e|]]|] st1]; try discriminate.
  intros H. now exists v, st1.
Qed.

(** X30.  When [afterConfSetup] stores a configuration, no default is
    missing from it: the purge interval is not zero and the health and
    readiness endpoints are named; for a slave of an RPC source the group
    id, the call and ping timeouts, the key space sync interval and the two
    cache expirations are set as well, while without RPC these are left as
    configured, zero or not.  A value that was set is kept.  The secret is
    what [kvStore] resolved the configured secret to, the RPC timeouts of
    package [rpc] are those of the stored configuration, and a configured
    API key is remembered, unresolved, as the original key path. *)
Theorem afterConfSetup_defaults (Getenv ToUpper : string -> string)
  (NewConsul NewVault : option kv_Store * option string)
  (OpenTelemetry : Type) (otel_Enabled : OpenTelemetry -> bool)
  (otel_ResourceName : OpenTelemetry -> string)
  (otel_setResourceName : OpenTelemetry -> string -> OpenTelemetry)
  (otel_SetDefaults : OpenTelemetry -> OpenTelemetry)
  (DefaultOTelResourceName : string)
  (conf c : @SetupConfig OpenTelemetry) (g : SetupGlobals) (st st' : KVState) :
  afterConfSetup Getenv ToUpper NewConsul NewVault otel_Enabled
    otel_ResourceName otel_setResourceName otel_SetDefaults
    DefaultOTelResourceName conf st = SetupDone c g st' ->
  sc_PurgeInterval c <> 0%Z /\
  sc_HealthCheckEndpointName c <> EmptyString /\
  sc_ReadinessCheckEndpointName c <> EmptyString /\
  (sc_UseRPC conf = true ->
   sc_GroupID c <> EmptyString /\ sc_CallTimeout c <> 0%Z /\
   sc_PingTimeout c <> 0%Z /\ sc_KeySpaceSyncInterval c <> 0%Z /\
   sc_RPCCertCacheExpiration c <> 0%Z /\
   sc_RPCGlobalCacheExpiration c <> 0%Z) /\
  (sc_UseRPC conf = false ->
   (sc_GroupID c, sc_CallTimeout c, sc_PingTimeout c,
    sc_KeySpaceSyncInterval c, sc_RPCCertCacheExpiration c,
    sc_RPCGlobalCacheExpiration c)
   = (sc_GroupID conf, sc_CallTimeout conf, sc_PingTimeout conf,
      sc_KeySpaceSyncInterval conf, sc_RPCCertCacheExpiration conf,
      sc_RPCGlobalCacheExpiration conf)) /\
  (sc_PurgeInterval conf <> 0%Z -> sc_PurgeInterval c = sc_PurgeInterval conf) /\
  (sc_CallTimeout conf <> 0%Z -> sc_CallTimeout c = sc_CallTimeout conf) /\
  (sc_PingTimeout conf <> 0%Z -> sc_PingTimeout c = sc_PingTimeout conf) /\
  (sc_HealthCheckEndpointName conf <> EmptyString ->
   sc_HealthCheckEndpointName c = sc_HealthCheckEndpointName conf) /\
  (sc_GroupID conf <> EmptyString -> sc_GroupID c = sc_GroupID conf) /\
  (sc_KeySpaceSyncInterval conf <> 0%Z ->
   sc_KeySpaceSyncInterval c = sc_KeySpaceSyncInterval conf) /\
  (sc_RPCCertCacheExpiration conf <> 0%Z ->
   sc_RPCCertCacheExpiration c = sc_RPCCertCacheExpiration conf) /\
  (sc_RPCGlobalCacheExpiration conf <> 0%Z ->
   sc_RPCGlobalCacheExpiration c = sc_RPCGlobalCacheExpiration conf) /\
  (sc_ReadinessCheckEndpointName conf <> EmptyString ->
   sc_ReadinessCheckEndpointName c = sc_ReadinessCheckEndpointName conf) /\
  (exists st1,
      kvStore (sc_Secrets conf) Getenv ToUpper NewConsul NewVault
        (sc_Secret conf) st = (Some (sc_Secret c, None), st1)) /\
  GlobalRPCPingTimeout g = int_mul Second (sc_PingTimeout c) /\
  GlobalRPCCallTimeout g = int_mul Second (sc_CallTimeout c) /\
  (sc_APIKey conf <> EmptyString ->
   sc_EdgeOriginalAPIKeyPath c = sc_APIKey conf).
Proof.
  unfold afterConfSetup. cbn zeta. intros H.
  apply resolveField_Done in H as (secret & st1 & Hsecret & H).
  apply resolveField_Done in H as (nodeSecret & st2 & _ & H).
  apply resolveField_Done in H as (storagePassword & st3 & _ & H).
  apply resolveField_Done in H as (cachePassword & st4 & _ & H).
  apply resolveField_Done in H as (certSecret & st5 & _ & H).
  destruct (sc_UseDBAppConfigs conf);
    [apply resolveField_Done in H as (connStr & st6 & _ & H)|];
    (destruct (String.eqb (sc_PolicySource conf) "service");
     [apply resolveField_Done in H as (policyConnStr & st7 & _ & H)|]);
    (destruct (negb (String.eqb (sc_APIKey conf) EmptyString)) eqn:Ek;
     [apply resolveField_Done in H as (apiKey & st8 & _ & H)|]).
  all: injection H as <- <- _.
  all: cbn [sc_PurgeInterval sc_HealthCheckEndpointName
              sc_ReadinessCheckEndpointName sc_GroupID sc_CallTimeout
              sc_PingTimeout sc_KeySpaceSyncInterval sc_RPCCertCacheExpiration
              sc_RPCGlobalCacheExpiration sc_Secret sc_EdgeOriginalAPIKeyPath
              GlobalRPCPingTimeout GlobalRPCCallTimeout].
  all: unfold orDefaultZ, orDefaultString.
  all: split; [destruct (Z.eqb_spec (sc_PurgeInterval conf) 0); lia|].
  all: split;
    [destruct (String.eqb_spec (sc_HealthCheckEndpointName conf) EmptyString);
     [discriminate | assumption]|].
  all: split;
    [destruct (String.eqb_spec (sc_ReadinessCheckEndpointName conf) EmptyString);
     [discriminate | assumption]|].
  all: split;
    [intros ->;
     split; [destruct (String.eqb_spec (sc_GroupID conf) EmptyString);
             [discriminate | assumption]|];
     split; [destruct (Z.eqb_spec (sc_CallTimeout conf) 0); lia|];
     split; [destruct (Z.eqb_spec (sc_PingTimeout conf) 0); lia|];
     split; [destruct (Z.eqb_spec (sc_KeySpaceSyncInterval conf) 0); lia|];
     split; [destruct (Z.eqb_spec (sc_RPCCertCacheExpiration conf) 0); lia|];
     destruct (Z.eqb_spec (sc_RPCGlobalCacheExpiration conf) 0); lia|].
  all: split; [intros ->; reflexivity|].
  all: split; [intros Hne; apply Z.eqb_neq in Hne; now rewrite Hne|].
  all: split; [intros Hne; apply Z.eqb_neq in Hne; rewrite Hne;
               now destruct (sc_UseRPC conf)|].
  all: split; [intros Hne; apply Z.eqb_neq in Hne; rewrite Hne;
               now destruct (sc_UseRPC conf)|].
  all: split; [intros Hne; apply String.eqb_neq in Hne; now rewrite Hne|].
  all: split; [intros Hne; apply String.eqb_neq in Hne; rewrite Hne;
               now destruct (sc_UseRPC conf)|].
  all: split; [intros Hne; apply Z.eqb_neq in Hne; rewrite Hne;
               now destruct (sc_UseRPC conf)|].
  all: split; [intros Hne; apply Z.eqb_neq in Hne; rewrite Hne;
               now destruct (sc_UseRPC conf)|].
  all: split; [intros Hne; apply Z.eqb_neq in Hne; rewrite Hne;
               now destruct (sc_UseRPC conf)|].
  all: split; [intros Hne; apply String.eqb_neq in Hne; now rewrite Hne|].
  all: split; [now exists st1|].
  all: split; [reflexivity|]. 
  all: split; [reflexivity|].
  all: intros Hne; apply String.eqb_neq in Hne; rewrite Hne in Ek;
    first [discriminate Ek | reflexivity].
Qed.

(** ** Instances *)

Lemma afterConfSetup_defaults_witness :
  exists c g st',
    afterConfSetup (fun _ => "k3y") (fun s => s) (None, Some "no consul")
      (None, Some "no vault") (fun _ => false) (fun _ => EmptyString)
      (fun o _ => o) (fun o => o) "tyk-gateway" sampleSetupConfig emptyKVState
    = SetupDone c g st' /\
    sc_CallTimeout c <> 0%Z /\ sc_EdgeOriginalAPIKeyPath c = "env://api_key".
Proof.
  destruct (afterConfSetup (fun _ => "k3y") (fun s => s) (None, Some "no consul")
              (None, Some "no vault") (fun _ => false) (fun _ => EmptyString)
              (fun o _ => o) (fun o => o) "tyk-gateway" sampleSetupConfig
              emptyKVState) as [c g st'|msg err st'|st'] eqn:E.
  - exists c, g, st'. split; [reflexivity|].
    destruct (afterConfSetup_defaults _ _ _ _ unit _ _ _ _ _ _ _ _ _ _ E)
      as (_ & _ & _ & Hrpc & _ & _ & _ & _ & _ & _ & _ & _ & _ & _ & _ & _ & _
          & Hedge).
    split; [apply Hrpc; reflexivity | apply Hedge; discriminate].
  - vm_compute in E. discriminate E.
  - vm_compute in E. discriminate E.
Defined.

Lemma sendHeartBeat_nonce_witness :
  let out := dashboardOutside (nodeAnswer ∅ "nonce-1") false in
  let s := sampleState sampleConfig [] in
  let req := {| out_Method := "GET"; out_URL := HeartBeatEndpoint sampleHandler;
                out_Header := ∅ |} in
  exists s', sendHeartBeat out sampleHandler 1 req s = Done None s' /\
             ServiceNonce (gw s') = "nonce-1" /\
             Header_Get (out_Header (stampRequest req s')) XTykNonce = "nonce-1".
Proof.
  intros out s req.
  destruct (sendHeartBeat_nonce out sampleHandler 1 req s)
    as (_ & _ & Hok & _).
  destruct (Hok _ _ eq_refl eq_refl) as (s' & Hrun & Hn & _ & _ & Hnext).
  exists s'. split; [exact Hrun|]. split; [exact Hn | apply Hnext].
Defined.

Lemma kvStore_secrets_witness :
  fst (kvStore {["gw" := "s3cret"]} (fun _ => EmptyString) (fun s => s)
         (None, Some "no consul") (None, Some "no vault") "secrets://gw"
         emptyKVState) = Some ("s3cret", None) /\
  kvStore {["gw" := "s3cret"]} (fun _ => EmptyString) (fun s => s)
    (None, Some "no consul") (None, Some "no vault") "p4ssword" emptyKVState
  = (Some ("p4ssword", None), emptyKVState).
Proof.
  destruct (kvStore_secrets {["gw" := "s3cret"]} (fun _ => EmptyString)
              (fun s => s) (None, Some "no consul") (None, Some "no vault")
              emptyKVState) as [Hsecret Hplain].
  split.
  - destruct (Hsecret "gw") as (st' & Heq & _).
    change ("secrets://" +:+ "gw") with "secrets://gw" in Heq.
    now rewrite Heq.
  - apply Hplain; reflexivity.
Defined.

Lemma kvStore_remote_witness :
  fst (kvStore ∅ (fun _ => EmptyString) (fun s => s)
         (None, Some "no consul") (None, Some "no vault") "consul://db/password"
         emptyKVState) = Some ("consul://db/password", None).
Proof.
  destruct (kvStore_remote ∅ (fun _ => EmptyString) (fun s => s)
              (None, Some "no consul") (None, Some "no vault") "db/password"
              emptyKVState) as [Hconsul _].
  destruct (Hconsul eq_refl "no consul" eq_refl) as [Hv _].
  exact Hv.
Defined.

Lemma StartBeating_returns_nil_witness :
  let out := dashboardOutside (DoErr "down") true in
  let s := sampleState sampleConfig [] in
  exists s', StartBeating out sampleHandler 1 1 s = Done None s' /\
             actions (trace (env s')) = [].
Proof.
  intros out s.
  destruct (StartBeating_returns_nil out sampleHandler 0 1 s) as [_ H].
  destruct (H eq_refl eq_refl) as (s' & Hrun & _ & Hact).
  exists s'. split; [exact Hrun | exact Hact].
Defined.

Lemma Init_spec_witness :
  let s := sampleState sampleConfig [] in
  exists h, Init s = Done h s /\
            HeartBeatEndpoint h = "http://dashboard:3000/register/ping".
Proof.
  intros s. destruct (Init_spec s) as [Hset _].
  destruct Hset as (Hdone & _ & Hok); [discriminate|].
  destruct Hok as [h Hrun]; [discriminate|].
  exists h. split; [exact Hrun|].
  destruct (Hdone h s Hrun) as (_ & _ & _ & _ & _ & Hhb & _). exact Hhb.
Defined.

Lemma reloadTick_coalesces_witness :
  let out := sampleOutside (DoResp StatusOK (policiesBody [])) [] in
  let s := sampleState sampleConfig [] in
  reloadTick out nat (fun _ => ret tt) (ret tt) [] [None; None; None] s
  = reloadTick out nat (fun _ => ret tt) (ret tt) [] [None] s.
Proof.
  intros out s.
  destruct (reloadTick_coalesces out nat (fun _ => ret tt) (ret tt) []
              [None; None; None] [None]) as (_ & H & _).
  apply H; [discriminate | discriminate | reflexivity].
Defined.
